(** * HorovodEstimator notebook: a shallow embedding and its properties

    The source is the Databricks notebook
    [chapter_code/chapter32_Spark_AI/HorovodEstimator.py].  It loads MNIST
    into a Spark table, declares a TensorFlow [model_fn], configures a
    [HorovodEstimator], fits it twice, transforms the table twice and copies
    the checkpoint directory to DBFS.

    The notebook's own code is embedded as Rocq functions; calls into
    numpy, Spark, TensorFlow, Horovod and dbutils are embedded through
    small executable models of the part of their contract the notebook
    relies on, or (training and inference) as oracles. *)

From Stdlib Require Import ZArith QArith Ascii String List Lia.
From stdpp Require Import base option list strings gmap fin_maps.

Local Open Scope Z_scope.
Local Open Scope string_scope.
Local Open Scope list_scope.

(** ** Python and Spark values *)

(** A value as it appears in a Python list or a Spark row: [None]/null, a
    boolean, an integer, a floating-point number (here with exact rational
    arithmetic) or a list/array. *)
#[warnings="-register-all"]
Inductive Value : Type :=
  | VNull : Value
  | VBool : bool -> Value
  | VInt : Z -> Value
  | VFloat : Q -> Value
  | VList : list Value -> Value.

(** ** Module Py: the Python and numpy operations the notebook uses *)
Module Py.

(** [s[n:]] for a non-negative [n]: the string without its first [n]
    characters (the empty string when it has fewer). *)
Fixpoint slice_from (n : nat) (s : string) : string :=
  match n, s with
  | O, _ => s
  | S n', String _ rest => slice_from n' rest
  | S _, EmptyString => EmptyString
  end.

(** A numpy array of integers: its shape and its elements in row-major
    order. *)
Record ndarray : Type := mk_ndarray {
  shape : list nat;
  elems : list Z
}.

Definition size_of (dims : list nat) : nat := fold_right Nat.mul 1%nat dims.

(** numpy keeps [length elems = product of shape]. *)
Definition well_shaped (a : ndarray) : Prop :=
  length (elems a) = size_of (shape a).

(** [a.shape[0]]; IndexError on a 0-dimensional array. *)
Definition shape0 (a : ndarray) : option nat := head (shape a).

(** [len(a)], the first dimension. *)
Definition len (a : ndarray) : option nat := shape0 a.

(** [a.reshape((n, -1))]: the second dimension is inferred from the total
    size; numpy raises ValueError when the size is not a multiple of [n]
    (and when [n] is 0). *)
Definition reshape_rows (a : ndarray) (n : nat) : option ndarray :=
  let total := size_of (shape a) in
  if (n =? 0)%nat then None
  else if (total mod n =? 0)%nat
       then Some (mk_ndarray [n; (total / n)%nat] (elems a))
       else None.

(** [a[i]] on a two-dimensional array: row [i], IndexError out of range. *)
Definition row (a : ndarray) (i : nat) : option (list Z) :=
  match shape a with
  | [n; k] => if (i <? n)%nat then Some (take k (drop (i * k) (elems a))) else None
  | _ => None
  end.

(** [a[i]] on a one-dimensional array. *)
Definition item (a : ndarray) (i : nat) : option Z :=
  match shape a with
  | [n] => if (i <? n)%nat then elems a !! i else None
  | _ => None
  end.

(** [r.astype(float).tolist()]: every element becomes a Python float. *)
Definition astype_float_tolist (r : list Z) : list Value :=
  map (fun z => VFloat (inject_Z z)) r.

(** [int(y)]. *)
Definition int (z : Z) : Value := VInt z.

End Py.

(** ** Module Loader: the first notebook cell (lines 14-19) *)
Module Loader.

(** [x_train = x_train.reshape((x_train.shape[0], -1))] *)
Definition flatten_images (x_train : Py.ndarray) : option Py.ndarray :=
  n ← Py.shape0 x_train;
  Py.reshape_rows x_train n.

(** One element of the comprehension:
    [(x_train[i].astype(float).tolist(), int(y_train[i]))]. *)
Definition record_at (x_train y_train : Py.ndarray) (i : nat) : option (Value * Value) :=
  r ← Py.row x_train i;
  y ← Py.item y_train i;
  Some (VList (Py.astype_float_tolist r), Py.int y).

(** [data = [... for i in range(len(y_train))]], with [x_train] already
    flattened.  [None] stands for a Python exception. *)
Definition data (x_train y_train : Py.ndarray) : option (list (Value * Value)) :=
  x ← flatten_images x_train;
  n ← Py.len y_train;
  mapM (record_at x y_train) (seq 0 n).

(** A record as the loader builds it from MNIST: a list of 784 floats and
    an integer label between 0 and 9. *)
Definition mnist_record (rec : Value * Value) : Prop :=
  exists img lbl, rec = (VList img, VInt lbl)
    /\ length img = 784%nat
    /\ (forall v, v ∈ img -> exists q, v = VFloat q)
    /\ 0 <= lbl <= 9.

End Loader.

(** ** Module Spark: rows, schemas and the column expressions used *)
Module Spark.

Inductive DataType : Type :=
  | BooleanType
  | LongType
  | FloatType
  | DoubleType
  | ArrayType (elem : DataType).

(** [a < b] on rationals, as a boolean. *)
Definition Qltb (a b : Q) : bool := negb (Qle_bool b a).

(** Schema verification of one value ([createDataFrame] with an explicit
    schema, fields nullable by default): null conforms to every type.
    Only the kind of value is checked; the 64-bit range of a long is not
    modelled. *)
Fixpoint conforms (t : DataType) (v : Value) {struct v} : bool :=
  match v, t with
  | VNull, _ => true
  | VBool _, BooleanType => true
  | VInt _, LongType => true
  | VFloat _, (FloatType | DoubleType) => true
  | VList l, ArrayType e => forallb (conforms e) l
  | _, _ => false
  end.

(** A table: the declared columns and the rows, each row holding one value
    per column in schema order. *)
Record Table : Type := mk_table {
  schema : list (string * DataType);
  rows : list (list Value)
}.

Definition row_conforms (sch : list (string * DataType)) (r : list Value) : bool :=
  bool_decide (length r = length sch) && forallb (fun tv => conforms (snd (fst tv)) (snd tv)) (zip sch r).

(** [spark.createDataFrame(data, schema)] on a list of pairs: every record
    is checked against the schema; [None] stands for the TypeError raised
    on a mismatch.  Values are kept as they are: the rounding of a float
    column to single precision is not modelled. *)
Definition createDataFrame (data : list (Value * Value)) (sch : list (string * DataType)) : option Table :=
  let rs := map (fun p => [fst p; snd p]) data in
  if forallb (row_conforms sch) rs then Some (mk_table sch rs) else None.

(** Position of a column in a schema. *)
Fixpoint col_index (name : string) (sch : list (string * DataType)) : option nat :=
  match sch with
  | [] => None
  | (n, _) :: rest => if String.eqb n name then Some O else S <$> col_index name rest
  end.

(** The value of column [name] in row [i] of a table. *)
Definition cell (t : Table) (i : nat) (name : string) : option Value :=
  r ← rows t !! i;
  j ← col_index name (schema t);
  r !! j.

(** Column expressions: [rand()], literals, [a > b] and
    [when(c, v)] with an optional [.otherwise(e)]. *)
#[warnings="-register-all"]
Inductive Column : Type :=
  | rand : Column
  | lit : Value -> Column
  | gt : Column -> Column -> Column
  | CaseWhen : Column -> Column -> option Column -> Column.

Definition when (c v : Column) : Column := CaseWhen c v None.

(** [w.otherwise(e)]: only on a [when] that has no [otherwise] yet. *)
Definition otherwise (w e : Column) : option Column :=
  match w with
  | CaseWhen c v None => Some (CaseWhen c v (Some e))
  | _ => None
  end.

(** SQL evaluation of a column expression on one row, where [draw] is the
    value [rand()] produces for that row.  A comparison with null is null;
    a CASE whose condition is null or false takes the ELSE branch, and is
    null without one.  [None] stands for an analysis error. *)
Fixpoint eval (draw : Q) (c : Column) : option Value :=
  match c with
  | rand => Some (VFloat draw)
  | lit v => Some v
  | gt a b =>
      x ← eval draw a;
      y ← eval draw b;
      match x, y with
      | VNull, _ | _, VNull => Some VNull
      | VFloat p, VFloat q => Some (VBool (Qltb q p))
      | VInt p, VInt q => Some (VBool (q <? p)%Z)
      | _, _ => None
      end
  | CaseWhen c v e =>
      b ← eval draw c;
      match b with
      | VBool true => eval draw v
      | VBool false | VNull =>
          match e with
          | Some e' => eval draw e'
          | None => Some VNull
          end
      | _ => None
      end
  end.

(** The type Spark gives a column expression. *)
Fixpoint type_of (c : Column) : option DataType :=
  match c with
  | rand => Some DoubleType
  | lit (VBool _) => Some BooleanType
  | lit (VInt _) => Some LongType
  | lit (VFloat _) => Some DoubleType
  | lit _ => None
  | gt _ _ => Some BooleanType
  | CaseWhen _ v _ => type_of v
  end.

(** Rows [i, i+1, ...] extended with the value of [c], row [i + k] using
    the draw [draws (i + k)]. *)
Fixpoint append_column (draws : nat -> Q) (c : Column) (i : nat) (rs : list (list Value)) : option (list (list Value)) :=
  match rs with
  | [] => Some []
  | r :: rest =>
      v ← eval (draws i) c;
      rest' ← append_column draws c (S i) rest;
      Some ((r ++ [v]) :: rest')
  end.

(** [df.withColumn(name, c)] for a column name the table does not have
    yet: a new table with the column appended (the input table is not
    changed).  [draws i] is what [rand()] yields on row [i].  Replacing an
    existing column is not needed by the notebook and is reported as
    [None]. *)
Definition withColumn (name : string) (c : Column) (draws : nat -> Q) (df : Table) : option Table :=
  match col_index name (schema df) with
  | Some _ => None
  | None =>
      ty ← type_of c;
      rs ← append_column draws c O (rows df);
      Some (mk_table (schema df ++ [(name, ty)]) rs)
  end.

End Spark.

(** ** Module TF: the graph a [model_fn] call builds *)
Module TF.

(** [tf.estimator.ModeKeys]. *)
Inductive Mode : Type := TRAIN | EVAL | PREDICT.

#[global] Instance Mode_eq_dec : EqDecision Mode.
Proof. solve_decision. Defined.

Inductive DType : Type := int32 | float32.

(** A tensor handle names the graph node that produces it.  TensorFlow 1.x
    builds the graph symbolically: the calls of [model_fn] create nodes,
    nothing is evaluated until the estimator runs the graph.  A node stands
    for one call of the source, not for the operations TensorFlow expands
    it to, and exceptions raised inside a library call (a hidden-layer
    width of 0 in [mnist.inference], for one) are not modelled. *)
Inductive Tensor : Type :=
  | Placeholder (column : string)
  | Inference (images : Tensor) (hidden1_units hidden2_units : Value)
  | ArgMax (input : Tensor) (axis : Z) (name : string)
  | Softmax (logits : Tensor) (name : string)
  | Cast (x : Tensor) (dtype : DType)
  | OneHot (indices : Tensor) (depth : Z)
  | SoftmaxCrossEntropy (onehot_labels logits : Tensor)
  | GlobalStep.

(** [tf.train.MomentumOptimizer] and Horovod's wrapper around an
    optimizer. *)
Inductive Optimizer : Type :=
  | MomentumOptimizer (learning_rate momentum : Q)
  | DistributedOptimizer (base : Optimizer).

(** [optimizer.minimize(loss, global_step)]. *)
Inductive Operation : Type :=
  | Minimize (opt : Optimizer) (loss global_step : Tensor).

(** [tf.metrics.accuracy(labels, predictions)]. *)
Inductive Metric : Type :=
  | Accuracy (labels predictions : Tensor).

(** [tf.train.LoggingTensorHook(tensors, every_n_iter)]; the tensors are
    given by node name. *)
Inductive Hook : Type :=
  | LoggingTensorHook (tensors : gmap string string) (every_n_iter : Z).

(** [tf.estimator.export.PredictOutput(outputs)]. *)
Inductive ExportOutput : Type :=
  | PredictOutput (outputs : gmap string Tensor).

(** [tf.estimator.EstimatorSpec]; an argument that is not passed keeps its
    default [None]. *)
Record EstimatorSpec : Type := mk_spec {
  mode : Mode;
  predictions : option (gmap string Tensor);
  loss : option Tensor;
  train_op : option Operation;
  eval_metric_ops : option (gmap string Metric);
  export_outputs : option (gmap string ExportOutput);
  training_hooks : option (list Hook)
}.

(** What a call adds to the default graph. *)
Inductive Node : Type :=
  | NTensor (t : Tensor)
  | NOptimizer (o : Optimizer)
  | NOperation (op : Operation)
  | NMetric (m : Metric).

Inductive Error : Type :=
  | KeyError (key : string)
  | ValueError (what : string).

(** Graph construction: a computation sees the nodes built so far and
    either raises or returns a value and the extended graph. *)
Definition Build (A : Type) : Type := list Node -> Error + (A * list Node).

Definition ret {A} (a : A) : Build A := fun g => inr (a, g).

Definition bind {A B} (m : Build A) (k : A -> Build B) : Build B :=
  fun g => match m g with
           | inl e => inl e
           | inr (a, g') => k a g'
           end.

Definition raise {A} (e : Error) : Build A := fun _ => inl e.

(** Adding a node to the graph (nodes are kept in creation order). *)
Definition emit (n : Node) : Build unit := fun g => inr (tt, g ++ [n]).

(** [d[key]] on a Python dict. *)
Definition getitem {V} (d : gmap string V) (key : string) : Build V :=
  match d !! key with
  | Some v => ret v
  | None => raise (KeyError key)
  end.

(** A TensorFlow call that builds tensor [t]. *)
Definition op (t : Tensor) : Build Tensor := bind (emit (NTensor t)) (fun _ => ret t).

(** Converting a Python argument to a tensor fails on [None]. *)
Definition convert (x : option Tensor) : Build Tensor :=
  match x with
  | Some t => ret t
  | None => raise (ValueError "None values not supported.")
  end.

#[global] Instance Build_ret : MRet Build := @ret.
#[global] Instance Build_bind : MBind Build := fun A B k m => bind m k.

End TF.

(** ** Module Model: [model_fn] (lines 28-87) *)
Module Model.
Import TF.

(** [tf.saved_model.signature_constants.DEFAULT_SERVING_SIGNATURE_DEF_KEY] *)
Definition serving_key : string := "serving_default".

(** The base learning rate of line 74. *)
Definition base_learning_rate : Q := 0.001.

(** [model_fn(features, labels, mode, params)].  [hvd_size] is what
    [hvd.size()] returns in the calling process; [labels] is [None] when
    the estimator predicts. *)
Definition model_fn (hvd_size : Z)
    (features : gmap string Tensor) (labels : option Tensor)
    (mode : Mode) (params : gmap string Value) : Build EstimatorSpec :=
  input_layer ← getitem features "image";
  h1 ← getitem params "hidden1_units";
  h2 ← getitem params "hidden2_units";
  logits ← op (Inference input_layer h1 h2);
  classes ← op (ArgMax logits 1 "classes_tensor");
  probabilities ← op (Softmax logits "softmax_tensor");
  let predictions : gmap string Tensor :=
    <["classes" := classes]> (<["probabilities" := probabilities]> ∅) in
  let export_outputs : gmap string ExportOutput :=
    {[ serving_key := PredictOutput predictions ]} in
  if decide (mode = PREDICT) then
    mret (mk_spec mode (Some predictions) None None None (Some export_outputs) None)
  else
    labels_t ← convert labels;
    indices ← op (Cast labels_t int32);
    onehot_labels ← op (OneHot indices 10);
    loss ← op (SoftmaxCrossEntropy onehot_labels logits);
    if decide (mode = TRAIN) then
      let logging_hooks :=
        [LoggingTensorHook {[ "predictions" := "classes_tensor" ]} 5000] in
      let optimizer := MomentumOptimizer (base_learning_rate * inject_Z hvd_size) 0.9 in
      _ ← emit (NOptimizer optimizer);
      let optimizer := DistributedOptimizer optimizer in
      _ ← emit (NOptimizer optimizer);
      let train_op := Minimize optimizer loss GlobalStep in
      _ ← emit (NOperation train_op);
      mret (mk_spec mode None (Some loss) (Some train_op) None
             (Some export_outputs) (Some logging_hooks))
    else
      let accuracy := Accuracy labels_t classes in
      _ ← emit (NMetric accuracy);
      let eval_metric_ops : gmap string Metric := {[ "accuracy" := accuracy ]} in
      mret (mk_spec mode None (Some loss) None (Some eval_metric_ops)
             (Some export_outputs) None).

(** *** The graph pieces and specifications [model_fn] is shown to build *)

Definition logits_of (image : Tensor) (h1 h2 : Value) : Tensor := Inference image h1 h2.
Definition classes_of (image : Tensor) (h1 h2 : Value) : Tensor :=
  ArgMax (logits_of image h1 h2) 1 "classes_tensor".
Definition probabilities_of (image : Tensor) (h1 h2 : Value) : Tensor :=
  Softmax (logits_of image h1 h2) "softmax_tensor".

Definition predictions_of (image : Tensor) (h1 h2 : Value) : gmap string Tensor :=
  <["classes" := classes_of image h1 h2]>
    (<["probabilities" := probabilities_of image h1 h2]> ∅).

Definition export_of (image : Tensor) (h1 h2 : Value) : gmap string ExportOutput :=
  {[ serving_key := PredictOutput (predictions_of image h1 h2) ]}.

(** Softmax cross-entropy of the logits against the labels one-hot-encoded
    to 10 classes. *)
Definition loss_of (image : Tensor) (h1 h2 : Value) (labels : Tensor) : Tensor :=
  SoftmaxCrossEntropy (OneHot (Cast labels int32) 10) (logits_of image h1 h2).

Definition optimizer_of (hvd_size : Z) : Optimizer :=
  DistributedOptimizer (MomentumOptimizer (base_learning_rate * inject_Z hvd_size) 0.9).

Definition inference_nodes (image : Tensor) (h1 h2 : Value) : list Node :=
  [NTensor (logits_of image h1 h2); NTensor (classes_of image h1 h2);
   NTensor (probabilities_of image h1 h2)].

Definition loss_nodes (image : Tensor) (h1 h2 : Value) (labels : Tensor) : list Node :=
  [NTensor (Cast labels int32); NTensor (OneHot (Cast labels int32) 10);
   NTensor (loss_of image h1 h2 labels)].

Definition training_nodes (hvd_size : Z) (image : Tensor) (h1 h2 : Value) (labels : Tensor) : list Node :=
  [NOptimizer (MomentumOptimizer (base_learning_rate * inject_Z hvd_size) 0.9);
   NOptimizer (optimizer_of hvd_size);
   NOperation (Minimize (optimizer_of hvd_size) (loss_of image h1 h2 labels) GlobalStep)].

Definition predict_spec (image : Tensor) (h1 h2 : Value) : EstimatorSpec :=
  mk_spec PREDICT (Some (predictions_of image h1 h2)) None None None
    (Some (export_of image h1 h2)) None.

Definition train_spec (hvd_size : Z) (image : Tensor) (h1 h2 : Value) (labels : Tensor) : EstimatorSpec :=
  mk_spec TRAIN None (Some (loss_of image h1 h2 labels))
    (Some (Minimize (optimizer_of hvd_size) (loss_of image h1 h2 labels) GlobalStep)) None
    (Some (export_of image h1 h2))
    (Some [LoggingTensorHook {[ "predictions" := "classes_tensor" ]} 5000]).

Definition eval_spec (image : Tensor) (h1 h2 : Value) (labels : Tensor) : EstimatorSpec :=
  mk_spec EVAL None (Some (loss_of image h1 h2 labels)) None
    (Some {[ "accuracy" := Accuracy labels (classes_of image h1 h2) ]})
    (Some (export_of image h1 h2)) None.

(** Nodes that compute a loss, and nodes that belong to training. *)
Definition is_loss_node (n : Node) : bool :=
  match n with
  | NTensor (SoftmaxCrossEntropy _ _) => true
  | _ => false
  end.

Definition is_training_node (n : Node) : bool :=
  match n with
  | NOptimizer _ | NOperation _ => true
  | _ => false
  end.

End Model.

(** ** Module TFSem: what the nodes compute when the graph is run

    The values of the operations [model_fn] names, on a batch.  Numbers
    are rationals; the exponential, the logarithm and the forward pass of
    [mnist.inference] (which depends on the current weights) are taken as
    given functions. *)
Module TFSem.
Import TF.

Inductive TVal : Type :=
  | Mat (m : list (list Q))
  | Ints (v : list Z)
  | Scalar (q : Q).

Definition Qsum (l : list Q) : Q := fold_right Qplus 0%Q l.

(** Index of the largest element of a row, the first one on a tie. *)
Fixpoint argmax_from (best_i : nat) (best : Q) (i : nat) (l : list Q) : nat :=
  match l with
  | [] => best_i
  | x :: rest =>
      if Spark.Qltb best x then argmax_from i x (S i) rest
      else argmax_from best_i best (S i) rest
  end.

Definition argmax_row (l : list Q) : Z :=
  match l with
  | [] => 0
  | x :: rest => Z.of_nat (argmax_from 0 x 1 rest)
  end.

(** Casting a 64-bit integer to [int32] keeps the low 32 bits. *)
Definition wrap32 (z : Z) : Z := (z + 2 ^ 31) mod 2 ^ 32 - 2 ^ 31.

(** [tf.one_hot]: 1.0 at the index, 0.0 elsewhere; an index outside
    [0, depth) gives a row of zeros. *)
Definition one_hot_row (depth : Z) (i : Z) : list Q :=
  map (fun k => if (Z.of_nat k =? i)%Z then 1%Q else 0%Q) (seq 0 (Z.to_nat depth)).

(** Number of positions where two integer vectors agree. *)
Fixpoint count_equal (a b : list Z) : nat :=
  match a, b with
  | x :: a', y :: b' => ((if (x =? y)%Z then 1 else 0) + count_equal a' b')%nat
  | _, _ => O
  end.

(** [tf.metrics.accuracy] on one batch: the fraction of positions where
    the prediction equals the label (0 on an empty batch). *)
Definition accuracy (labels preds : list Z) : Q :=
  match labels with
  | [] => 0%Q
  | _ => inject_Z (Z.of_nat (count_equal preds labels)) / inject_Z (Z.of_nat (length labels))
  end.

(** [i] is the position of a largest element of the row. *)
Definition is_argmax (l : list Q) (i : Z) : Prop :=
  exists x, l !! Z.to_nat i = Some x /\ forall y, y ∈ l -> (y <= x)%Q.

Section Kernels.

Variable exp_ : Q -> Q.
Variable ln_ : Q -> Q.
Variable forward : Value -> Value -> list (list Q) -> list (list Q).
Variable global_step : Z.

Definition softmax_row (l : list Q) : list Q :=
  let total := Qsum (map exp_ l) in
  map (fun x => (exp_ x / total)%Q) l.

(** Cross-entropy of one row of logits against one row of labels. *)
Definition cross_entropy_row (onehot logits : list Q) : Q :=
  (- Qsum (zip_with (fun y p => (y * ln_ p)%Q) onehot (softmax_row logits)))%Q.

(** [tf.losses.softmax_cross_entropy] with unit weights: the mean of the
    per-row cross-entropies. *)
Definition softmax_cross_entropy (onehot logits : list (list Q)) : Q :=
  match logits with
  | [] => 0%Q
  | _ => (Qsum (zip_with cross_entropy_row onehot logits) / inject_Z (Z.of_nat (length logits)))%Q
  end.

(** The value of a tensor when the placeholders are fed with [feed].
    [ArgMax] is modelled along the last axis of a matrix (axis 1 or -1),
    which is the only use in the notebook. *)
Fixpoint eval (feed : string -> option TVal) (t : Tensor) : option TVal :=
  match t with
  | Placeholder c => feed c
  | Inference x h1 h2 =>
      match eval feed x with
      | Some (Mat m) => Some (Mat (forward h1 h2 m))
      | _ => None
      end
  | ArgMax x axis _ =>
      match eval feed x with
      | Some (Mat m) =>
          if decide (axis = 1 ∨ axis = -1) then Some (Ints (map argmax_row m)) else None
      | _ => None
      end
  | Softmax x _ =>
      match eval feed x with
      | Some (Mat m) => Some (Mat (map softmax_row m))
      | _ => None
      end
  | Cast x int32 =>
      match eval feed x with
      | Some (Ints v) => Some (Ints (map wrap32 v))
      | _ => None
      end
  | Cast x float32 => None
  | OneHot x depth =>
      match eval feed x with
      | Some (Ints v) => Some (Mat (map (one_hot_row depth) v))
      | _ => None
      end
  | SoftmaxCrossEntropy y x =>
      match eval feed y, eval feed x with
      | Some (Mat onehot), Some (Mat logits) =>
          if decide (length onehot = length logits)
          then Some (Scalar (softmax_cross_entropy onehot logits)) else None
      | _, _ => None
      end
  | GlobalStep => Some (Ints [global_step])
  end.

Definition eval_metric (feed : string -> option TVal) (m : Metric) : option Q :=
  match m with
  | Accuracy l p =>
      match eval feed l, eval feed p with
      | Some (Ints labels), Some (Ints preds) =>
          if decide (length labels = length preds) then Some (accuracy labels preds) else None
      | _, _ => None
      end
  end.

End Kernels.

End TFSem.

(** ** Module Horovod: what the optimizers do with gradients *)
Module Horovod.
Import TF.

(** Element-wise sum of the workers' gradient vectors. *)
Fixpoint sum_vectors (vs : list (list Q)) : list Q :=
  match vs with
  | [] => []
  | [v] => v
  | v :: rest => zip_with Qplus v (sum_vectors rest)
  end.

(** The all-reduce of [hvd.DistributedOptimizer]: every worker receives
    the element-wise mean of the gradients of all workers. *)
Definition allreduce_average (vs : list (list Q)) : list Q :=
  map (fun s => (s / inject_Z (Z.of_nat (length vs)))%Q) (sum_vectors vs).

(** The gradient worker [w] hands to [apply_gradients], when worker [i]
    computed [local !! i] on its shard of the batch. *)
Fixpoint gradient_applied (o : Optimizer) (local : list (list Q)) (w : nat) : list Q :=
  match o with
  | MomentumOptimizer _ _ => default [] (local !! w)
  | DistributedOptimizer base =>
      allreduce_average (map (gradient_applied base local) (seq 0 (length local)))
  end.

(** The learning rate the update uses. *)
Fixpoint learning_rate_of (o : Optimizer) : Q :=
  match o with
  | MomentumOptimizer lr _ => lr
  | DistributedOptimizer base => learning_rate_of base
  end.

Fixpoint momentum_of (o : Optimizer) : Q :=
  match o with
  | MomentumOptimizer _ mu => mu
  | DistributedOptimizer base => momentum_of base
  end.

(** One momentum update of a variable vector [var] with accumulator [acc]:
    [acc <- mu * acc + g; var <- var - lr * acc]. *)
Definition momentum_update (lr mu : Q) (g : list Q) (st : list Q * list Q) : list Q * list Q :=
  let acc' := zip_with (fun a gi => (mu * a + gi)%Q) (snd st) g in
  (zip_with (fun v a => (v - lr * a)%Q) (fst st) acc', acc').

(** One run of the training operation on worker [w]. *)
Definition run_train_op (t : Operation) (local : list (list Q)) (w : nat)
    (st : list Q * list Q) : list Q * list Q :=
  match t with
  | Minimize o _ _ =>
      momentum_update (learning_rate_of o) (momentum_of o) (gradient_applied o local w) st
  end.

End Horovod.

(** ** Module Dbutils: the two file systems and [dbutils.fs] *)
Module Dbutils.

(** Which file system a path names: the driver's local disk ([file:]) or
    the distributed one ([dbfs:], also the default without a scheme). *)
Inductive Scheme : Type := Local | Dbfs.

#[global] Instance Scheme_eq_dec : EqDecision Scheme.
Proof. solve_decision. Defined.

(** The files of one file system, by path components.  Contents are
    opaque byte strings; a directory exists when a file lies under it. *)
Record Storage : Type := mk_storage {
  local : gmap (list string) string;
  dbfs : gmap (list string) string
}.

(** The components of a slash-separated path; [cur] collects the
    component being read. Empty components are dropped. *)
Fixpoint split_path (s : string) (cur : string) : list string :=
  match s with
  | EmptyString => if String.eqb cur "" then [] else [cur]
  | String c rest =>
      if Ascii.eqb c "/"%char
      then (if String.eqb cur "" then split_path rest "" else cur :: split_path rest "")
      else split_path rest (cur +:+ String c EmptyString)
  end.

(** A path argument of [dbutils.fs]: the scheme (DBFS when there is none;
    a relative path is taken from the root) and the components. *)
Definition resolve (p : string) : Scheme * list string :=
  if String.prefix "file:" p then (Local, split_path (Py.slice_from 5 p) "")
  else if String.prefix "dbfs:" p then (Dbfs, split_path (Py.slice_from 5 p) "")
  else (Dbfs, split_path p "").

Definition store (sch : Scheme) (st : Storage) : gmap (list string) string :=
  match sch with Local => local st | Dbfs => dbfs st end.

Definition set_store (sch : Scheme) (m : gmap (list string) string) (st : Storage) : Storage :=
  match sch with
  | Local => mk_storage m (dbfs st)
  | Dbfs => mk_storage (local st) m
  end.

(** The files at or under a directory. *)
Definition under (dir : list string) (m : gmap (list string) string) : gmap (list string) string :=
  filter (fun kv => dir `prefix_of` fst kv) m.

(** The files that are not at or under a directory. *)
Definition outside (dir : list string) (m : gmap (list string) string) : gmap (list string) string :=
  filter (fun kv => ¬ dir `prefix_of` fst kv) m.

(** [dbutils.fs.rm(path, recurse)]: removes the file or, with [recurse],
    the whole directory; a directory that is not empty cannot be removed
    without [recurse] ([None]).  A path that does not exist is no error. *)
Definition rm (path : string) (recurse : bool) (st : Storage) : option Storage :=
  let '(sch, dir) := resolve path in
  let m := store sch st in
  if recurse then Some (set_store sch (outside dir m) st)
  else if decide (under dir m ⊆ {[ dir := default "" (m !! dir) ]})
       then Some (set_store sch (delete dir m) st)
       else None.

(** [p] without the leading [dir], when [p] lies at or under [dir]. *)
Fixpoint strip_prefix (dir p : list string) : option (list string) :=
  match dir, p with
  | [], _ => Some p
  | d :: dir', x :: p' => if String.eqb d x then strip_prefix dir' p' else None
  | _ :: _, [] => None
  end.

(** Copying the tree under [src] of [from] to [dst] in [to]: each file
    keeps its path relative to the directory and its contents. *)
Definition copy_tree (src dst : list string) (from to : gmap (list string) string) : gmap (list string) string :=
  map_fold (fun p c acc =>
              match strip_prefix src p with
              | Some rel => <[dst ++ rel := c]> acc
              | None => acc
              end) to from.

(** [dbutils.fs.cp(from, to, recurse)]: [None] (an exception) when the
    source does not exist, or is a directory and [recurse] is not set. *)
Definition cp (from to : string) (recurse : bool) (st : Storage) : option Storage :=
  let '(ssch, src) := resolve from in
  let '(dsch, dst) := resolve to in
  let m := store ssch st in
  if decide (under src m = ∅) then None
  else if recurse then Some (set_store dsch (copy_tree src dst m (store dsch st)) st)
  else match m !! src with
       | Some c => Some (set_store dsch (<[dst := c]> (store dsch st)) st)
       | None => None
       end.

(** [rm -rf dir] in a [%sh] cell, on the driver's local disk. *)
Definition sh_rm_rf (dir : string) (st : Storage) : Storage :=
  mk_storage (outside (split_path dir "") (local st)) (dbfs st).

End Dbutils.

(** ** Module Sparkdl: the [HorovodEstimator] object *)
Module Sparkdl.
Import TF.

(** The constructor arguments of [HorovodEstimator] (lines 97-105). *)
Record Estimator : Type := HorovodEstimator {
  modelFn : Z -> gmap string Tensor -> option Tensor -> Mode -> gmap string Value -> Build EstimatorSpec;
  featureMapping : gmap string string;
  modelDir : string;
  labelCol : string;
  batchSize : Z;
  maxSteps : Z;
  isValidationCol : string;
  modelFnParams : gmap string Value;
  saveCheckpointsSecs : Z
}.

(** [est.setMaxSteps(n)] updates the estimator object. *)
Definition setMaxSteps (n : Z) (e : Estimator) : Estimator :=
  HorovodEstimator (modelFn e) (featureMapping e) (modelDir e) (labelCol e)
    (batchSize e) n (isValidationCol e) (modelFnParams e) (saveCheckpointsSecs e).

(** The [params] argument the estimator calls [modelFn] with: what was
    passed as [modelFnParams] (docstring of [model_fn], lines 35-37). *)
Definition params_passed (e : Estimator) : gmap string Value := modelFnParams e.

(** How the estimator calls the model function on a worker. *)
Definition call_model_fn (e : Estimator) (hvd_size : Z)
    (features : gmap string Tensor) (labels : option Tensor) (mode : Mode) : Build EstimatorSpec :=
  modelFn e hvd_size features labels mode (params_passed e).

(** Some entry of the bag holds the integer [v]. *)
Definition bag_holds (bag : gmap string Value) (v : Z) : Prop :=
  exists name, bag !! name = Some (VInt v).

(** The hyperparameter bag as the specification describes it: besides the
    two hidden-layer widths it would hold the batch size, the step budget
    and the checkpoint interval of the estimator. *)
Definition spec_hyperparameter_bag (e : Estimator) : Prop :=
  is_Some (params_passed e !! "hidden1_units")
  /\ is_Some (params_passed e !! "hidden2_units")
  /\ bag_holds (params_passed e) (batchSize e)
  /\ bag_holds (params_passed e) (maxSteps e)
  /\ bag_holds (params_passed e) (saveCheckpointsSecs e).

End Sparkdl.

(** ** Module Notebook: the cells, run in order *)
Module Notebook.
Import Dbutils Sparkdl.

(** Line 17-18. *)
Definition schema : list (string * Spark.DataType) :=
  [("image", Spark.ArrayType Spark.FloatType); ("label_col", Spark.LongType)].

(** Line 94. *)
Definition model_dir : string := "/tmp/horovod_estimator".

(** Lines 97-105. *)
Definition est0 : Estimator :=
  HorovodEstimator Model.model_fn {[ "image" := "image" ]} model_dir "label_col"
    64 5000 "isVal"
    (<["hidden1_units" := VInt 100]> (<["hidden2_units" := VInt 50]> ∅))
    30.

(** Line 110: [when(rand() > 0.8, True).otherwise(False)]. *)
Definition isVal_column : option Spark.Column :=
  Spark.otherwise
    (Spark.when (Spark.gt Spark.rand (Spark.lit (VFloat 0.8))) (Spark.lit (VBool true)))
    (Spark.lit (VBool false)).

(** [df_with_val = df.withColumn("isVal", ...)].  The seed of [rand()] is
    fixed when the column is created, so the table has one value per row
    however often it is evaluated: [draws i] is the draw of row [i]. *)
Definition df_with_val (draws : nat -> Q) (df : Spark.Table) : option Spark.Table :=
  c ← isVal_column;
  Spark.withColumn "isVal" c draws df.

(** The mark of a row as a function of its draw. *)
Definition is_val (draw : Q) : bool := Spark.Qltb 0.8 draw.

Section Run.

(** The fitted model [est.fit] returns. *)
Variable Transformer : Type.

(** Training and inference happen inside sparkdl.  [fit_oracle k e t st]
    is the [k]-th call of [fit] (counted from 0) on estimator [e] and
    table [t] with the files [st]: the transformer and the files after the
    checkpoints were written, or [None] for an exception. *)
Variable fit_oracle : nat -> Estimator -> Spark.Table -> Storage -> option (Transformer * Storage).
Variable transform_oracle : Transformer -> Spark.Table -> option Spark.Table.

(** The draws of [rand()] and the data set [mnist.load_data] returns. *)
Variable draws : nat -> Q.
Variables x_train y_train : Py.ndarray.

(** What the notebook asks of its environment, in order. *)
Inductive Event : Type :=
  | Displayed (t : Spark.Table)
  | Help
  | Removed (path : string)
  | Fit (e : Estimator) (t : Spark.Table)
  | Transform (tr : Transformer) (t : Spark.Table)
  | Copied (from to : string)
  | Shell (command : string)
  | Listed (path : string).

Record World : Type := mk_world {
  files : Storage;
  fits : nat;
  log : list Event
}.

(** A cell runs in a world and either raises ([None]) or returns a value;
    the world after the run is kept in both cases. *)
Definition NB (A : Type) : Type := World -> World * option A.

#[global] Instance NB_ret : MRet NB := fun A a w => (w, Some a).
#[global] Instance NB_bind : MBind NB := fun A B k m w =>
  match m w with
  | (w', Some a) => k a w'
  | (w', None) => (w', None)
  end.

Definition lift {A} (o : option A) : NB A := fun w => (w, o).

Definition emit (e : Event) : NB unit :=
  fun w => (mk_world (files w) (fits w) (log w ++ [e]), Some tt).

Definition update_files (f : Storage -> option Storage) : NB unit :=
  fun w => match f (files w) with
           | Some st => (mk_world st (fits w) (log w), Some tt)
           | None => (w, None)
           end.

Definition display (t : Spark.Table) : NB unit := emit (Displayed t).

(** [est.fit(t)]. *)
Definition fit (e : Estimator) (t : Spark.Table) : NB Transformer :=
  fun w =>
    let w1 := mk_world (files w) (S (fits w)) (log w ++ [Fit e t]) in
    match fit_oracle (fits w) e t (files w) with
    | Some (tr, st) => (mk_world st (fits w1) (log w1), Some tr)
    | None => (w1, None)
    end.

(** [tr.transform(t)]. *)
Definition transform (tr : Transformer) (t : Spark.Table) : NB Spark.Table :=
  _ ← emit (Transform tr t);
  lift (transform_oracle tr t).

Definition fs_rm (path : string) (recurse : bool) : NB unit :=
  _ ← emit (Removed path);
  update_files (Dbutils.rm path recurse).

Definition fs_cp (from to : string) (recurse : bool) : NB unit :=
  _ ← emit (Copied from to);
  update_files (Dbutils.cp from to recurse).

(** The variables the notebook has bound when it ends. *)
Record Vars : Type := mk_vars {
  v_df : Spark.Table;
  v_est : Estimator;
  v_df_with_val : Spark.Table;
  v_transformer : Transformer;
  v_res : Spark.Table;
  v_new_transformer : Transformer;
  v_new_res : Spark.Table
}.

(** Lines 14-20. *)
Definition cell_load : NB Spark.Table :=
  data ← lift (Loader.data x_train y_train);
  df ← lift (Spark.createDataFrame data schema);
  _ ← display df;
  mret df.

(** Lines 94-105. *)
Definition cell_estimator : NB Estimator :=
  _ ← fs_rm (Py.slice_from 5 model_dir) true;
  mret est0.

(** Lines 110-116. *)
Definition cell_fit (est : Estimator) (df : Spark.Table) : NB (Spark.Table * Transformer * Spark.Table) :=
  dfv ← lift (df_with_val draws df);
  transformer ← fit est dfv;
  res ← transform transformer df;
  _ ← display res;
  mret (dfv, transformer, res).

(** Lines 120-123. *)
Definition cell_refit (est : Estimator) (df dfv : Spark.Table) (transformer : Transformer)
    : NB (Estimator * Transformer * Spark.Table) :=
  let est := setMaxSteps 10000 est in
  new_transformer ← fit est dfv;
  new_res ← transform transformer df;
  _ ← display new_res;
  mret (est, new_transformer, new_res).

(** Line 127. *)
Definition cell_copy : NB unit :=
  fs_cp "file:/tmp/horovod_estimator/" "dbfs:/horovod_estimator/" true.

(** Lines 131-146: the listings and the final [rm -rf] of the local
    directory. *)
Definition cell_cleanup : NB unit :=
  _ ← emit (Shell "ls -ltr /tmp/horovod_estimator");
  _ ← emit (Listed "dbfs:/horovod_estimator/");
  _ ← emit (Shell "rm -rf /tmp/horovod_estimator");
  _ ← update_files (fun st => Some (sh_rm_rf "/tmp/horovod_estimator" st));
  emit (Shell "ls -ltr /tmp/horovod_estimator").

(** The cells up to the end of training. *)
Definition training : NB Vars :=
  df ← cell_load;
  _ ← emit Help;
  est ← cell_estimator;
  '(dfv, transformer, res) ← cell_fit est df;
  '(est', new_transformer, new_res) ← cell_refit est df dfv transformer;
  mret (mk_vars df est' dfv transformer res new_transformer new_res).

(** The whole notebook. *)
Definition notebook : NB Vars :=
  vars ← training;
  _ ← cell_copy;
  _ ← cell_cleanup;
  mret vars.

(** The training and inference stages of a log, in order. *)
Inductive Stage : Type :=
  | SFit (max_steps : Z)
  | STransform.

Definition stage_of (e : Event) : option Stage :=
  match e with
  | Fit est _ => Some (SFit (maxSteps est))
  | Transform _ _ => Some STransform
  | _ => None
  end.

Definition stages (l : list Event) : list Stage := omap stage_of l.

End Run.

Arguments Displayed {Transformer}.
Arguments Help {Transformer}.
Arguments Removed {Transformer}.
Arguments Fit {Transformer}.
Arguments Transform {Transformer}.
Arguments Copied {Transformer}.
Arguments Shell {Transformer}.
Arguments Listed {Transformer}.
Arguments mk_world {Transformer}.
Arguments files {Transformer}.
Arguments fits {Transformer}.
Arguments log {Transformer}.
Arguments lift {Transformer A}.
Arguments emit {Transformer}.
Arguments update_files {Transformer}.
Arguments display {Transformer}.
Arguments fit {Transformer}.
Arguments transform {Transformer}.
Arguments fs_rm {Transformer}.
Arguments fs_cp {Transformer}.
Arguments mk_vars {Transformer}.
Arguments v_df {Transformer}.
Arguments v_est {Transformer}.
Arguments v_df_with_val {Transformer}.
Arguments v_transformer {Transformer}.
Arguments v_res {Transformer}.
Arguments v_new_transformer {Transformer}.
Arguments v_new_res {Transformer}.
Arguments cell_load {Transformer}.
Arguments cell_estimator {Transformer}.
Arguments cell_fit {Transformer}.
Arguments cell_refit {Transformer}.
Arguments cell_copy {Transformer}.
Arguments cell_cleanup {Transformer}.
Arguments training {Transformer}.
Arguments notebook {Transformer}.
Arguments stage_of {Transformer}.
Arguments stages {Transformer}.

(** The four stages in the order of the source. *)
Definition linear_order : list Stage := [SFit 5000; STransform; SFit 10000; STransform].

(** A cell [m] adds events whose stages are an initial part of [S], and
    all of [S] when it does not raise. *)
Definition traces {Transformer A : Type} (m : NB Transformer A) (S : list Stage) : Prop :=
  forall w, exists new,
    log (fst (m w)) = log w ++ new
    /\ stages new `prefix_of` S
    /\ (is_Some (snd (m w)) -> stages new = S).

(** The estimators that were fitted and the transformers that were
    applied, in the order of the log. *)
Definition fitted {Transformer : Type} (l : list (Event Transformer)) : list Estimator :=
  omap (fun e => match e with Fit est _ => Some est | _ => None end) l.

Definition applied {Transformer : Type} (l : list (Event Transformer)) : list Transformer :=
  omap (fun e => match e with Transform tr _ => Some tr | _ => None end) l.

(** Every value a cell returns satisfies [P]. *)
Definition returns {Transformer A : Type} (m : NB Transformer A) (P : A -> Prop) : Prop :=
  forall w a, snd (m w) = Some a -> P a.

End Notebook.

(** ** Module Uniform: draws taken uniformly from a finite grid *)
Module Uniform.

(** The [N] equally spaced points [0, 1/N, ..., (N-1)/N] of [0, 1). *)
Definition grid (N : nat) : list Q :=
  map (fun k => Z.of_nat k # Pos.of_nat N) (seq 0 N).

(** How many draws of [g] give the mark [b]. *)
Definition count_marked (b : bool) (g : list Q) : nat :=
  length (filter (fun d => Notebook.is_val d = b) g).

(** All ways to draw once per row for [n] rows. *)
Fixpoint draw_vectors (n : nat) (g : list Q) : list (list Q) :=
  match n with
  | O => [[]]
  | S n' => d ← g; (cons d) <$> draw_vectors n' g
  end.

(** How many of them mark the rows exactly as [pat] says. *)
Definition count_pattern (g : list Q) (pat : list bool) : nat :=
  length (filter (fun v => map Notebook.is_val v = pat) (draw_vectors (length pat) g)).

(** The product of the per-row counts. *)
Definition product_of_marginals (g : list Q) (pat : list bool) : nat :=
  fold_right (fun b acc => (count_marked b g * acc)%nat) 1%nat pat.

End Uniform.

(** ** Module Inputs: small concrete inputs *)
Module Inputs.

(** A batch of one blank image labelled 7. *)
Definition one_image : Py.ndarray := Py.mk_ndarray [1%nat; 28%nat; 28%nat] (repeat 0 784).
Definition one_label : Py.ndarray := Py.mk_ndarray [1%nat] [7].

(** Two records and one draw on each side of the threshold. *)
Definition two_records : list (Value * Value) :=
  [(VList [VFloat 0; VFloat 255], VInt 3); (VList [VFloat 1], VInt 4)].
Definition two_rows : Spark.Table :=
  Spark.mk_table Notebook.schema (map (fun p => [fst p; snd p]) two_records).
Definition two_draws (i : nat) : Q := if (i =? 0)%nat then 0.9%Q else 0.1%Q.

(** The tensors the estimator feeds: the image column and the label
    column. *)
Definition fed_features : gmap string TF.Tensor := {[ "image" := TF.Placeholder "image" ]}.
Definition fed_labels : TF.Tensor := TF.Placeholder "label_col".

End Inputs.

(** ** A small concrete run *)
Module Demo.
Import Notebook.

(** Two images of 2 by 2 pixels with labels 3 and 8. *)
Definition x_train : Py.ndarray := Py.mk_ndarray [2; 2; 2]%nat [0; 1; 2; 3; 4; 5; 6; 7].
Definition y_train : Py.ndarray := Py.mk_ndarray [2%nat] [3; 8].

(** A fit that returns its call number as the model and writes one
    checkpoint file, named after the step budget, into the model
    directory on the local disk. *)
Definition fit_oracle (k : nat) (e : Sparkdl.Estimator) (t : Spark.Table) (st : Dbutils.Storage)
    : option (nat * Dbutils.Storage) :=
  let file := Dbutils.split_path (Sparkdl.modelDir e) ""
              ++ [if (Sparkdl.maxSteps e =? 5000)%Z then "model.ckpt-5000" else "model.ckpt-10000"] in
  Some (k, Dbutils.mk_storage (<[file := "weights"]> (Dbutils.local st)) (Dbutils.dbfs st)).

(** A transform that appends the model as the predicted class. *)
Definition transform_oracle (tr : nat) (t : Spark.Table) : option Spark.Table :=
  Some (Spark.mk_table (Spark.schema t ++ [("classes", Spark.LongType)])
          (map (fun r => r ++ [VInt (Z.of_nat tr)]) (Spark.rows t))).

Definition draws (i : nat) : Q := if (i =? 0)%nat then 0.9%Q else 0.1%Q.

(** A world with a stale copy on DBFS. *)
Definition world : World nat :=
  mk_world (Dbutils.mk_storage ∅ {[ ["horovod_estimator"; "old.ckpt"] := "stale" ]}) 0 [].

Definition trained : World nat * option (Vars nat) :=
  training fit_oracle transform_oracle draws x_train y_train world.

Definition finished : World nat * option (Vars nat) :=
  notebook fit_oracle transform_oracle draws x_train y_train world.

End Demo.

(** ** Module MoreInputs: further concrete inputs *)
Module MoreInputs.

(** Two images of 2 by 3 pixels, and one label. *)
Definition two_images : Py.ndarray :=
  Py.mk_ndarray [2; 2; 3]%nat [10; 11; 12; 13; 14; 15; 20; 21; 22; 23; 24; 25].
Definition one_label_only : Py.ndarray := Py.mk_ndarray [1%nat] [7].

(** Three labels for the two images. *)
Definition three_labels : Py.ndarray := Py.mk_ndarray [3%nat] [7; 1; 4].

End MoreInputs.

(** ** Module Columns: looking a column up by name *)
Module Columns.

(** The declared type of a column of a schema. *)
Fixpoint col_type (name : string) (sch : list (string * Spark.DataType)) : option Spark.DataType :=
  match sch with
  | [] => None
  | (n, t) :: rest => if String.eqb n name then Some t else col_type name rest
  end.

End Columns.

(** ** Module Graph: nodes by name *)
Module Graph.
Import TF.

(** The name a node was given with [name=...]; the other nodes are named
    by TensorFlow. *)
Definition node_name (n : Node) : option string :=
  match n with
  | NTensor (ArgMax _ _ name) | NTensor (Softmax _ name) => Some name
  | _ => None
  end.

(** The nodes of a graph that carry a given name. *)
Definition nodes_named (name : string) (g : list Node) : list Node :=
  filter (fun n => node_name n = Some name) g.

Definition hook_tensors (h : Hook) : gmap string string :=
  match h with LoggingTensorHook tensors _ => tensors end.

Definition hook_every_n_iter (h : Hook) : Z :=
  match h with LoggingTensorHook _ n => n end.

End Graph.

(** ** Module Runs: what a run logs and where the checkpoints live *)
Module Runs.
Import Notebook.

(** The checkpoint directory on the local disk and its copy on DBFS. *)
Definition local_dir : list string := ["tmp"; "horovod_estimator"].
Definition dbfs_dir : list string := ["horovod_estimator"].

Definition is_copy {Transformer : Type} (e : Event Transformer) : bool :=
  match e with
  | Copied _ _ => true
  | _ => false
  end.

(** How often a log asks for the copy. *)
Definition count_copies {Transformer : Type} (l : list (Event Transformer)) : nat :=
  length (filter (fun e => is_copy e = true) l).

(** A cell that never asks for the copy. *)
Definition never_copies {Transformer A : Type} (m : NB Transformer A) : Prop :=
  forall w, exists new, log (fst (m w)) = log w ++ new /\ count_copies new = 0%nat.

(** [fit] leaves the distributed file system alone (the checkpoints go
    to the local disk). *)
Definition fit_keeps_dbfs {Transformer : Type}
    (fit_oracle : nat -> Sparkdl.Estimator -> Spark.Table -> Dbutils.Storage
                  -> option (Transformer * Dbutils.Storage)) : Prop :=
  forall k e t st tr st',
    fit_oracle k e t st = Some (tr, st') -> Dbutils.dbfs st' = Dbutils.dbfs st.

End Runs.

(** * Properties *)

(** ** The data set loader *)
Section LoaderFacts.
Import Py Loader.

Lemma size_of_mnist (n : nat) : size_of [n; 28%nat; 28%nat] = (n * 784)%nat.
Proof. unfold size_of. simpl. lia. Qed.

(** Flattening a batch of [n > 0] grids of 28 by 28 gives [n] rows of 784. *)
Lemma flatten_images_mnist (x : ndarray) (n : nat) :
  (0 < n)%nat -> shape x = [n; 28%nat; 28%nat] ->
  flatten_images x = Some (mk_ndarray [n; 784%nat] (elems x)).
Proof.
  intros Hn Hs. unfold flatten_images, shape0, reshape_rows.
  rewrite Hs. cbn [head mbind option_bind].
  rewrite size_of_mnist.
  destruct (Nat.eqb_spec n 0) as [->|_]; [lia|].
  rewrite (Nat.mul_comm n 784), Nat.Div0.mod_mul, Nat.div_mul by lia.
  reflexivity.
Qed.

Lemma row_flat (es : list Z) (n k i : nat) :
  length es = (n * k)%nat -> (i < n)%nat ->
  exists r, row (mk_ndarray [n; k] es) i = Some r /\ length r = k.
Proof.
  intros Hl Hi. unfold row. simpl.
  destruct (Nat.ltb_spec i n) as [_|]; [|lia].
  eexists; split; [reflexivity|].
  rewrite length_take, length_drop. nia.
Qed.

Lemma item_vector (y : ndarray) (n i : nat) :
  shape y = [n] -> well_shaped y -> (i < n)%nat ->
  exists z, item y i = Some z /\ z ∈ elems y.
Proof.
  intros Hs Hw Hi. unfold item. rewrite Hs.
  destruct (Nat.ltb_spec i n) as [_|]; [|lia].
  unfold well_shaped in Hw. rewrite Hs in Hw. simpl in Hw.
  destruct (lookup_lt_is_Some_2 (elems y) i) as [z Hz]; [lia|].
  exists z. split; [exact Hz|]. eapply list_elem_of_lookup_2; eauto.
Qed.

Lemma astype_float_tolist_length (r : list Z) :
  length (astype_float_tolist r) = length r.
Proof. unfold astype_float_tolist. apply length_map. Qed.

Lemma astype_float_tolist_floats (r : list Z) (v : Value) :
  v ∈ astype_float_tolist r -> exists q, v = VFloat q.
Proof.
  unfold astype_float_tolist. intros Hv.
  apply list_elem_of_In, in_map_iff in Hv as (z & <- & _). eauto.
Qed.

Lemma record_at_mnist (es : list Z) (y : ndarray) (n i : nat) :
  length es = (n * 784)%nat -> shape y = [n] -> well_shaped y ->
  (forall z, z ∈ elems y -> 0 <= z <= 9) -> (i < n)%nat ->
  exists rec, record_at (mk_ndarray [n; 784%nat] es) y i = Some rec /\ mnist_record rec.
Proof.
  intros Hl Hs Hw Hy Hi. unfold record_at.
  destruct (row_flat es n 784 i Hl Hi) as (r & -> & Hr).
  destruct (item_vector y n i Hs Hw Hi) as (z & -> & Hz).
  simpl. eexists; split; [reflexivity|].
  exists (astype_float_tolist r), z. repeat split.
  - rewrite astype_float_tolist_length. exact Hr.
  - apply astype_float_tolist_floats.
  - apply Hy, Hz.
  - apply Hy, Hz.
Qed.

Lemma conforms_floats (img : list Value) :
  (forall v, v ∈ img -> exists q, v = VFloat q) ->
  forallb (Spark.conforms Spark.FloatType) img = true.
Proof.
  intros H. apply forallb_forall. intros v Hv.
  apply list_elem_of_In, H in Hv as [q ->]. reflexivity.
Qed.

Lemma mnist_record_conforms (rec : Value * Value) :
  mnist_record rec -> Spark.row_conforms Notebook.schema [fst rec; snd rec] = true.
Proof.
  intros (img & lbl & -> & _ & Hf & _). unfold Spark.row_conforms. simpl.
  rewrite (conforms_floats img Hf). reflexivity.
Qed.

End LoaderFacts.
Section LoaderTheorem.
Import Py Loader.

Lemma data_mnist (x_train y_train : ndarray) (n : nat) :
  (0 < n)%nat ->
  shape x_train = [n; 28%nat; 28%nat] -> well_shaped x_train ->
  shape y_train = [n] -> well_shaped y_train ->
  (forall z, z ∈ elems y_train -> 0 <= z <= 9) ->
  exists recs, data x_train y_train = Some recs
    /\ length recs = n /\ Forall mnist_record recs.
Proof.
  intros Hn Hx Hwx Hy Hwy Hl. unfold data.
  rewrite (flatten_images_mnist x_train n Hn Hx). cbn [mbind option_bind].
  unfold len, shape0. rewrite Hy. cbn [head mbind option_bind].
  assert (He : length (elems x_train) = (n * 784)%nat).
  { unfold well_shaped in Hwx. rewrite Hx, size_of_mnist in Hwx. exact Hwx. }
  destruct (mapM_is_Some_2 (record_at (mk_ndarray [n; 784%nat] (elems x_train)) y_train) (seq 0 n)) as [recs Hrecs].
  { apply Forall_seq. intros i Hi.
    destruct (record_at_mnist (elems x_train) y_train n i He Hy Hwy Hl) as (rec & Hrec & _); [lia|].
    simpl. rewrite Hrec. eauto. }
  exists recs. split; [exact Hrecs|].
  apply mapM_Some_1 in Hrecs.
  split.
  - rewrite <- (Forall2_length _ _ _ Hrecs). apply length_seq.
  - apply Forall_lookup. intros j rec Hj.
    destruct (Forall2_lookup_r _ _ _ _ _ Hrecs Hj) as (i & Hi & Hrec).
    apply lookup_seq in Hi as [-> Hlt].
    destruct (record_at_mnist (elems x_train) y_train n (0 + j) He Hy Hwy Hl) as (rec' & Hrec' & Hm); [lia|].
    congruence.
Qed.

End LoaderTheorem.
Section TableFacts.
Import Py Loader Inputs.

Lemma createDataFrame_mnist (recs : list (Value * Value)) :
  Forall mnist_record recs ->
  Spark.createDataFrame recs Notebook.schema
  = Some (Spark.mk_table Notebook.schema (map (fun p => [fst p; snd p]) recs)).
Proof.
  intros H. unfold Spark.createDataFrame.
  replace (forallb _ _) with true; [reflexivity|].
  symmetry. apply forallb_forall. intros r Hr.
  apply in_map_iff in Hr as (rec & <- & Hin).
  apply mnist_record_conforms.
  rewrite Forall_forall in H. apply H, list_elem_of_In, Hin.
Qed.

Lemma cell_of_record (recs : list (Value * Value)) (i : nat) (rec : Value * Value) :
  recs !! i = Some rec ->
  let df := Spark.mk_table Notebook.schema (map (fun p => [fst p; snd p]) recs) in
  Spark.cell df i "image" = Some (fst rec) /\ Spark.cell df i "label_col" = Some (snd rec).
Proof.
  intros Hi df. unfold Spark.cell, df. simpl Spark.rows.
  change (map ?f recs) with (f <$> recs).
  rewrite list_lookup_fmap, Hi. split; reflexivity.
Qed.

(** C7: on a data set shaped like MNIST ([n > 0] grids of 28 by 28 and [n]
    labels between 0 and 9) the loader builds [n] records and the table is
    created from them; in every row the image is a list of exactly 784
    floating-point numbers and the label an integer in [0, 9]. *)
Theorem loader_rows_784_and_labels (x_train y_train : ndarray) (n : nat) :
  (0 < n)%nat ->
  shape x_train = [n; 28%nat; 28%nat] -> well_shaped x_train ->
  shape y_train = [n] -> well_shaped y_train ->
  (forall z, z ∈ elems y_train -> 0 <= z <= 9) ->
  exists recs df,
    Loader.data x_train y_train = Some recs
    /\ Spark.createDataFrame recs Notebook.schema = Some df
    /\ length (Spark.rows df) = n
    /\ forall i, (i < n)%nat ->
         exists img lbl,
           Spark.cell df i "image" = Some (VList img)
           /\ Spark.cell df i "label_col" = Some (VInt lbl)
           /\ length img = 784%nat
           /\ (forall v, v ∈ img -> exists q, v = VFloat q)
           /\ 0 <= lbl <= 9.
Proof.
  intros Hn Hx Hwx Hy Hwy Hl.
  destruct (data_mnist x_train y_train n Hn Hx Hwx Hy Hwy Hl) as (recs & Hdata & Hlen & Hall).
  exists recs. eexists. split; [exact Hdata|].
  split; [apply createDataFrame_mnist, Hall|].
  split; [simpl; rewrite length_map; exact Hlen|].
  intros i Hi.
  destruct (lookup_lt_is_Some_2 recs i) as [rec Hrec]; [lia|].
  destruct (cell_of_record recs i rec Hrec) as [Himg Hlbl].
  rewrite Forall_lookup in Hall.
  destruct (Hall i rec Hrec) as (img & lbl & -> & H784 & Hfl & Hrange).
  exists img, lbl. auto.
Qed.

Lemma loader_rows_784_and_labels_witness :
  exists recs df,
    Loader.data one_image one_label = Some recs
    /\ Spark.createDataFrame recs Notebook.schema = Some df
    /\ length (Spark.rows df) = 1%nat
    /\ forall i, (i < 1)%nat ->
         exists img lbl,
           Spark.cell df i "image" = Some (VList img)
           /\ Spark.cell df i "label_col" = Some (VInt lbl)
           /\ length img = 784%nat
           /\ (forall v, v ∈ img -> exists q, v = VFloat q)
           /\ 0 <= lbl <= 9.
Proof.
  apply (loader_rows_784_and_labels one_image one_label 1).
  - lia.
  - reflexivity.
  - reflexivity.
  - reflexivity.
  - reflexivity.
  - intros z Hz. apply list_elem_of_singleton in Hz. subst z. lia.
Defined.

End TableFacts.
(** ** The validation column *)
Section SplitFacts.
Import Spark Notebook.

Lemma Qltb_lt (a b : Q) : Qltb a b = true <-> (a < b)%Q.
Proof.
  unfold Qltb. rewrite negb_true_iff. split.
  - intros H. apply Qnot_le_lt. intros Hle.
    apply Qle_bool_iff in Hle. congruence.
  - intros H. destruct (Qle_bool b a) eqn:E; [|reflexivity].
    apply Qle_bool_iff in E. exfalso. exact (Qlt_not_le _ _ H E).
Qed.

Lemma is_val_lt (d : Q) : is_val d = true <-> (0.8 < d)%Q.
Proof. apply Qltb_lt. Qed.

(** Evaluating the column of line 110 on a row: never null, and the
    boolean [is_val] of the row's draw. *)
Lemma eval_isVal_column (d : Q) :
  (c ← isVal_column; eval d c) = Some (VBool (is_val d)).
Proof.
  unfold isVal_column, otherwise, when. cbn [mbind option_bind eval].
  fold (is_val d). destruct (is_val d); reflexivity.
Qed.

Lemma append_column_lookup (f : Q -> Value) (draws : nat -> Q) (c : Column)
    (rs : list (list Value)) :
  (forall d, eval d c = Some (f d)) ->
  forall i, exists rs',
    append_column draws c i rs = Some rs'
    /\ length rs' = length rs
    /\ forall k r, rs !! k = Some r -> rs' !! k = Some (r ++ [f (draws (i + k)%nat)]).
Proof.
  intros Hc. induction rs as [|r rs IH]; intros i.
  - exists []. split; [reflexivity|]. split; [reflexivity|].
    intros k r Hk. rewrite lookup_nil in Hk. discriminate.
  - destruct (IH (S i)) as (rs' & Hrs' & Hlen & Hlook).
    exists ((r ++ [f (draws i)]) :: rs'). cbn [append_column].
    rewrite Hc, Hrs'. cbn [mbind option_bind]. split; [reflexivity|].
    split; [simpl; congruence|].
    intros [|k] r0 Hk; simpl in Hk |- *.
    + injection Hk as ->. rewrite Nat.add_0_r. reflexivity.
    + rewrite (Hlook k r0 Hk).
      replace (S i + k)%nat with (i + S k)%nat by lia. reflexivity.
Qed.

Lemma createDataFrame_rows (recs : list (Value * Value)) (sch : list (string * DataType)) (df : Table) :
  createDataFrame recs sch = Some df ->
  Spark.schema df = sch /\ rows df = map (fun p => [fst p; snd p]) recs.
Proof.
  unfold createDataFrame. destruct (forallb _ _); [|discriminate].
  intros [= <-]. split; reflexivity.
Qed.

End SplitFacts.
(** ** Counting marks over uniform draws *)
Section UniformFacts.
Import Notebook Uniform.

Lemma length_filter_fmap {A B : Type} (f : A -> B) (P : B -> Prop)
    `{!forall y, Decision (P y)} (l : list A) :
  length (filter P (f <$> l)) = length (filter (fun x => P (f x)) l).
Proof.
  induction l as [|x l IH]; [reflexivity|].
  rewrite fmap_cons, !filter_cons. destruct (decide (P (f x))); simpl; congruence.
Qed.

(** On the grid of [N] points the draw [k/N] is marked exactly when
    [5 k > 4 N]. *)
Lemma is_val_grid_point (N k : nat) :
  (0 < N)%nat ->
  is_val (Z.of_nat k # Pos.of_nat N) = true <-> (4 * N / 5 < k)%nat.
Proof.
  intros HN. rewrite is_val_lt. unfold Qlt. cbn [Qnum Qden].
  pose proof (Nat.div_mod_eq (4 * N) 5) as Hd.
  pose proof (Nat.mod_upper_bound (4 * N) 5) as Hm.
  assert (HP : Z.pos (Pos.of_nat N) = Z.of_nat N).
  { rewrite <- positive_nat_Z, Nat2Pos.id by lia. reflexivity. }
  rewrite HP. lia.
Qed.

Lemma count_above (t m : nat) :
  length (filter (fun k => (t < k)%nat) (seq 0 m)) = (m - (t + 1))%nat.
Proof.
  induction m as [|m IH]; [reflexivity|].
  rewrite seq_S, filter_app, length_app, IH. simpl.
  rewrite filter_cons, filter_nil. destruct (decide (t < m)%nat); simpl; lia.
Qed.

(** The number of marked points of the grid. *)
Lemma count_marked_grid (N : nat) :
  (0 < N)%nat -> count_marked true (grid N) = (N - (4 * N / 5 + 1))%nat.
Proof.
  intros HN. unfold count_marked, grid.
  change (map ?f ?l) with (f <$> l).
  rewrite length_filter_fmap.
  rewrite <- (count_above (4 * N / 5) N). f_equal.
  apply list_filter_iff. intros k. apply is_val_grid_point, HN.
Qed.

(** About one draw in five is marked: the share of marked grid points lies
    in [[1/5 - 1/N, 1/5)]. *)
Lemma count_marked_share (N : nat) :
  (0 < N)%nat ->
  (5 * count_marked true (grid N) < N <= 5 * count_marked true (grid N) + 5)%nat.
Proof.
  intros HN. rewrite (count_marked_grid N HN).
  pose proof (Nat.div_mod_eq (4 * N) 5) as Hd.
  pose proof (Nat.mod_upper_bound (4 * N) 5) as Hm. lia.
Qed.

(** Every draw is marked validation or training. *)
Lemma count_marked_total (g : list Q) :
  (count_marked true g + count_marked false g)%nat = length g.
Proof.
  unfold count_marked. induction g as [|d g IH]; [reflexivity|].
  rewrite !filter_cons.
  destruct (is_val d); repeat case_decide; try congruence; simpl; lia.
Qed.

Lemma count_pattern_step (b : bool) (pat : list bool) (V : list (list Q)) (g0 : list Q) :
  length (filter (fun v => map is_val v = b :: pat) (g0 ≫= fun d => cons d <$> V))
  = (count_marked b g0 * length (filter (fun v => map is_val v = pat) V))%nat.
Proof.
  unfold count_marked. induction g0 as [|d g0 IH]; [reflexivity|].
  rewrite bind_cons, filter_app, length_app, IH, length_filter_fmap.
  rewrite filter_cons. destruct (decide (is_val d = b)) as [E|E].
  - simpl. f_equal. f_equal.
    apply list_filter_iff. intros v. simpl. rewrite E.
    split; [intros [= H]; exact H | intros ->; reflexivity].
  - replace (filter _ V) with (@nil (list Q)); [simpl; lia|].
    symmetry. clear IH. induction V as [|v V IHV]; [reflexivity|].
    rewrite filter_cons_False; [exact IHV|].
    simpl. intros [= H _]. contradiction.
Qed.

(** The marks of different rows are independent: the number of draw
    vectors that produce a given marking of the rows is the product of the
    per-row counts. *)
Lemma count_pattern_product (g : list Q) (pat : list bool) :
  count_pattern g pat = product_of_marginals g pat.
Proof.
  unfold count_pattern. induction pat as [|b pat IH]; [reflexivity|].
  simpl length. cbn [draw_vectors product_of_marginals fold_right].
  rewrite count_pattern_step. fold (product_of_marginals g pat).
  rewrite IH. reflexivity.
Qed.

End UniformFacts.
Section SplitTheorem.
Import Notebook Uniform Inputs.

Lemma df_with_val_cells (recs : list (Value * Value)) (df : Spark.Table) (draws : nat -> Q) :
  Spark.createDataFrame recs Notebook.schema = Some df ->
  exists dfv,
    df_with_val draws df = Some dfv
    /\ length (Spark.rows dfv) = length (Spark.rows df)
    /\ forall i, (i < length (Spark.rows df))%nat ->
         Spark.cell dfv i "isVal" = Some (VBool (is_val (draws i))).
Proof.
  intros Hdf. apply createDataFrame_rows in Hdf as [Hsch Hrows].
  unfold df_with_val.
  pose proof (eval_isVal_column) as Hev.
  destruct isVal_column as [c|] eqn:Hc; [|discriminate (Hev 0%Q)].
  cbn [mbind option_bind] in Hev |- *.
  assert (Hty : Spark.type_of c = Some Spark.BooleanType).
  { unfold isVal_column in Hc. simpl in Hc. injection Hc as <-. reflexivity. }
  destruct (append_column_lookup (fun d => VBool (is_val d)) draws c (Spark.rows df) Hev 0)
    as (rs' & Hrs' & Hlen & Hlook).
  unfold Spark.withColumn. rewrite Hsch, Hty, Hrs'. cbn.
  eexists. split; [reflexivity|]. split; [exact Hlen|].
  intros i Hi. unfold Spark.cell. cbn.
  destruct (lookup_lt_is_Some_2 (Spark.rows df) i Hi) as [r Hr].
  rewrite (Hlook i r Hr). cbn.
  rewrite Hrows in Hr. change (map ?f ?l) with (f <$> l) in Hr.
  rewrite list_lookup_fmap in Hr.
  destruct (recs !! i) as [p|]; [|discriminate]. injection Hr as <-.
  reflexivity.
Qed.

(** C1: in the table built from the loaded records, [df_with_val] has in
    every row a boolean (never null) in column isVal, computed from that
    row's own draw alone and true exactly when the draw exceeds 0.8.  With
    draws uniform on a grid of [N] points of [0, 1) the share of validation
    marks is within [1/N] of one fifth (the rest is training), and the
    marks of different rows are independent: the count of every joint
    marking is the product of the per-row counts. *)
Theorem isVal_boolean_per_row_independent
    (recs : list (Value * Value)) (df : Spark.Table) (draws : nat -> Q) :
  Spark.createDataFrame recs Notebook.schema = Some df ->
  exists dfv,
    df_with_val draws df = Some dfv
    /\ length (Spark.rows dfv) = length (Spark.rows df)
    /\ (forall i, (i < length (Spark.rows df))%nat ->
          Spark.cell dfv i "isVal" = Some (VBool (is_val (draws i))))
    /\ (forall d, is_val d = true <-> (0.8 < d)%Q)
    /\ (forall N, (0 < N)%nat ->
          (5 * count_marked true (grid N) < N <= 5 * count_marked true (grid N) + 5)%nat
          /\ (count_marked true (grid N) + count_marked false (grid N))%nat = N)
    /\ (forall g pat, count_pattern g pat = product_of_marginals g pat).
Proof.
  intros Hdf.
  destruct (df_with_val_cells recs df draws Hdf) as (dfv & Hdfv & Hlen & Hcells).
  exists dfv. split; [exact Hdfv|]. split; [exact Hlen|]. split; [exact Hcells|].
  split; [exact is_val_lt|]. split; [|exact count_pattern_product].
  intros N HN. split; [exact (count_marked_share N HN)|].
  rewrite count_marked_total. unfold grid. rewrite length_map. apply length_seq.
Qed.

Lemma isVal_boolean_per_row_independent_witness :
  exists dfv,
    df_with_val two_draws two_rows = Some dfv
    /\ length (Spark.rows dfv) = length (Spark.rows two_rows)
    /\ (forall i, (i < length (Spark.rows two_rows))%nat ->
          Spark.cell dfv i "isVal" = Some (VBool (is_val (two_draws i))))
    /\ (forall d, is_val d = true <-> (0.8 < d)%Q)
    /\ (forall N, (0 < N)%nat ->
          (5 * count_marked true (grid N) < N <= 5 * count_marked true (grid N) + 5)%nat
          /\ (count_marked true (grid N) + count_marked false (grid N))%nat = N)
    /\ (forall g pat, count_pattern g pat = product_of_marginals g pat).
Proof.
  apply (isVal_boolean_per_row_independent two_records two_rows two_draws).
  reflexivity.
Defined.

Example df_with_val_two_rows :
  (dfv ← df_with_val two_draws two_rows;
   Some (Spark.cell dfv 0 "isVal", Spark.cell dfv 1 "isVal", Spark.cell dfv 2 "isVal"))
  = Some (Some (VBool true), Some (VBool false), None).
Proof. reflexivity. Qed.

Example count_marked_grid_10 :
  count_marked true (grid 10) = 1%nat /\ count_marked true (grid 1000) = 199%nat.
Proof. split; vm_compute; reflexivity. Qed.

End SplitTheorem.
(** ** The model function *)

(** Running a graph-building computation step by step. *)
Ltac run_build :=
  cbv [mbind mret TF.Build_bind TF.Build_ret TF.bind TF.ret TF.op TF.emit TF.raise TF.convert];
  repeat case_decide; try congruence; cbn.

Section ModelFacts.
Import TF Model.

Variable hvd_size : Z.
Variables (features : gmap string Tensor) (params : gmap string Value).
Variables (image : Tensor) (h1 h2 : Value).
Hypothesis Himage : features !! "image" = Some image.
Hypothesis Hh1 : params !! "hidden1_units" = Some h1.
Hypothesis Hh2 : params !! "hidden2_units" = Some h2.

Lemma model_fn_PREDICT (labels : option Tensor) (g : list Node) :
  model_fn hvd_size features labels PREDICT params g
  = inr (predict_spec image h1 h2, g ++ inference_nodes image h1 h2).
Proof.
  unfold model_fn, getitem. rewrite Himage, Hh1, Hh2.
  run_build. rewrite <- !app_assoc. reflexivity.
Qed.

Lemma model_fn_TRAIN (labels : Tensor) (g : list Node) :
  model_fn hvd_size features (Some labels) TRAIN params g
  = inr (train_spec hvd_size image h1 h2 labels,
         g ++ inference_nodes image h1 h2 ++ loss_nodes image h1 h2 labels
           ++ training_nodes hvd_size image h1 h2 labels).
Proof.
  unfold model_fn, getitem. rewrite Himage, Hh1, Hh2.
  run_build. rewrite <- !app_assoc. reflexivity.
Qed.

Lemma model_fn_EVAL (labels : Tensor) (g : list Node) :
  model_fn hvd_size features (Some labels) EVAL params g
  = inr (eval_spec image h1 h2 labels,
         g ++ inference_nodes image h1 h2 ++ loss_nodes image h1 h2 labels
           ++ [NMetric (Accuracy labels (classes_of image h1 h2))]).
Proof.
  unfold model_fn, getitem. rewrite Himage, Hh1, Hh2.
  run_build. rewrite <- !app_assoc. reflexivity.
Qed.

(** Without labels the loss cannot be built. *)
Lemma model_fn_no_labels (mode : Mode) (g : list Node) :
  mode <> PREDICT ->
  model_fn hvd_size features None mode params g
  = inl (ValueError "None values not supported.").
Proof.
  intros Hm. unfold model_fn, getitem. rewrite Himage, Hh1, Hh2.
  run_build; reflexivity.
Qed.

End ModelFacts.

(** A missing hyperparameter is a [KeyError], in every mode. *)
Lemma model_fn_missing_hidden1 (hvd_size : Z) (features : gmap string TF.Tensor)
    (labels : option TF.Tensor) (mode : TF.Mode) (params : gmap string Value)
    (image : TF.Tensor) (g : list TF.Node) :
  features !! "image" = Some image -> params !! "hidden1_units" = None ->
  Model.model_fn hvd_size features labels mode params g = inl (TF.KeyError "hidden1_units").
Proof.
  intros Hi Hp. unfold Model.model_fn, TF.getitem. rewrite Hi, Hp. reflexivity.
Qed.
(** ** What the predictions and the metric compute *)
Section SemFacts.
Import TF TFSem.

Lemma Qltb_false_le (a b : Q) : Spark.Qltb a b = false -> (b <= a)%Q.
Proof.
  intros H. apply Qnot_lt_le. intros Hlt.
  apply Qltb_lt in Hlt. congruence.
Qed.

(** The scan keeps the position of a largest element seen so far. *)
Lemma argmax_from_spec (l p : list Q) (bi : nat) (b : Q) :
  p !! bi = Some b -> (forall y, y ∈ p -> (y <= b)%Q) ->
  exists x, (p ++ l) !! argmax_from bi b (length p) l = Some x
            /\ forall y, y ∈ p ++ l -> (y <= x)%Q.
Proof.
  revert p bi b. induction l as [|a l IH]; intros p bi b Hb Hmax.
  - simpl. rewrite app_nil_r. eauto.
  - cbn [argmax_from].
    replace (p ++ a :: l) with ((p ++ [a]) ++ l) by (rewrite <- app_assoc; reflexivity).
    replace (S (length p)) with (length (p ++ [a])) by (rewrite length_app; simpl; lia).
    destruct (Spark.Qltb b a) eqn:E.
    + apply IH.
      * rewrite lookup_app_r, Nat.sub_diag by lia. reflexivity.
      * intros y Hy. apply elem_of_app in Hy as [Hy|Hy].
        -- apply Qle_trans with b; [apply Hmax, Hy|].
           apply Qlt_le_weak, Qltb_lt, E.
        -- apply list_elem_of_singleton in Hy. subst y. apply Qle_refl.
    + apply IH.
      * rewrite lookup_app_l; [exact Hb|]. eapply lookup_lt_Some, Hb.
      * intros y Hy. apply elem_of_app in Hy as [Hy|Hy].
        -- apply Hmax, Hy.
        -- apply list_elem_of_singleton in Hy. subst y. apply Qltb_false_le, E.
Qed.

Lemma argmax_row_is_argmax (l : list Q) : l <> [] -> is_argmax l (argmax_row l).
Proof.
  destruct l as [|x l]; [congruence|]. intros _.
  unfold is_argmax, argmax_row. rewrite Nat2Z.id.
  apply (argmax_from_spec l [x] 0 x); [reflexivity|].
  intros y Hy. apply list_elem_of_singleton in Hy. subst y. apply Qle_refl.
Qed.

(** [count_equal] counts the rows on which two vectors agree. *)
Lemma count_equal_filter (a b : list Z) :
  count_equal a b = length (filter (fun p => fst p = snd p) (zip a b)).
Proof.
  revert b. induction a as [|x a IH]; intros [|y b]; try reflexivity.
  cbn [count_equal zip zip_with]. rewrite filter_cons, IH. cbn [fst snd].
  destruct (Z.eqb_spec x y); case_decide; try congruence; reflexivity.
Qed.

Lemma count_equal_le (a b : list Z) : (count_equal a b <= length b)%nat.
Proof.
  revert b. induction a as [|x a IH]; intros [|y b]; simpl; try lia.
  specialize (IH b). destruct (x =? y)%Z; lia.
Qed.

Variable exp_ : Q -> Q.
Variable ln_ : Q -> Q.
Variable forward : Value -> Value -> list (list Q) -> list (list Q).
Variable global_step : Z.
Variable feed : string -> option TVal.
Variables (image : Tensor) (h1 h2 : Value).
Variable L : list (list Q).
Hypothesis Hlogits :
  eval exp_ ln_ forward global_step feed (Model.logits_of image h1 h2) = Some (Mat L).

(** The predicted classes are the arg-max of each row of the logits. *)
Lemma eval_classes :
  eval exp_ ln_ forward global_step feed (Model.classes_of image h1 h2)
  = Some (Ints (map argmax_row L)).
Proof. unfold Model.classes_of. cbn [eval]. rewrite Hlogits. reflexivity. Qed.

(** The probabilities are the softmax of each row of the logits. *)
Lemma eval_probabilities :
  eval exp_ ln_ forward global_step feed (Model.probabilities_of image h1 h2)
  = Some (Mat (map (softmax_row exp_) L)).
Proof. unfold Model.probabilities_of. cbn [eval]. rewrite Hlogits. reflexivity. Qed.

Variable labels : Tensor.
Variable labs : list Z.
Hypothesis Hlabels : eval exp_ ln_ forward global_step feed labels = Some (Ints labs).
Hypothesis Hbatch : length labs = length L.

(** The loss is the mean cross-entropy of the rows against the one-hot
    labels. *)
Lemma eval_loss :
  eval exp_ ln_ forward global_step feed (Model.loss_of image h1 h2 labels)
  = Some (Scalar (softmax_cross_entropy exp_ ln_
                    (map (one_hot_row 10) (map wrap32 labs)) L)).
Proof.
  unfold Model.loss_of. cbn [eval]. rewrite Hlabels, Hlogits.
  rewrite !length_map. case_decide; [reflexivity|contradiction].
Qed.

(** The accuracy metric is the fraction of rows whose arg-max equals the
    label. *)
Lemma eval_accuracy :
  eval_metric exp_ ln_ forward global_step feed
    (Accuracy labels (Model.classes_of image h1 h2))
  = Some (accuracy labs (map argmax_row L)).
Proof.
  unfold eval_metric. rewrite Hlabels, eval_classes.
  rewrite length_map. case_decide; [reflexivity|contradiction].
Qed.

End SemFacts.
(** ** Gradient averaging *)
Section HorovodFacts.
Import TF Horovod.

Lemma lookups_of_seq {A : Type} (d : A) (l : list A) :
  map (fun w => default d (l !! w)) (seq 0 (length l)) = l.
Proof.
  apply list_eq. intros i. change (map ?f ?k) with (f <$> k).
  rewrite list_lookup_fmap.
  destruct (decide (i < length l)%nat) as [Hi|Hi].
  - rewrite lookup_seq_lt by exact Hi. simpl.
    destruct (lookup_lt_is_Some_2 l i Hi) as [x ->]. reflexivity.
  - rewrite lookup_seq_ge, lookup_ge_None_2 by lia. reflexivity.
Qed.

(** Under the distributed optimizer every worker applies the all-reduced
    average of the workers' own gradients. *)
Lemma gradient_applied_distributed (lr mu : Q) (local : list (list Q)) (w : nat) :
  gradient_applied (DistributedOptimizer (MomentumOptimizer lr mu)) local w
  = allreduce_average local.
Proof. cbn [gradient_applied]. rewrite lookups_of_seq. reflexivity. Qed.

Lemma sum_vectors_lookup (vs : list (list Q)) (m j : nat) :
  vs <> [] -> Forall (fun v => length v = m) vs -> (j < m)%nat ->
  exists s, sum_vectors vs !! j = Some s
            /\ (s == TFSem.Qsum (map (fun v => default 0%Q (v !! j)) vs))%Q.
Proof.
  intros Hne Hall Hj. induction vs as [|v vs IH]; [congruence|].
  apply Forall_cons in Hall as [Hv Hall].
  destruct (lookup_lt_is_Some_2 v j) as [x Hx]; [lia|].
  destruct vs as [|v' vs'].
  - exists x. split; [exact Hx|]. simpl. rewrite Hx. simpl. ring.
  - destruct IH as (s & Hs & Heq); [congruence|exact Hall|].
    exists (x + s)%Q. split.
    + change (sum_vectors (v :: v' :: vs')) with (zip_with Qplus v (sum_vectors (v' :: vs'))).
      rewrite lookup_zip_with, Hx, Hs. reflexivity.
    + change (map ?f (v :: ?r)) with (f v :: map f r).
      cbn [TFSem.Qsum fold_right]. rewrite Hx. cbn [default].
      unfold TFSem.Qsum in Heq. rewrite Heq. reflexivity.
Qed.

(** Each component of the all-reduce is the mean of that component over
    the workers. *)
Lemma allreduce_average_lookup (vs : list (list Q)) (m j : nat) :
  vs <> [] -> Forall (fun v => length v = m) vs -> (j < m)%nat ->
  exists a, allreduce_average vs !! j = Some a
            /\ (a == TFSem.Qsum (map (fun v => default 0%Q (v !! j)) vs)
                     / inject_Z (Z.of_nat (length vs)))%Q.
Proof.
  intros Hne Hall Hj.
  destruct (sum_vectors_lookup vs m j Hne Hall Hj) as (s & Hs & Heq).
  exists (s / inject_Z (Z.of_nat (length vs)))%Q. split.
  - unfold allreduce_average. change (map ?f ?k) with (f <$> k) at 1.
    rewrite list_lookup_fmap, Hs. reflexivity.
  - rewrite Heq. reflexivity.
Qed.

End HorovodFacts.
(** ** The three modes of the model function *)
Section ModeTheorems.
Import TF Model Inputs.

(** C2: in PREDICT mode the call returns a specification that holds only
    the predictions (classes: the arg-max of the logits along axis 1, that
    is per row; probabilities: the softmax of each row of the logits) and
    the export mapping; the loss, the training operation, the metrics and
    the hooks are absent, and the only nodes added to the graph are the
    logits and the two predictions: no loss node and no training node. *)
Theorem predict_returns_predictions_and_export_only
    (hvd_size : Z) (features : gmap string Tensor) (labels : option Tensor)
    (params : gmap string Value) (image : Tensor) (h1 h2 : Value) (g : list Node) :
  features !! "image" = Some image ->
  params !! "hidden1_units" = Some h1 ->
  params !! "hidden2_units" = Some h2 ->
  exists spec preds added,
    model_fn hvd_size features labels PREDICT params g = inr (spec, g ++ added)
    /\ predictions spec = Some preds
    /\ dom preds = {[ "classes"; "probabilities" ]}
    /\ preds !! "classes" = Some (ArgMax (Inference image h1 h2) 1 "classes_tensor")
    /\ preds !! "probabilities" = Some (Softmax (Inference image h1 h2) "softmax_tensor")
    /\ export_outputs spec = Some {[ serving_key := PredictOutput preds ]}
    /\ loss spec = None /\ train_op spec = None
    /\ eval_metric_ops spec = None /\ training_hooks spec = None
    /\ forallb (fun n => negb (is_loss_node n || is_training_node n)) added = true
    /\ (forall exp_ ln_ forward step feed L,
          TFSem.eval exp_ ln_ forward step feed (Inference image h1 h2) = Some (TFSem.Mat L) ->
          (t ← preds !! "classes"; TFSem.eval exp_ ln_ forward step feed t)
            = Some (TFSem.Ints (map TFSem.argmax_row L))
          /\ (t ← preds !! "probabilities"; TFSem.eval exp_ ln_ forward step feed t)
            = Some (TFSem.Mat (map (TFSem.softmax_row exp_) L))
          /\ forall row, row ∈ L -> row <> [] -> TFSem.is_argmax row (TFSem.argmax_row row)).
Proof.
  intros Hi H1 H2.
  exists (predict_spec image h1 h2), (predictions_of image h1 h2), (inference_nodes image h1 h2).
  split; [apply model_fn_PREDICT; assumption|].
  split; [reflexivity|].
  split; [unfold predictions_of; rewrite !dom_insert_L, dom_empty_L; set_solver|].
  split; [reflexivity|]. split; [reflexivity|]. split; [reflexivity|].
  split; [reflexivity|]. split; [reflexivity|]. split; [reflexivity|].
  split; [reflexivity|]. split; [reflexivity|].
  intros exp_ ln_ forward step feed L HL.
  split; [exact (eval_classes exp_ ln_ forward step feed image h1 h2 L HL)|].
  split; [exact (eval_probabilities exp_ ln_ forward step feed image h1 h2 L HL)|].
  intros row _ Hne. apply argmax_row_is_argmax, Hne.
Qed.

Lemma predict_returns_predictions_and_export_only_witness :
  exists spec preds added,
    model_fn 4 fed_features None PREDICT (Sparkdl.modelFnParams Notebook.est0) []
      = inr (spec, [] ++ added)
    /\ predictions spec = Some preds
    /\ dom preds = {[ "classes"; "probabilities" ]}
    /\ preds !! "classes"
       = Some (ArgMax (Inference (Placeholder "image") (VInt 100) (VInt 50)) 1 "classes_tensor")
    /\ preds !! "probabilities"
       = Some (Softmax (Inference (Placeholder "image") (VInt 100) (VInt 50)) "softmax_tensor")
    /\ export_outputs spec = Some {[ serving_key := PredictOutput preds ]}
    /\ loss spec = None /\ train_op spec = None
    /\ eval_metric_ops spec = None /\ training_hooks spec = None
    /\ forallb (fun n => negb (is_loss_node n || is_training_node n)) added = true
    /\ (forall exp_ ln_ forward step feed L,
          TFSem.eval exp_ ln_ forward step feed
            (Inference (Placeholder "image") (VInt 100) (VInt 50)) = Some (TFSem.Mat L) ->
          (t ← preds !! "classes"; TFSem.eval exp_ ln_ forward step feed t)
            = Some (TFSem.Ints (map TFSem.argmax_row L))
          /\ (t ← preds !! "probabilities"; TFSem.eval exp_ ln_ forward step feed t)
            = Some (TFSem.Mat (map (TFSem.softmax_row exp_) L))
          /\ forall row, row ∈ L -> row <> [] -> TFSem.is_argmax row (TFSem.argmax_row row)).
Proof.
  apply (predict_returns_predictions_and_export_only 4 fed_features None
           (Sparkdl.modelFnParams Notebook.est0) (Placeholder "image") (VInt 100) (VInt 50) []);
    reflexivity.
Defined.

Example argmax_row_examples :
  TFSem.argmax_row [0.1; 0.7; 0.2]%Q = 1 /\ TFSem.argmax_row [3; 3; 1]%Q = 0
  /\ map TFSem.argmax_row [[1; 2]; [5; 4]]%Q = [1; 0].
Proof. repeat split. Qed.

End ModeTheorems.
Section TrainEvalTheorems.
Import TF Model Inputs.

Lemma learning_rate_scaled (hvd_size : Z) :
  (base_learning_rate * inject_Z hvd_size == hvd_size # 1000)%Q.
Proof. unfold base_learning_rate, Qeq. simpl. lia. Qed.

(** C4: in TRAIN mode the training operation minimizes the loss with the
    momentum optimizer (momentum 0.9) whose learning rate is the base rate
    0.001 times the number of workers [hvd.size()], wrapped in Horovod's
    distributed optimizer; running the operation, every worker applies the
    momentum update to the same gradient, the component-wise mean of the
    gradients of all workers. *)
Theorem train_rate_scaled_and_gradients_averaged
    (hvd_size : Z) (features : gmap string Tensor) (labels : Tensor)
    (params : gmap string Value) (image : Tensor) (h1 h2 : Value) (g : list Node) :
  features !! "image" = Some image ->
  params !! "hidden1_units" = Some h1 ->
  params !! "hidden2_units" = Some h2 ->
  exists spec g' lr top,
    model_fn hvd_size features (Some labels) TRAIN params g = inr (spec, g')
    /\ train_op spec = Some top
    /\ top = Minimize (DistributedOptimizer (MomentumOptimizer lr 0.9))
               (loss_of image h1 h2 labels) GlobalStep
    /\ lr = (base_learning_rate * inject_Z hvd_size)%Q
    /\ (base_learning_rate == 1 # 1000)%Q
    /\ (lr == hvd_size # 1000)%Q
    /\ NOptimizer (DistributedOptimizer (MomentumOptimizer lr 0.9)) ∈ g'
    /\ (forall local w st,
          Horovod.run_train_op top local w st
          = Horovod.momentum_update lr 0.9 (Horovod.allreduce_average local) st)
    /\ (forall local m j,
          local <> [] -> Forall (fun v => length v = m) local -> (j < m)%nat ->
          exists a, Horovod.allreduce_average local !! j = Some a
            /\ (a == TFSem.Qsum (map (fun v => default 0%Q (v !! j)) local)
                     / inject_Z (Z.of_nat (length local)))%Q).
Proof.
  intros Hi H1 H2.
  exists (train_spec hvd_size image h1 h2 labels). eexists.
  exists (base_learning_rate * inject_Z hvd_size)%Q. eexists.
  split; [apply model_fn_TRAIN; assumption|].
  split; [reflexivity|]. split; [reflexivity|]. split; [reflexivity|].
  split; [reflexivity|]. split; [apply learning_rate_scaled|].
  split.
  { unfold training_nodes, optimizer_of. rewrite !elem_of_app. right. right. right.
    apply list_elem_of_further, list_elem_of_here. }
  split.
  { intros local w st. unfold Horovod.run_train_op, optimizer_of.
    rewrite gradient_applied_distributed. reflexivity. }
  exact allreduce_average_lookup.
Qed.

Lemma train_rate_scaled_and_gradients_averaged_witness :
  exists spec g' lr top,
    model_fn 4 fed_features (Some fed_labels) TRAIN (Sparkdl.modelFnParams Notebook.est0) []
      = inr (spec, g')
    /\ train_op spec = Some top
    /\ top = Minimize (DistributedOptimizer (MomentumOptimizer lr 0.9))
               (loss_of (Placeholder "image") (VInt 100) (VInt 50) fed_labels) GlobalStep
    /\ lr = (base_learning_rate * inject_Z 4)%Q
    /\ (base_learning_rate == 1 # 1000)%Q
    /\ (lr == 4 # 1000)%Q
    /\ NOptimizer (DistributedOptimizer (MomentumOptimizer lr 0.9)) ∈ g'
    /\ (forall local w st,
          Horovod.run_train_op top local w st
          = Horovod.momentum_update lr 0.9 (Horovod.allreduce_average local) st)
    /\ (forall local m j,
          local <> [] -> Forall (fun v => length v = m) local -> (j < m)%nat ->
          exists a, Horovod.allreduce_average local !! j = Some a
            /\ (a == TFSem.Qsum (map (fun v => default 0%Q (v !! j)) local)
                     / inject_Z (Z.of_nat (length local)))%Q).
Proof.
  apply (train_rate_scaled_and_gradients_averaged 4 fed_features fed_labels
           (Sparkdl.modelFnParams Notebook.est0) (Placeholder "image") (VInt 100) (VInt 50) []);
    reflexivity.
Defined.

Example allreduce_average_two_workers :
  Horovod.allreduce_average [[1; 2]; [3; 6]]%Q = [(1 + 3) / 2; (2 + 6) / 2]%Q.
Proof. reflexivity. Qed.

(** C5: in EVAL mode the specification carries the loss TRAIN mode
    carries, the softmax cross-entropy of the logits against the labels
    one-hot-encoded to 10 classes (its value: the mean of the per-row
    cross-entropies), and the metric accuracy of the labels against the
    arg-max classes (its value: the number of rows whose class equals the
    label, divided by the number of rows); no training operation. *)
Theorem eval_same_loss_and_accuracy
    (hvd_size : Z) (features : gmap string Tensor) (labels : Tensor)
    (params : gmap string Value) (image : Tensor) (h1 h2 : Value) (g : list Node) :
  features !! "image" = Some image ->
  params !! "hidden1_units" = Some h1 ->
  params !! "hidden2_units" = Some h2 ->
  exists spec_eval g_eval spec_train g_train metrics,
    model_fn hvd_size features (Some labels) EVAL params g = inr (spec_eval, g_eval)
    /\ model_fn hvd_size features (Some labels) TRAIN params g = inr (spec_train, g_train)
    /\ loss spec_eval = loss spec_train
    /\ loss spec_eval
       = Some (SoftmaxCrossEntropy (OneHot (Cast labels int32) 10) (Inference image h1 h2))
    /\ eval_metric_ops spec_eval = Some metrics
    /\ dom metrics = {[ "accuracy" ]}
    /\ metrics !! "accuracy"
       = Some (Accuracy labels (ArgMax (Inference image h1 h2) 1 "classes_tensor"))
    /\ train_op spec_eval = None
    /\ (forall exp_ ln_ forward step feed L labs,
          TFSem.eval exp_ ln_ forward step feed (Inference image h1 h2) = Some (TFSem.Mat L) ->
          TFSem.eval exp_ ln_ forward step feed labels = Some (TFSem.Ints labs) ->
          length labs = length L ->
          (m ← metrics !! "accuracy"; TFSem.eval_metric exp_ ln_ forward step feed m)
            = Some (TFSem.accuracy labs (map TFSem.argmax_row L))
          /\ (t ← loss spec_eval; TFSem.eval exp_ ln_ forward step feed t)
            = Some (TFSem.Scalar
                      (TFSem.softmax_cross_entropy exp_ ln_
                         (map (TFSem.one_hot_row 10) (map TFSem.wrap32 labs)) L))
          /\ (labs <> [] ->
              TFSem.accuracy labs (map TFSem.argmax_row L)
              = (inject_Z (Z.of_nat (length (filter (fun p => fst p = snd p)
                                               (zip (map TFSem.argmax_row L) labs))))
                 / inject_Z (Z.of_nat (length labs)))%Q)).
Proof.
  intros Hi H1 H2.
  exists (eval_spec image h1 h2 labels). eexists.
  exists (train_spec hvd_size image h1 h2 labels). eexists. eexists.
  split; [apply model_fn_EVAL; assumption|].
  split; [apply model_fn_TRAIN; assumption|].
  split; [reflexivity|]. split; [reflexivity|]. split; [reflexivity|].
  split; [rewrite dom_singleton_L; reflexivity|].
  split; [reflexivity|]. split; [reflexivity|].
  intros exp_ ln_ forward step feed L labs HL Hlabs Hlen.
  split; [exact (eval_accuracy exp_ ln_ forward step feed image h1 h2 L HL labels labs Hlabs Hlen)|].
  split; [exact (eval_loss exp_ ln_ forward step feed image h1 h2 L HL labels labs Hlabs Hlen)|].
  intros Hne. unfold TFSem.accuracy. destruct labs; [congruence|].
  rewrite count_equal_filter. reflexivity.
Qed.

Lemma eval_same_loss_and_accuracy_witness :
  exists spec_eval g_eval spec_train g_train metrics,
    model_fn 4 fed_features (Some fed_labels) EVAL (Sparkdl.modelFnParams Notebook.est0) []
      = inr (spec_eval, g_eval)
    /\ model_fn 4 fed_features (Some fed_labels) TRAIN (Sparkdl.modelFnParams Notebook.est0) []
      = inr (spec_train, g_train)
    /\ loss spec_eval = loss spec_train
    /\ loss spec_eval
       = Some (SoftmaxCrossEntropy (OneHot (Cast fed_labels int32) 10)
                 (Inference (Placeholder "image") (VInt 100) (VInt 50)))
    /\ eval_metric_ops spec_eval = Some metrics
    /\ dom metrics = {[ "accuracy" ]}
    /\ metrics !! "accuracy"
       = Some (Accuracy fed_labels
                 (ArgMax (Inference (Placeholder "image") (VInt 100) (VInt 50)) 1 "classes_tensor"))
    /\ train_op spec_eval = None
    /\ (forall exp_ ln_ forward step feed L labs,
          TFSem.eval exp_ ln_ forward step feed
            (Inference (Placeholder "image") (VInt 100) (VInt 50)) = Some (TFSem.Mat L) ->
          TFSem.eval exp_ ln_ forward step feed fed_labels = Some (TFSem.Ints labs) ->
          length labs = length L ->
          (m ← metrics !! "accuracy"; TFSem.eval_metric exp_ ln_ forward step feed m)
            = Some (TFSem.accuracy labs (map TFSem.argmax_row L))
          /\ (t ← loss spec_eval; TFSem.eval exp_ ln_ forward step feed t)
            = Some (TFSem.Scalar
                      (TFSem.softmax_cross_entropy exp_ ln_
                         (map (TFSem.one_hot_row 10) (map TFSem.wrap32 labs)) L))
          /\ (labs <> [] ->
              TFSem.accuracy labs (map TFSem.argmax_row L)
              = (inject_Z (Z.of_nat (length (filter (fun p => fst p = snd p)
                                               (zip (map TFSem.argmax_row L) labs))))
                 / inject_Z (Z.of_nat (length labs)))%Q)).
Proof.
  apply (eval_same_loss_and_accuracy 4 fed_features fed_labels
           (Sparkdl.modelFnParams Notebook.est0) (Placeholder "image") (VInt 100) (VInt 50) []);
    reflexivity.
Defined.

(** Three rows, two of them classified as labelled. *)
Example accuracy_two_of_three :
  TFSem.accuracy [1; 0; 2] (map TFSem.argmax_row [[0; 5; 1]; [9; 1; 1]; [4; 2; 3]]%Q)
  = (inject_Z 2 / inject_Z 3)%Q.
Proof. reflexivity. Qed.

Example one_hot_row_examples :
  TFSem.one_hot_row 10 3 = [0; 0; 0; 1; 0; 0; 0; 0; 0; 0]%Q
  /\ TFSem.one_hot_row 10 12 = repeat 0%Q 10.
Proof. split; reflexivity. Qed.

End TrainEvalTheorems.
(** ** The order of the stages *)
Section Traces.
Import Notebook.

Context {Transformer : Type}.
Implicit Types (S : list Stage) (w : World Transformer).

Lemma traces_ret {A} (a : A) : traces (mret a : NB Transformer A) [].
Proof. intros w. exists []. rewrite app_nil_r. split; [reflexivity|]. split; done. Qed.

Lemma traces_lift {A} (o : option A) : traces (lift o : NB Transformer A) [].
Proof. intros w. exists []. rewrite app_nil_r. split; [reflexivity|]. split; done. Qed.

Lemma traces_update_files (f : Dbutils.Storage -> option Dbutils.Storage) :
  traces (update_files f : NB Transformer ()) [].
Proof.
  intros w. exists []. unfold update_files.
  destruct (f (files w)); simpl; rewrite app_nil_r; (split; [reflexivity|]; split; done).
Qed.

Lemma traces_emit (e : Event Transformer) : traces (emit e) (stages [e]).
Proof. intros w. exists [e]. split; [reflexivity|]. split; done. Qed.

Lemma traces_bind {A B} (m : NB Transformer A) (k : A -> NB Transformer B) S1 S2 :
  traces m S1 -> (forall a, traces (k a) S2) -> traces (m ≫= k) (S1 ++ S2).
Proof.
  intros Hm Hk w. destruct (Hm w) as (new1 & Hlog1 & Hpre1 & Hfull1).
  unfold mbind, NB_bind. destruct (m w) as [w1 [a|]]; simpl in *.
  - destruct (Hk a w1) as (new2 & Hlog2 & Hpre2 & Hfull2).
    exists (new1 ++ new2). rewrite Hlog2, Hlog1, <- app_assoc.
    split; [reflexivity|].
    unfold stages in *. rewrite omap_app, Hfull1 by eauto.
    split; [apply prefix_app, Hpre2|].
    intros Hs. rewrite Hfull2 by exact Hs. reflexivity.
  - exists new1. split; [exact Hlog1|].
    split; [apply prefix_app_r, Hpre1|].
    intros [? [=]].
Qed.

(** The same, when the continuation is only run on values [m] returns. *)
Lemma traces_bind_val {A B} (P : A -> Prop) (m : NB Transformer A)
    (k : A -> NB Transformer B) S1 S2 :
  traces m S1 -> returns m P -> (forall a, P a -> traces (k a) S2) ->
  traces (m ≫= k) (S1 ++ S2).
Proof.
  intros Hm HP Hk w. destruct (Hm w) as (new1 & Hlog1 & Hpre1 & Hfull1).
  specialize (HP w).
  unfold mbind, NB_bind. destruct (m w) as [w1 [a|]]; simpl in *.
  - destruct (Hk a (HP a eq_refl) w1) as (new2 & Hlog2 & Hpre2 & Hfull2).
    exists (new1 ++ new2). rewrite Hlog2, Hlog1, <- app_assoc.
    split; [reflexivity|].
    unfold stages in *. rewrite omap_app, Hfull1 by eauto.
    split; [apply prefix_app, Hpre2|].
    intros Hs. rewrite Hfull2 by exact Hs. reflexivity.
  - exists new1. split; [exact Hlog1|].
    split; [apply prefix_app_r, Hpre1|].
    intros [? [=]].
Qed.

(** A cell that adds no stage can be put in front. *)
Lemma traces_bind_nil {A B} (m : NB Transformer A) (k : A -> NB Transformer B) S :
  traces m [] -> (forall a, traces (k a) S) -> traces (m ≫= k) S.
Proof. intros Hm Hk. apply (traces_bind m k [] S Hm Hk). Qed.

Variable fit_oracle :
  nat -> Sparkdl.Estimator -> Spark.Table -> Dbutils.Storage -> option (Transformer * Dbutils.Storage).
Variable transform_oracle : Transformer -> Spark.Table -> option Spark.Table.

Lemma traces_fit (e : Sparkdl.Estimator) (t : Spark.Table) :
  traces (fit fit_oracle e t) [SFit (Sparkdl.maxSteps e)].
Proof.
  intros w. exists [Fit e t]. unfold fit.
  destruct (fit_oracle _ _ _ _) as [[tr st]|]; (split; [reflexivity|]; split; done).
Qed.

Lemma traces_transform (tr : Transformer) (t : Spark.Table) :
  traces (transform transform_oracle tr t) [STransform].
Proof.
  unfold transform.
  apply (traces_bind (emit (Transform tr t)) _ [STransform] []); [apply traces_emit|].
  intros _. apply traces_lift.
Qed.

Lemma traces_display (t : Spark.Table) : traces (display t : NB Transformer ()) [].
Proof. apply (traces_emit (Displayed t)). Qed.

Variable draws : nat -> Q.
Variables x_train y_train : Py.ndarray.

Lemma traces_cell_load : traces (cell_load x_train y_train : NB Transformer _) [].
Proof.
  unfold cell_load.
  apply traces_bind_nil; [apply traces_lift|intros data].
  apply traces_bind_nil; [apply traces_lift|intros df].
  apply traces_bind_nil; [apply traces_display|intros _]. apply traces_ret.
Qed.

Lemma traces_cell_estimator : traces (cell_estimator : NB Transformer _) [].
Proof.
  unfold cell_estimator, fs_rm.
  apply traces_bind_nil; [|intros _; apply traces_ret].
  apply traces_bind_nil; [apply (traces_emit (Removed _))|intros _].
  apply traces_update_files.
Qed.

Lemma returns_cell_estimator :
  returns (cell_estimator : NB Transformer _) (fun e => e = est0).
Proof.
  intros w e. unfold cell_estimator, fs_rm, emit, update_files, mbind, NB_bind.
  destruct (Dbutils.rm _ _ _); simpl; [intros [= <-]; reflexivity|discriminate].
Qed.

Lemma traces_cell_fit (est : Sparkdl.Estimator) (df : Spark.Table) :
  traces (cell_fit fit_oracle transform_oracle draws est df)
         [SFit (Sparkdl.maxSteps est); STransform].
Proof.
  unfold cell_fit.
  apply traces_bind_nil; [apply traces_lift|intros dfv].
  apply (traces_bind _ _ [SFit (Sparkdl.maxSteps est)] [STransform]); [apply traces_fit|intros tr].
  apply (traces_bind _ _ [STransform] []); [apply traces_transform|intros res].
  apply traces_bind_nil; [apply traces_display|intros _]. apply traces_ret.
Qed.

Lemma traces_cell_refit (est : Sparkdl.Estimator) (df dfv : Spark.Table) (tr : Transformer) :
  traces (cell_refit fit_oracle transform_oracle est df dfv tr) [SFit 10000; STransform].
Proof.
  unfold cell_refit.
  apply (traces_bind _ _ [SFit 10000] [STransform]); [apply traces_fit|intros tr'].
  apply (traces_bind _ _ [STransform] []); [apply traces_transform|intros res].
  apply traces_bind_nil; [apply traces_display|intros _]. apply traces_ret.
Qed.

Lemma traces_training :
  traces (training fit_oracle transform_oracle draws x_train y_train) linear_order.
Proof.
  unfold training.
  apply traces_bind_nil; [apply traces_cell_load|intros df].
  apply traces_bind_nil; [apply (traces_emit Help)|intros _].
  apply (traces_bind_val (fun e => e = est0) _ _ [] linear_order).
  { apply traces_cell_estimator. }
  { apply returns_cell_estimator. }
  intros est ->.
  apply (traces_bind _ _ [SFit 5000; STransform] [SFit 10000; STransform]).
  { apply (traces_cell_fit est0). }
  intros [[dfv tr] res].
  apply (traces_bind _ _ [SFit 10000; STransform] []).
  { apply traces_cell_refit. }
  intros [[est' tr'] res']. apply traces_ret.
Qed.

End Traces.
(** ** The cleanup before training *)
Section CleanupFacts.
Import Notebook Dbutils.

Lemma slice_model_dir : Py.slice_from 5 model_dir = "horovod_estimator".
Proof. reflexivity. Qed.

Lemma resolve_cleanup_target :
  resolve (Py.slice_from 5 model_dir) = (Dbfs, ["horovod_estimator"]).
Proof. reflexivity. Qed.

(** The directory the estimator writes its checkpoints to. *)
Lemma resolve_model_dir :
  resolve ("file:" +:+ Sparkdl.modelDir est0) = (Local, ["tmp"; "horovod_estimator"]).
Proof. reflexivity. Qed.

Lemma rm_cleanup (st : Storage) :
  rm (Py.slice_from 5 model_dir) true st
  = Some (mk_storage (local st) (outside ["horovod_estimator"] (dbfs st))).
Proof. reflexivity. Qed.

Lemma outside_lookup_under (dir p : list string) (m : gmap (list string) string) :
  dir `prefix_of` p -> outside dir m !! p = None.
Proof.
  intros Hp. unfold outside. apply map_lookup_filter_None. right.
  intros c _ Hn. apply Hn. exact Hp.
Qed.

Lemma outside_lookup_other (dir p : list string) (m : gmap (list string) string) :
  ~ dir `prefix_of` p -> outside dir m !! p = m !! p.
Proof.
  intros Hp. unfold outside. destruct (m !! p) as [c|] eqn:E.
  - apply map_lookup_filter_Some. split; [exact E|exact Hp].
  - apply map_lookup_filter_None. left. exact E.
Qed.

End CleanupFacts.

Section RunFacts.
Import Notebook.

Context {Transformer : Type}.
Variable fit_oracle :
  nat -> Sparkdl.Estimator -> Spark.Table -> Dbutils.Storage -> option (Transformer * Dbutils.Storage).
Variable transform_oracle : Transformer -> Spark.Table -> option Spark.Table.
Variable draws : nat -> Q.
Variables x_train y_train : Py.ndarray.

Lemma bind_success {A B} (m : NB Transformer A) (k : A -> NB Transformer B)
    (w w' : World Transformer) (b : B) :
  (m ≫= k) w = (w', Some b) ->
  exists w1 a, m w = (w1, Some a) /\ k a w1 = (w', Some b).
Proof.
  unfold mbind, NB_bind. destruct (m w) as [w1 [a|]]; [eauto|discriminate].
Qed.

Lemma lift_success {A} (o : option A) (w w' : World Transformer) (a : A) :
  lift o w = (w', Some a) -> o = Some a /\ w' = w.
Proof. unfold lift. intros [= <- ->]. split; reflexivity. Qed.

Lemma emit_success (e : Event Transformer) (w w' : World Transformer) (u : ()) :
  emit e w = (w', Some u) -> w' = mk_world (files w) (fits w) (log w ++ [e]).
Proof. unfold emit. intros [= <-]. reflexivity. Qed.

Lemma fit_success (e : Sparkdl.Estimator) (t : Spark.Table) (w w' : World Transformer)
    (tr : Transformer) :
  fit fit_oracle e t w = (w', Some tr) ->
  exists st, fit_oracle (fits w) e t (files w) = Some (tr, st)
             /\ w' = mk_world st (S (fits w)) (log w ++ [Fit e t]).
Proof.
  unfold fit. destruct (fit_oracle _ _ _ _) as [[tr' st]|]; [|discriminate].
  intros [= <- <-]. eauto.
Qed.

Lemma transform_success (tr : Transformer) (t res : Spark.Table) (w w' : World Transformer) :
  transform transform_oracle tr t w = (w', Some res) ->
  transform_oracle tr t = Some res
  /\ w' = mk_world (files w) (fits w) (log w ++ [Transform tr t]).
Proof.
  unfold transform. intros H.
  apply bind_success in H as (w1 & u & He & Hl).
  apply emit_success in He. apply lift_success in Hl as [Ho ->]. auto.
Qed.

Lemma cell_estimator_success (w w' : World Transformer) (e : Sparkdl.Estimator) :
  cell_estimator w = (w', Some e) ->
  e = est0
  /\ w' = mk_world
            (Dbutils.mk_storage (Dbutils.local (files w))
               (Dbutils.outside ["horovod_estimator"] (Dbutils.dbfs (files w))))
            (fits w) (log w ++ [Removed "horovod_estimator"]).
Proof.
  unfold cell_estimator, fs_rm, emit, update_files, mbind, mret, NB_bind, NB_ret.
  cbn [files fits log]. rewrite rm_cleanup. intros [= <- <-]. split; reflexivity.
Qed.

(** One step of taking a successful run apart. *)
Ltac nb_step :=
  match goal with
  | Hb : (_ ≫= _) _ = (_, Some _) |- _ =>
      let w := fresh "w" in let a := fresh "a" in let Hm := fresh "Hm" in
      apply bind_success in Hb as (w & a & Hm & Hb)
  | Hl : lift _ _ = (_, Some _) |- _ => apply lift_success in Hl as [? ->]
  | He : emit _ _ = (_, Some _) |- _ => apply emit_success in He; subst
  | Hf : fit _ _ _ _ = (_, Some _) |- _ => apply fit_success in Hf as (? & ? & ->)
  | Ht : transform _ _ _ _ = (_, Some _) |- _ => apply transform_success in Ht as [? ->]
  | Hc : cell_estimator _ = (_, Some _) |- _ => apply cell_estimator_success in Hc as [-> ->]
  | Hr : mret _ _ = (_, Some _) |- _ => unfold mret, NB_ret in Hr; injection Hr as <- <-
  | Hp : (let '(_, _) := ?p in _) _ = _ |- _ => destruct p as [[? ?] ?]
  end.

(** What a run of the training cells that does not raise went through. *)
Lemma training_success (w0 w1 : World Transformer) (vars : Vars Transformer) :
  training fit_oracle transform_oracle draws x_train y_train w0 = (w1, Some vars) ->
  exists data df dfv tr1 st1 res tr2 st2,
    Loader.data x_train y_train = Some data
    /\ Spark.createDataFrame data Notebook.schema = Some df
    /\ df_with_val draws df = Some dfv
    /\ fit_oracle (fits w0) est0 dfv
         (Dbutils.mk_storage (Dbutils.local (files w0))
            (Dbutils.outside ["horovod_estimator"] (Dbutils.dbfs (files w0))))
       = Some (tr1, st1)
    /\ transform_oracle tr1 df = Some res
    /\ fit_oracle (S (fits w0)) (Sparkdl.setMaxSteps 10000 est0) dfv st1 = Some (tr2, st2)
    /\ vars = mk_vars df (Sparkdl.setMaxSteps 10000 est0) dfv tr1 res tr2 res
    /\ w1 = mk_world st2 (S (S (fits w0)))
              (log w0 ++ [Displayed df; Help; Removed "horovod_estimator";
                          Fit est0 dfv; Transform tr1 df; Displayed res;
                          Fit (Sparkdl.setMaxSteps 10000 est0) dfv; Transform tr1 df;
                          Displayed res]).
Proof.
  unfold training, cell_load, cell_fit, cell_refit, display. intros H.
  repeat nb_step.
  cbn [files fits log] in *.
  match goal with
  | H1 : transform_oracle ?t ?d = Some ?r1, H2 : transform_oracle ?t ?d = Some ?r2 |- _ =>
      rewrite H1 in H2; injection H2 as <-
  end.
  do 8 eexists. repeat (split; [eassumption || reflexivity|]).
  rewrite <- !app_assoc. reflexivity.
Qed.

Lemma fs_cp_success (from to : string) (recurse : bool) (w w' : World Transformer) (u : ()) :
  fs_cp from to recurse w = (w', Some u) ->
  exists st, Dbutils.cp from to recurse (files w) = Some st
             /\ w' = mk_world st (fits w) (log w ++ [Copied from to]).
Proof.
  unfold fs_cp, emit, update_files, mbind, NB_bind. cbn [files fits log].
  destruct (Dbutils.cp _ _ _ _) as [st|]; [|discriminate].
  intros [= <-]. eauto.
Qed.

Lemma fs_cp_run (from to : string) (recurse : bool) (w : World Transformer) (st : Dbutils.Storage) :
  Dbutils.cp from to recurse (files w) = Some st ->
  fs_cp from to recurse w = (mk_world st (fits w) (log w ++ [Copied from to]), Some tt).
Proof.
  intros H. unfold fs_cp, emit, update_files, mbind, NB_bind. cbn [files fits log].
  rewrite H. reflexivity.
Qed.

Lemma traces_cell_copy : traces (cell_copy : NB Transformer ()) [].
Proof.
  unfold cell_copy, fs_cp.
  apply traces_bind_nil; [apply (traces_emit (Copied _ _))|intros _].
  apply traces_update_files.
Qed.

Lemma traces_cell_cleanup : traces (cell_cleanup : NB Transformer ()) [].
Proof.
  unfold cell_cleanup.
  apply traces_bind_nil; [apply (traces_emit (Shell _))|intros _].
  apply traces_bind_nil; [apply (traces_emit (Listed _))|intros _].
  apply traces_bind_nil; [apply (traces_emit (Shell _))|intros _].
  apply traces_bind_nil; [apply traces_update_files|intros _].
  apply (traces_emit (Shell _)).
Qed.

Lemma traces_notebook :
  traces (notebook fit_oracle transform_oracle draws x_train y_train) linear_order.
Proof.
  unfold notebook.
  apply (traces_bind _ _ linear_order []); [apply traces_training|intros vars].
  apply traces_bind_nil; [apply traces_cell_copy|intros _].
  apply traces_bind_nil; [apply traces_cell_cleanup|intros _].
  apply traces_ret.
Qed.

(** The notebook reaches the copy only when training has ended, and
    continues from the world training left. *)
Lemma notebook_after_training (w0 w1 : World Transformer) (vars : Vars Transformer) :
  training fit_oracle transform_oracle draws x_train y_train w0 = (w1, Some vars) ->
  notebook fit_oracle transform_oracle draws x_train y_train w0
  = (cell_copy ≫= fun _ => cell_cleanup ≫= fun _ => mret vars) w1.
Proof. intros H. unfold notebook. unfold mbind at 1. unfold NB_bind at 1. rewrite H. reflexivity. Qed.

Lemma notebook_not_trained (w0 w1 : World Transformer) :
  training fit_oracle transform_oracle draws x_train y_train w0 = (w1, None) ->
  notebook fit_oracle transform_oracle draws x_train y_train w0 = (w1, None).
Proof. intros H. unfold notebook. unfold mbind at 1. unfold NB_bind at 1. rewrite H. reflexivity. Qed.

Lemma notebook_success (w0 w2 : World Transformer) (vars : Vars Transformer) :
  notebook fit_oracle transform_oracle draws x_train y_train w0 = (w2, Some vars) ->
  exists w1,
    training fit_oracle transform_oracle draws x_train y_train w0 = (w1, Some vars)
    /\ exists tail, log w2 = log w1 ++ tail /\ fitted tail = [] /\ applied tail = [].
Proof.
  intros H. unfold notebook in H.
  apply bind_success in H as (w1 & vars' & Ht & H).
  apply bind_success in H as (wc & u & Hc & H).
  apply bind_success in H as (wl & u' & Hl & H).
  unfold mret, NB_ret in H. injection H as <- <-.
  exists w1. split; [exact Ht|].
  apply fs_cp_success in Hc as (st & _ & ->).
  unfold cell_cleanup in Hl. repeat nb_step.
  unfold update_files in *. cbn [files fits log] in *.
  match goal with Hu : (_, Some _) = (_, Some _) |- _ => injection Hu as <- end.
  cbn [log]. rewrite <- !app_assoc. eexists. split; [reflexivity|]. split; reflexivity.
Qed.

End RunFacts.
(** ** Copying the checkpoint directory *)
Section CopyFacts.
Import Dbutils.

Lemma strip_prefix_Some (dir p rel : list string) :
  strip_prefix dir p = Some rel <-> p = dir ++ rel.
Proof.
  revert p. induction dir as [|d dir IH]; intros p; simpl.
  - split; [intros [= ->]; reflexivity | intros ->; reflexivity].
  - destruct p as [|x p]; [split; discriminate|].
    destruct (String.eqb_spec d x) as [->|Hne].
    + rewrite IH. split; [intros ->; reflexivity | intros [= ->]; reflexivity].
    + split; [discriminate | intros [= -> _]; congruence].
Qed.

Lemma strip_prefix_app (dir rel : list string) : strip_prefix dir (dir ++ rel) = Some rel.
Proof. apply strip_prefix_Some. reflexivity. Qed.

(** Every file under the source arrives under the destination, at the
    same relative path and with the same contents. *)
Lemma copy_tree_copied (src dst rel : list string) (c : string)
    (from to : gmap (list string) string) :
  from !! (src ++ rel) = Some c -> copy_tree src dst from to !! (dst ++ rel) = Some c.
Proof.
  unfold copy_tree. revert rel c.
  apply (map_fold_weak_ind
           (fun r m => forall rel c, m !! (src ++ rel) = Some c -> r !! (dst ++ rel) = Some c)).
  - intros rel c H. rewrite lookup_empty in H. discriminate.
  - intros p x m r Hp IH rel c H.
    destruct (decide (p = src ++ rel)) as [->|Hne].
    + rewrite lookup_insert_eq in H. injection H as ->.
      rewrite strip_prefix_app. apply lookup_insert_eq.
    + rewrite lookup_insert_ne in H by exact Hne.
      destruct (strip_prefix src p) as [rel'|] eqn:E; [|apply IH, H].
      apply strip_prefix_Some in E. subst p.
      rewrite lookup_insert_ne; [apply IH, H|].
      intros Heq. apply app_inv_head in Heq. congruence.
Qed.

(** Nothing outside the destination directory changes. *)
Lemma copy_tree_other (src dst q : list string) (from to : gmap (list string) string) :
  ~ dst `prefix_of` q -> copy_tree src dst from to !! q = to !! q.
Proof.
  intros Hq. unfold copy_tree.
  apply (map_fold_weak_ind (fun r (m : gmap (list string) string) => r !! q = to !! q)).
  - reflexivity.
  - intros p x m r _ IH. destruct (strip_prefix src p) as [rel|]; [|exact IH].
    rewrite lookup_insert_ne; [exact IH|].
    intros <-. apply Hq. apply prefix_app_r. reflexivity.
Qed.

(** A file under the destination was copied from the source or was there
    before. *)
Lemma copy_tree_origin (src dst rel : list string) (c : string)
    (from to : gmap (list string) string) :
  copy_tree src dst from to !! (dst ++ rel) = Some c ->
  from !! (src ++ rel) = Some c \/ to !! (dst ++ rel) = Some c.
Proof.
  unfold copy_tree. revert rel c.
  apply (map_fold_weak_ind
           (fun r m => forall rel c, r !! (dst ++ rel) = Some c ->
                                     m !! (src ++ rel) = Some c \/ to !! (dst ++ rel) = Some c)).
  - intros rel c H. right. exact H.
  - intros p x m r Hp IH rel c H.
    destruct (strip_prefix src p) as [rel'|] eqn:E.
    + apply strip_prefix_Some in E. subst p.
      destruct (decide (rel' = rel)) as [->|Hne].
      * rewrite lookup_insert_eq in H. injection H as ->.
        left. apply lookup_insert_eq.
      * rewrite lookup_insert_ne in H
          by (intros Heq; apply app_inv_head in Heq; congruence).
        destruct (IH rel c H) as [Hm|Ht]; [left|right; exact Ht].
        rewrite lookup_insert_ne; [exact Hm|].
        intros Heq. apply app_inv_head in Heq. congruence.
    + destruct (IH rel c H) as [Hm|Ht]; [left|right; exact Ht].
      rewrite lookup_insert_ne; [exact Hm|].
      intros ->. rewrite strip_prefix_app in E. discriminate.
Qed.

Lemma under_nonempty (dir rel : list string) (c : string) (m : gmap (list string) string) :
  m !! (dir ++ rel) = Some c -> under dir m <> ∅.
Proof.
  intros H Hempty.
  assert (Hl : under dir m !! (dir ++ rel) = Some c).
  { unfold under. apply map_lookup_filter_Some. split; [exact H|].
    simpl. apply prefix_app_r. reflexivity. }
  rewrite Hempty, lookup_empty in Hl. discriminate.
Qed.

(** The copy of line 127, when a checkpoint exists: the local files stay
    as they are and DBFS receives the tree. *)
Lemma cp_checkpoints (st : Storage) (rel : list string) (c : string) :
  local st !! (["tmp"; "horovod_estimator"] ++ rel) = Some c ->
  cp "file:/tmp/horovod_estimator/" "dbfs:/horovod_estimator/" true st
  = Some (mk_storage (local st)
            (copy_tree ["tmp"; "horovod_estimator"] ["horovod_estimator"] (local st) (dbfs st))).
Proof.
  intros H. unfold cp.
  change (resolve "file:/tmp/horovod_estimator/") with (Local, ["tmp"; "horovod_estimator"]).
  change (resolve "dbfs:/horovod_estimator/") with (Dbfs, ["horovod_estimator"]).
  cbn [store set_store].
  destruct (decide (under ["tmp"; "horovod_estimator"] (local st) = ∅)) as [He|_];
    [|reflexivity].
  exfalso. exact (under_nonempty _ rel c _ H He).
Qed.

End CopyFacts.
(** ** The concrete run, evaluated *)
Section DemoFacts.
Import Notebook.

Example demo_training_succeeds :
  (stages (log (fst Demo.trained)),
   (fun v => (Spark.cell (v_res v) 0 "classes", Spark.cell (v_new_res v) 0 "classes",
              v_transformer v, v_new_transformer v)) <$> snd Demo.trained)
  = (linear_order, Some (Some (VInt 0), Some (VInt 0), 0%nat, 1%nat)).
Proof. vm_compute. reflexivity. Qed.

Example demo_files_after_training :
  let st := files (fst Demo.trained) in
  (Dbutils.local st !! ["tmp"; "horovod_estimator"; "model.ckpt-5000"],
   Dbutils.local st !! ["tmp"; "horovod_estimator"; "model.ckpt-10000"],
   size (Dbutils.local st), size (Dbutils.dbfs st))
  = (Some "weights", Some "weights", 2%nat, 0%nat).
Proof. vm_compute. reflexivity. Qed.

Example demo_files_at_the_end :
  let st := files (fst Demo.finished) in
  (Dbutils.dbfs st !! ["horovod_estimator"; "model.ckpt-5000"],
   Dbutils.dbfs st !! ["horovod_estimator"; "model.ckpt-10000"],
   size (Dbutils.dbfs st), size (Dbutils.local st), stages (log (fst Demo.finished)))
  = (Some "weights", Some "weights", 2%nat, 0%nat, linear_order).
Proof. vm_compute. reflexivity. Qed.

End DemoFacts.
(** ** The hyperparameter bag *)
Section BagFacts.
Import TF Sparkdl Notebook.

Lemma est0_bag_lookup (name : string) (v : Value) :
  params_passed est0 !! name = Some v ->
  (name = "hidden1_units" /\ v = VInt 100) \/ (name = "hidden2_units" /\ v = VInt 50).
Proof.
  unfold params_passed, est0. cbn [modelFnParams]. intros H.
  apply lookup_insert_Some in H as [[<- <-]|[_ H]]; [left; auto|].
  apply lookup_insert_Some in H as [[<- <-]|[_ H]]; [right; auto|].
  rewrite lookup_empty in H. discriminate.
Qed.

Lemma est0_bag_holds (v : Z) : bag_holds (params_passed est0) v -> v = 100 \/ v = 50.
Proof.
  intros [name H]. apply est0_bag_lookup in H as [[_ [= ->]]|[_ [= ->]]]; auto.
Qed.

(** [model_fn] reads the bag only at the two hidden-layer widths. *)
Lemma model_fn_reads_widths_only (hvd_size : Z) (features : gmap string Tensor)
    (labels : option Tensor) (mode : Mode) (p p' : gmap string Value) (g : list Node) :
  p !! "hidden1_units" = p' !! "hidden1_units" ->
  p !! "hidden2_units" = p' !! "hidden2_units" ->
  Model.model_fn hvd_size features labels mode p g
  = Model.model_fn hvd_size features labels mode p' g.
Proof.
  intros H1 H2. unfold Model.model_fn, getitem. rewrite H1, H2. reflexivity.
Qed.

(** C3, as the specification states it, fails: the bag of the notebook's
    estimator holds neither the batch size, nor the step budget, nor the
    checkpoint interval. *)
Lemma hyperparameter_bag_not_as_described : ~ spec_hyperparameter_bag est0.
Proof.
  intros (_ & _ & Hb & _). apply est0_bag_holds in Hb.
  cbn [batchSize est0] in Hb. lia.
Qed.

(** C3 (amended): the bag the estimator passes unchanged to [model_fn] is
    a flat mapping from names to integers that holds exactly the two
    hidden-layer widths, hidden1_units = 100 and hidden2_units = 50, which
    are all [model_fn] reads of it.  The batch size 64, the step budget
    5000 and the checkpoint interval 30 are options of the estimator and
    no entry of the bag; changing the step budget leaves the bag as it
    is. *)
Theorem hyperparameter_bag_holds_hidden_widths_only :
  dom (params_passed est0) = {[ "hidden1_units"; "hidden2_units" ]}
  /\ params_passed est0 !! "hidden1_units" = Some (VInt 100)
  /\ params_passed est0 !! "hidden2_units" = Some (VInt 50)
  /\ (forall name v, params_passed est0 !! name = Some v -> exists z, v = VInt z)
  /\ (forall hvd_size features labels mode g,
        call_model_fn est0 hvd_size features labels mode g
        = Model.model_fn hvd_size features labels mode (params_passed est0) g)
  /\ (forall hvd_size features labels mode p g,
        p !! "hidden1_units" = Some (VInt 100) -> p !! "hidden2_units" = Some (VInt 50) ->
        Model.model_fn hvd_size features labels mode p g
        = call_model_fn est0 hvd_size features labels mode g)
  /\ batchSize est0 = 64 /\ maxSteps est0 = 5000 /\ saveCheckpointsSecs est0 = 30
  /\ ~ bag_holds (params_passed est0) (batchSize est0)
  /\ ~ bag_holds (params_passed est0) (maxSteps est0)
  /\ ~ bag_holds (params_passed est0) (saveCheckpointsSecs est0)
  /\ (forall n, params_passed (setMaxSteps n est0) = params_passed est0).
Proof.
  split.
  { unfold params_passed, est0. cbn [modelFnParams].
    rewrite !dom_insert_L, dom_empty_L. set_solver. }
  split; [reflexivity|]. split; [reflexivity|].
  split.
  { intros name v H. apply est0_bag_lookup in H as [[_ ->]|[_ ->]]; eauto. }
  split; [reflexivity|].
  split.
  { intros hvd_size features labels mode p g H1 H2. unfold call_model_fn.
    cbn [modelFn est0]. apply model_fn_reads_widths_only.
    - rewrite H1. reflexivity.
    - rewrite H2. reflexivity. }
  split; [reflexivity|]. split; [reflexivity|]. split; [reflexivity|].
  split; [intros H; apply est0_bag_holds in H; cbn [batchSize est0] in H; lia|].
  split; [intros H; apply est0_bag_holds in H; cbn [maxSteps est0] in H; lia|].
  split; [intros H; apply est0_bag_holds in H; cbn [saveCheckpointsSecs est0] in H; lia|].
  reflexivity.
Qed.

End BagFacts.
(** ** The notebook as a whole *)
Section NotebookTheorems.
Import Notebook.

Lemma no_stage_no_fit {Transformer : Type} (l : list (Event Transformer)) :
  stages l = [] -> fitted l = [].
Proof.
  unfold stages, fitted. induction l as [|e l IH]; [reflexivity|].
  destruct e; cbn [omap list_omap stage_of]; try discriminate; exact IH.
Qed.

(** When the data loads, the table is created and neither [fit] nor
    [transform] raises, the training cells run to their end. *)
Lemma training_runs (Transformer : Type)
    (fit_oracle : nat -> Sparkdl.Estimator -> Spark.Table -> Dbutils.Storage
                  -> option (Transformer * Dbutils.Storage))
    (transform_oracle : Transformer -> Spark.Table -> option Spark.Table)
    (draws : nat -> Q) (x_train y_train : Py.ndarray) (w : World Transformer)
    (data : list (Value * Value)) (df : Spark.Table) :
  Loader.data x_train y_train = Some data ->
  Spark.createDataFrame data Notebook.schema = Some df ->
  (forall k e t st, is_Some (fit_oracle k e t st)) ->
  (forall tr t, is_Some (transform_oracle tr t)) ->
  exists dfv tr1 res w1 vars,
    training fit_oracle transform_oracle draws x_train y_train w = (w1, Some vars)
    /\ log w1 = log w ++ [Displayed df; Help; Removed "horovod_estimator";
                          Fit est0 dfv; Transform tr1 df; Displayed res;
                          Fit (Sparkdl.setMaxSteps 10000 est0) dfv; Transform tr1 df;
                          Displayed res].
Proof.
  intros Hdata Hdf Hfit Htr.
  destruct (df_with_val_cells data df draws Hdf) as (dfv & Hdfv & _).
  destruct (Hfit (fits w) est0 dfv
              (Dbutils.mk_storage (Dbutils.local (files w))
                 (Dbutils.outside ["horovod_estimator"] (Dbutils.dbfs (files w)))))
    as [[tr1 st1] Hf1].
  destruct (Htr tr1 df) as [res Hres].
  destruct (Hfit (S (fits w)) (Sparkdl.setMaxSteps 10000 est0) dfv st1) as [[tr2 st2] Hf2].
  exists dfv, tr1, res.
  cbv [training cell_load cell_estimator cell_fit cell_refit fs_rm transform fit display
       emit lift update_files mbind mret NB_bind NB_ret].
  cbn [files fits log]. rewrite Hdata, Hdf. cbn [files fits log].
  rewrite rm_cleanup. cbn [files fits log]. rewrite Hdfv. cbn [files fits log].
  rewrite Hf1. cbn [files fits log]. rewrite Hres. cbn [files fits log].
  rewrite Hf2. cbn [files fits log]. rewrite Hres.
  eexists. eexists. split; [reflexivity|]. cbn [log].
  rewrite <- !app_assoc. reflexivity.
Qed.

Lemma stages_prefix_in_every_run (Transformer : Type)
    (fit_oracle : nat -> Sparkdl.Estimator -> Spark.Table -> Dbutils.Storage
                  -> option (Transformer * Dbutils.Storage))
    (transform_oracle : Transformer -> Spark.Table -> option Spark.Table)
    (draws : nat -> Q) (x_train y_train : Py.ndarray) (w : World Transformer) :
  exists new,
    log (fst (notebook fit_oracle transform_oracle draws x_train y_train w)) = log w ++ new
    /\ stages new `prefix_of` [SFit 5000; STransform; SFit 10000; STransform]
    /\ (is_Some (snd (notebook fit_oracle transform_oracle draws x_train y_train w)) ->
        stages new = [SFit 5000; STransform; SFit 10000; STransform]
        /\ fitted new = [est0; Sparkdl.setMaxSteps 10000 est0]).
Proof.
  destruct (traces_notebook fit_oracle transform_oracle draws x_train y_train w)
    as (new & Hlog & Hpre & Hfull).
  exists new. split; [exact Hlog|]. split; [exact Hpre|].
  intros Hs. split; [exact (Hfull Hs)|].
  destruct Hs as [vars Hs].
  destruct (notebook fit_oracle transform_oracle draws x_train y_train w) as [w2 r] eqn:Hrun.
  simpl in Hs, Hlog. subst r.
  apply notebook_success in Hrun as (w1 & Htr & tail & Htail & Hfit & _).
  apply training_success in Htr
    as (data & df & dfv & tr1 & st1 & res & tr2 & st2 & _ & _ & _ & _ & _ & _ & _ & Hw1).
  rewrite Htail, Hw1 in Hlog. cbn [log] in Hlog.
  rewrite <- app_assoc in Hlog. apply app_inv_head in Hlog. subst new.
  unfold fitted in *. rewrite omap_app, Hfit. reflexivity.
Qed.

(** C6: when the data loads, the table is created and neither [fit] nor
    [transform] raises, the notebook runs exactly four stages, in this
    order: fit with step budget 5000, transform, fit of the same estimator
    with the larger step budget 10000, transform (whether or not the later
    copy raises).  Whatever the environment answers, the stages that are
    run are an initial part of these four: none is repeated, skipped or
    run out of order, and a run that does not raise has gone through all
    four. *)
Theorem stages_run_in_linear_order (Transformer : Type)
    (fit_oracle : nat -> Sparkdl.Estimator -> Spark.Table -> Dbutils.Storage
                  -> option (Transformer * Dbutils.Storage))
    (transform_oracle : Transformer -> Spark.Table -> option Spark.Table)
    (draws : nat -> Q) (x_train y_train : Py.ndarray) (w : World Transformer)
    (data : list (Value * Value)) (df : Spark.Table) :
  Loader.data x_train y_train = Some data ->
  Spark.createDataFrame data Notebook.schema = Some df ->
  (forall k e t st, is_Some (fit_oracle k e t st)) ->
  (forall tr t, is_Some (transform_oracle tr t)) ->
  (exists new,
     log (fst (notebook fit_oracle transform_oracle draws x_train y_train w)) = log w ++ new
     /\ stages new = [SFit 5000; STransform; SFit 10000; STransform]
     /\ fitted new = [est0; Sparkdl.setMaxSteps 10000 est0]
     /\ is_Some (snd (training fit_oracle transform_oracle draws x_train y_train w)))
  /\ (forall fit_oracle' transform_oracle' draws' x_train' y_train' (w' : World Transformer),
        exists new,
          log (fst (notebook fit_oracle' transform_oracle' draws' x_train' y_train' w'))
            = log w' ++ new
          /\ stages new `prefix_of` [SFit 5000; STransform; SFit 10000; STransform]
          /\ (is_Some (snd (notebook fit_oracle' transform_oracle' draws' x_train' y_train' w')) ->
              stages new = [SFit 5000; STransform; SFit 10000; STransform]
              /\ fitted new = [est0; Sparkdl.setMaxSteps 10000 est0]))
  /\ Sparkdl.maxSteps est0 = 5000
  /\ Sparkdl.maxSteps (Sparkdl.setMaxSteps 10000 est0) = 10000
  /\ Sparkdl.maxSteps est0 < Sparkdl.maxSteps (Sparkdl.setMaxSteps 10000 est0).
Proof.
  intros Hdata Hdf Hfit Htr.
  split; [|split; [intros; apply stages_prefix_in_every_run|repeat split; reflexivity]].
  destruct (training_runs Transformer fit_oracle transform_oracle draws x_train y_train w
              data df Hdata Hdf Hfit Htr) as (dfv & tr1 & res & w1 & vars & Hrun & Hlog1).
  rewrite (notebook_after_training _ _ _ _ _ w w1 vars Hrun).
  assert (Htail : traces ((cell_copy ≫= fun _ => cell_cleanup ≫= fun _ => mret vars)
                            : NB Transformer (Vars Transformer)) []).
  { apply traces_bind_nil; [apply traces_cell_copy|intros _].
    apply traces_bind_nil; [apply traces_cell_cleanup|intros _]. apply traces_ret. }
  destruct (Htail w1) as (tail & Hlog & Hpre & _).
  apply prefix_nil_inv in Hpre.
  eexists. rewrite Hlog, Hlog1, <- app_assoc. split; [reflexivity|].
  split.
  { unfold stages in *. rewrite omap_app, Hpre. reflexivity. }
  split.
  { pose proof (no_stage_no_fit tail Hpre) as Hnofit.
    unfold fitted in *. rewrite omap_app, Hnofit. reflexivity. }
  rewrite Hrun. cbn [snd]. eauto.
Qed.

Lemma demo_fit_returns (k : nat) (e : Sparkdl.Estimator) (t : Spark.Table) (st : Dbutils.Storage) :
  is_Some (Demo.fit_oracle k e t st).
Proof. unfold Demo.fit_oracle. eauto. Qed.

Lemma demo_transform_returns (tr : nat) (t : Spark.Table) :
  is_Some (Demo.transform_oracle tr t).
Proof. unfold Demo.transform_oracle. eauto. Qed.

Lemma stages_run_in_linear_order_witness :
  (exists new,
     log (fst (notebook Demo.fit_oracle Demo.transform_oracle Demo.draws Demo.x_train
                 Demo.y_train Demo.world)) = log Demo.world ++ new
     /\ stages new = [SFit 5000; STransform; SFit 10000; STransform]
     /\ fitted new = [est0; Sparkdl.setMaxSteps 10000 est0]
     /\ is_Some (snd (training Demo.fit_oracle Demo.transform_oracle Demo.draws Demo.x_train
                        Demo.y_train Demo.world)))
  /\ (forall fit_oracle' transform_oracle' draws' x_train' y_train' (w' : World nat),
        exists new,
          log (fst (notebook fit_oracle' transform_oracle' draws' x_train' y_train' w'))
            = log w' ++ new
          /\ stages new `prefix_of` [SFit 5000; STransform; SFit 10000; STransform]
          /\ (is_Some (snd (notebook fit_oracle' transform_oracle' draws' x_train' y_train' w')) ->
              stages new = [SFit 5000; STransform; SFit 10000; STransform]
              /\ fitted new = [est0; Sparkdl.setMaxSteps 10000 est0]))
  /\ Sparkdl.maxSteps est0 = 5000
  /\ Sparkdl.maxSteps (Sparkdl.setMaxSteps 10000 est0) = 10000
  /\ Sparkdl.maxSteps est0 < Sparkdl.maxSteps (Sparkdl.setMaxSteps 10000 est0).
Proof.
  eapply (stages_run_in_linear_order nat Demo.fit_oracle Demo.transform_oracle Demo.draws
            Demo.x_train Demo.y_train Demo.world).
  - reflexivity.
  - reflexivity.
  - exact demo_fit_returns.
  - exact demo_transform_returns.
Defined.

(** An environment in which the first fit raises: one stage is run. *)
Example stages_when_first_fit_raises :
  stages (log (fst (notebook (fun _ _ _ _ => @None (nat * Dbutils.Storage))
                      Demo.transform_oracle Demo.draws Demo.x_train Demo.y_train Demo.world)))
  = [SFit 5000].
Proof. vm_compute. reflexivity. Qed.

(** C9: the path removed before training is the checkpoint path without
    its first five characters, "horovod_estimator", which names a
    directory under the root of DBFS; the removal empties that directory
    and leaves every local file, the checkpoint directory
    /tmp/horovod_estimator among them, as it was. *)
Theorem cleanup_removes_dbfs_path_not_local_checkpoints :
  Py.slice_from 5 model_dir = "horovod_estimator"
  /\ Dbutils.resolve (Py.slice_from 5 model_dir) = (Dbutils.Dbfs, ["horovod_estimator"])
  /\ Dbutils.resolve ("file:" +:+ Sparkdl.modelDir est0)
     = (Dbutils.Local, ["tmp"; "horovod_estimator"])
  /\ (forall st, exists st',
        Dbutils.rm (Py.slice_from 5 model_dir) true st = Some st'
        /\ Dbutils.local st' = Dbutils.local st
        /\ (forall p, ["horovod_estimator"] `prefix_of` p -> Dbutils.dbfs st' !! p = None)
        /\ (forall p, ~ ["horovod_estimator"] `prefix_of` p ->
                      Dbutils.dbfs st' !! p = Dbutils.dbfs st !! p))
  /\ (forall (Transformer : Type) (w w' : World Transformer) e,
        cell_estimator w = (w', Some e) ->
        Dbutils.local (files w') = Dbutils.local (files w)
        /\ log w' = log w ++ [Removed "horovod_estimator"])
  /\ (forall (Transformer : Type) (w : World Transformer),
        snd (cell_estimator w) = Some est0).
Proof.
  split; [exact slice_model_dir|]. split; [exact resolve_cleanup_target|].
  split; [exact resolve_model_dir|].
  split.
  { intros st. eexists. split; [apply rm_cleanup|]. split; [reflexivity|].
    split; intros p Hp; cbn [Dbutils.dbfs].
    - apply outside_lookup_under, Hp.
    - apply outside_lookup_other, Hp. }
  split.
  { intros Transformer w w' e H. apply cell_estimator_success in H as [_ ->].
    split; reflexivity. }
  intros Transformer w.
  unfold cell_estimator, fs_rm, emit, update_files, mbind, mret, NB_bind, NB_ret.
  cbn [files fits log]. rewrite rm_cleanup. reflexivity.
Qed.

End NotebookTheorems.
Section CopyAndRefitTheorems.
Import Notebook.

(** C8: once the training cells have run, the notebook copies the
    directory /tmp/horovod_estimator of the local disk to
    dbfs:/horovod_estimator/: every file under the source arrives at the
    same relative path with the same contents, the local files (the source
    among them) are exactly as before, and DBFS is unchanged outside the
    destination. *)
Theorem copy_after_training_keeps_source (Transformer : Type)
    (fit_oracle : nat -> Sparkdl.Estimator -> Spark.Table -> Dbutils.Storage
                  -> option (Transformer * Dbutils.Storage))
    (transform_oracle : Transformer -> Spark.Table -> option Spark.Table)
    (draws : nat -> Q) (x_train y_train : Py.ndarray)
    (w0 w1 : World Transformer) (vars : Vars Transformer)
    (ckpt : list string) (bytes : string) :
  training fit_oracle transform_oracle draws x_train y_train w0 = (w1, Some vars) ->
  Dbutils.local (files w1) !! (["tmp"; "horovod_estimator"] ++ ckpt) = Some bytes ->
  exists w2,
    cell_copy w1 = (w2, Some tt)
    /\ notebook fit_oracle transform_oracle draws x_train y_train w0
       = (cell_cleanup ≫= fun _ => mret vars) w2
    /\ (exists trained, log w1 = log w0 ++ trained /\ stages trained = linear_order)
    /\ log w2 = log w1 ++ [Copied "file:/tmp/horovod_estimator/" "dbfs:/horovod_estimator/"]
    /\ Dbutils.local (files w2) = Dbutils.local (files w1)
    /\ (forall rel c,
          Dbutils.local (files w1) !! (["tmp"; "horovod_estimator"] ++ rel) = Some c ->
          Dbutils.dbfs (files w2) !! (["horovod_estimator"] ++ rel) = Some c)
    /\ (forall rel c,
          Dbutils.dbfs (files w2) !! (["horovod_estimator"] ++ rel) = Some c ->
          Dbutils.local (files w1) !! (["tmp"; "horovod_estimator"] ++ rel) = Some c
          \/ Dbutils.dbfs (files w1) !! (["horovod_estimator"] ++ rel) = Some c)
    /\ (forall q, ~ ["horovod_estimator"] `prefix_of` q ->
                  Dbutils.dbfs (files w2) !! q = Dbutils.dbfs (files w1) !! q).
Proof.
  intros Htrain Hsrc.
  pose proof (cp_checkpoints (files w1) ckpt bytes Hsrc) as Hcp.
  pose proof (fs_cp_run _ _ _ w1 _ Hcp) as Hrun. fold (@cell_copy Transformer) in Hrun.
  eexists. split; [exact Hrun|].
  split.
  { rewrite (notebook_after_training _ _ _ _ _ w0 w1 vars Htrain).
    unfold mbind at 1. unfold NB_bind at 1. rewrite Hrun. reflexivity. }
  split.
  { destruct (traces_training fit_oracle transform_oracle draws x_train y_train w0)
      as (new & Hlog & _ & Hfull).
    rewrite Htrain in Hlog, Hfull. exists new. split; [exact Hlog|].
    apply Hfull. simpl. eauto. }
  split; [reflexivity|]. split; [reflexivity|]. cbn [files Dbutils.dbfs].
  split; [intros rel c; apply copy_tree_copied|].
  split; [intros rel c; apply copy_tree_origin|].
  intros q; apply copy_tree_other.
Qed.

(** The concrete run trains without raising and leaves a checkpoint. *)
Lemma demo_training_returns : exists vars, snd Demo.trained = Some vars.
Proof. vm_compute. eauto. Qed.

Lemma demo_checkpoint_written :
  Dbutils.local (files (fst Demo.trained))
    !! (["tmp"; "horovod_estimator"] ++ ["model.ckpt-5000"]) = Some "weights".
Proof. vm_compute. reflexivity. Qed.

Lemma copy_after_training_keeps_source_witness :
  exists vars w2,
    Demo.trained = (fst Demo.trained, Some vars)
    /\ Dbutils.local (files (fst Demo.trained))
         !! (["tmp"; "horovod_estimator"] ++ ["model.ckpt-5000"]) = Some "weights"
    /\ cell_copy (fst Demo.trained) = (w2, Some tt)
    /\ Demo.finished = (cell_cleanup ≫= fun _ => mret vars) w2
    /\ (exists trained, log (fst Demo.trained) = log Demo.world ++ trained
                        /\ stages trained = linear_order)
    /\ log w2 = log (fst Demo.trained)
                 ++ [Copied "file:/tmp/horovod_estimator/" "dbfs:/horovod_estimator/"]
    /\ Dbutils.local (files w2) = Dbutils.local (files (fst Demo.trained))
    /\ (forall rel c,
          Dbutils.local (files (fst Demo.trained)) !! (["tmp"; "horovod_estimator"] ++ rel)
            = Some c ->
          Dbutils.dbfs (files w2) !! (["horovod_estimator"] ++ rel) = Some c)
    /\ (forall rel c,
          Dbutils.dbfs (files w2) !! (["horovod_estimator"] ++ rel) = Some c ->
          Dbutils.local (files (fst Demo.trained)) !! (["tmp"; "horovod_estimator"] ++ rel)
            = Some c
          \/ Dbutils.dbfs (files (fst Demo.trained)) !! (["horovod_estimator"] ++ rel) = Some c)
    /\ (forall q, ~ ["horovod_estimator"] `prefix_of` q ->
                  Dbutils.dbfs (files w2) !! q = Dbutils.dbfs (files (fst Demo.trained)) !! q).
Proof.
  destruct demo_training_returns as [vars Hs].
  assert (Htrained : Demo.trained = (fst Demo.trained, Some vars)).
  { rewrite <- Hs. apply surjective_pairing. }
  destruct (copy_after_training_keeps_source nat Demo.fit_oracle Demo.transform_oracle
              Demo.draws Demo.x_train Demo.y_train Demo.world (fst Demo.trained) vars
              ["model.ckpt-5000"] "weights" Htrained demo_checkpoint_written) as (w2 & H).
  exists vars, w2. split; [exact Htrained|]. split; [exact demo_checkpoint_written|]. exact H.
Defined.

(** C10: in a run of the training cells that does not raise, the
    transformer applied after the refit is the one the first fit returned,
    on the same table as the first time: both applications recorded in
    the log are of that transformer, the transformer the refit returned is
    applied to nothing, the second result equals the first, and it is the
    same whatever the refit does (for any other behaviour of [fit] from the
    second call on). *)
Theorem second_transform_applies_first_transformer (Transformer : Type)
    (fit_oracle : nat -> Sparkdl.Estimator -> Spark.Table -> Dbutils.Storage
                  -> option (Transformer * Dbutils.Storage))
    (transform_oracle : Transformer -> Spark.Table -> option Spark.Table)
    (draws : nat -> Q) (x_train y_train : Py.ndarray)
    (w0 w1 : World Transformer) (vars : Vars Transformer) :
  training fit_oracle transform_oracle draws x_train y_train w0 = (w1, Some vars) ->
  exists st0 st1 st2 trained,
    fit_oracle (fits w0) est0 (v_df_with_val vars) st0 = Some (v_transformer vars, st1)
    /\ fit_oracle (S (fits w0)) (Sparkdl.setMaxSteps 10000 est0) (v_df_with_val vars) st1
       = Some (v_new_transformer vars, st2)
    /\ transform_oracle (v_transformer vars) (v_df vars) = Some (v_new_res vars)
    /\ v_new_res vars = v_res vars
    /\ log w1 = log w0 ++ trained
    /\ applied trained = [v_transformer vars; v_transformer vars]
    /\ (forall fit_oracle' w1' vars',
          (forall e t st, fit_oracle' (fits w0) e t st = fit_oracle (fits w0) e t st) ->
          training fit_oracle' transform_oracle draws x_train y_train w0 = (w1', Some vars') ->
          v_transformer vars' = v_transformer vars /\ v_new_res vars' = v_new_res vars).
Proof.
  intros Htrain.
  apply training_success in Htrain
    as (data & df & dfv & tr1 & st1 & res & tr2 & st2
        & Hdata & Hdf & Hdfv & Hfit1 & Hres & Hfit2 & -> & ->).
  cbn [v_df v_df_with_val v_transformer v_new_transformer v_res v_new_res log].
  eexists. exists st1, st2. eexists.
  split; [exact Hfit1|]. split; [exact Hfit2|]. split; [exact Hres|].
  split; [reflexivity|]. split; [reflexivity|]. split; [reflexivity|].
  intros fit_oracle' w1' vars' Hsame Htrain'.
  apply training_success in Htrain'
    as (data' & df' & dfv' & tr1' & st1' & res' & tr2' & st2'
        & Hdata' & Hdf' & Hdfv' & Hfit1' & Hres' & _ & -> & _).
  cbn [v_transformer v_new_res].
  rewrite Hdata in Hdata'. injection Hdata' as <-.
  rewrite Hdf in Hdf'. injection Hdf' as <-.
  rewrite Hdfv in Hdfv'. injection Hdfv' as <-.
  rewrite Hsame, Hfit1 in Hfit1'. injection Hfit1' as <- <-.
  rewrite Hres in Hres'. injection Hres' as <-.
  split; reflexivity.
Qed.

Lemma second_transform_applies_first_transformer_witness :
  exists vars st0 st1 st2 trained,
    Demo.trained = (fst Demo.trained, Some vars)
    /\ Demo.fit_oracle (fits Demo.world) est0 (v_df_with_val vars) st0
       = Some (v_transformer vars, st1)
    /\ Demo.fit_oracle (S (fits Demo.world)) (Sparkdl.setMaxSteps 10000 est0)
         (v_df_with_val vars) st1
       = Some (v_new_transformer vars, st2)
    /\ Demo.transform_oracle (v_transformer vars) (v_df vars) = Some (v_new_res vars)
    /\ v_new_res vars = v_res vars
    /\ log (fst Demo.trained) = log Demo.world ++ trained
    /\ applied trained = [v_transformer vars; v_transformer vars]
    /\ (forall fit_oracle' w1' vars',
          (forall e t st,
             fit_oracle' (fits Demo.world) e t st = Demo.fit_oracle (fits Demo.world) e t st) ->
          training fit_oracle' Demo.transform_oracle Demo.draws Demo.x_train Demo.y_train
            Demo.world = (w1', Some vars') ->
          v_transformer vars' = v_transformer vars /\ v_new_res vars' = v_new_res vars).
Proof.
  destruct demo_training_returns as [vars Hs].
  assert (Htrained : Demo.trained = (fst Demo.trained, Some vars)).
  { rewrite <- Hs. apply surjective_pairing. }
  destruct (second_transform_applies_first_transformer nat Demo.fit_oracle
              Demo.transform_oracle Demo.draws Demo.x_train Demo.y_train Demo.world
              (fst Demo.trained) vars Htrained) as (st0 & st1 & st2 & trained & H).
  exists vars, st0, st1, st2, trained. split; [exact Htrained|]. exact H.
Defined.

(** In the concrete run the two models differ (0 and 1) and both results
    carry the prediction of the first. *)
Example demo_second_result_from_first_model :
  (fun v => (v_transformer v, v_new_transformer v,
             Spark.cell (v_res v) 1 "classes", Spark.cell (v_new_res v) 1 "classes"))
    <$> snd Demo.trained
  = Some (0%nat, 1%nat, Some (VInt 0), Some (VInt 0)).
Proof. vm_compute. reflexivity. Qed.

End CopyAndRefitTheorems.

(** * Further properties *)

(** ** More on the data set loader *)
Section LoaderMore.
Import Py Loader.

Lemma size_of_batch (n h w : nat) : size_of [n; h; w] = (n * (h * w))%nat.
Proof. unfold size_of. simpl. lia. Qed.

Lemma flatten_images_batch (x : ndarray) (n h w : nat) :
  (0 < n)%nat -> shape x = [n; h; w] ->
  flatten_images x = Some (mk_ndarray [n; (h * w)%nat] (elems x)).
Proof.
  intros Hn Hs. unfold flatten_images, shape0, reshape_rows.
  rewrite Hs. cbn [head mbind option_bind]. rewrite size_of_batch.
  destruct (Nat.eqb_spec n 0) as [->|_]; [lia|].
  rewrite (Nat.mul_comm n (h * w)), Nat.Div0.mod_mul, Nat.div_mul by lia.
  reflexivity.
Qed.

(** X1: for a batch of [n > 0] images of [h] by [w] pixels and [m <= n]
    labels the loader returns [m] records (images beyond the labels are
    left out), in the order of the arrays: record [i] holds label [i] and
    the [h * w] pixels of image [i] as floats, pixel [(r, c)] at position
    [r * w + c]. *)
Theorem loader_keeps_order_and_pixels (x y : ndarray) (n h w m : nat) :
  (0 < n)%nat -> shape x = [n; h; w] -> well_shaped x ->
  shape y = [m] -> well_shaped y -> (m <= n)%nat ->
  exists recs,
    Loader.data x y = Some recs
    /\ length recs = m
    /\ forall i, (i < m)%nat ->
         exists img lbl,
           recs !! i = Some (VList img, VInt lbl)
           /\ elems y !! i = Some lbl
           /\ length img = (h * w)%nat
           /\ forall r c, (r < h)%nat -> (c < w)%nat ->
                exists p, elems x !! (i * (h * w) + r * w + c)%nat = Some p
                          /\ img !! (r * w + c)%nat = Some (VFloat (inject_Z p)).
Proof.
  intros Hn Hx Hwx Hy Hwy Hm. unfold data.
  rewrite (flatten_images_batch x n h w Hn Hx). cbn [mbind option_bind].
  unfold len, shape0. rewrite Hy. cbn [head mbind option_bind].
  assert (He : length (elems x) = (n * (h * w))%nat).
  { unfold well_shaped in Hwx. rewrite Hx, size_of_batch in Hwx. exact Hwx. }
  assert (Hly : length (elems y) = m).
  { unfold well_shaped in Hwy. rewrite Hy in Hwy. simpl in Hwy. lia. }
  assert (Hrec : forall i, (i < m)%nat ->
            record_at (mk_ndarray [n; (h * w)%nat] (elems x)) y i
            = Some (VList (astype_float_tolist (take (h * w) (drop (i * (h * w)) (elems x)))),
                    VInt (default 0 (elems y !! i)))
            /\ is_Some (elems y !! i)).
  { intros i Hi. unfold record_at, row, item. cbn [shape elems]. rewrite Hy.
    destruct (Nat.ltb_spec i n) as [_|]; [|lia].
    destruct (Nat.ltb_spec i m) as [_|]; [|lia].
    destruct (lookup_lt_is_Some_2 (elems y) i) as [z Hz]; [lia|].
    rewrite Hz. split; [reflexivity|eauto]. }
  destruct (mapM_is_Some_2 (record_at (mk_ndarray [n; (h * w)%nat] (elems x)) y) (seq 0 m))
    as [recs Hrecs].
  { apply Forall_seq. intros i Hi. simpl.
    destruct (Hrec i) as [-> _]; [lia|]. eauto. }
  exists recs. split; [exact Hrecs|].
  apply mapM_Some_1 in Hrecs.
  assert (Hlen : length recs = m).
  { rewrite <- (Forall2_length _ _ _ Hrecs). apply length_seq. }
  split; [exact Hlen|].
  intros i Hi.
  destruct (Forall2_lookup_l _ _ _ i i Hrecs) as (rec & Hreci & Hrat).
  { apply lookup_seq. lia. }
  destruct (Hrec i Hi) as [Heq [z Hz]]. rewrite Heq in Hrat. injection Hrat as <-.
  rewrite Hz in Hreci. cbn [default] in Hreci.
  eexists. exists z. split; [exact Hreci|]. split; [exact Hz|].
  split.
  { rewrite astype_float_tolist_length, length_take, length_drop. nia. }
  intros r c Hr Hc.
  assert (Hpos : (r * w + c < h * w)%nat) by nia.
  destruct (lookup_lt_is_Some_2 (elems x) (i * (h * w) + r * w + c)) as [p Hp]; [nia|].
  exists p. split; [exact Hp|].
  unfold astype_float_tolist. change (map ?f ?l) with (f <$> l).
  rewrite list_lookup_fmap, lookup_take_lt, lookup_drop by exact Hpos.
  rewrite Nat.add_assoc, Hp. reflexivity.
Qed.

Lemma loader_keeps_order_and_pixels_witness :
  exists recs,
    Loader.data MoreInputs.two_images MoreInputs.one_label_only = Some recs
    /\ length recs = 1%nat
    /\ forall i, (i < 1)%nat ->
         exists img lbl,
           recs !! i = Some (VList img, VInt lbl)
           /\ elems MoreInputs.one_label_only !! i = Some lbl
           /\ length img = (2 * 3)%nat
           /\ forall r c, (r < 2)%nat -> (c < 3)%nat ->
                exists p, elems MoreInputs.two_images !! (i * (2 * 3) + r * 3 + c)%nat = Some p
                          /\ img !! (r * 3 + c)%nat = Some (VFloat (inject_Z p)).
Proof.
  apply (loader_keeps_order_and_pixels MoreInputs.two_images MoreInputs.one_label_only 2 2 3 1);
    first [reflexivity | lia].
Defined.

Example loader_two_images_one_label :
  Loader.data MoreInputs.two_images MoreInputs.one_label_only
  = Some [(VList (map (fun z => VFloat (inject_Z z)) [10; 11; 12; 13; 14; 15]), VInt 7)].
Proof. reflexivity. Qed.

(** X2: the loader raises when the batch of images is empty (the reshape
    cannot infer the row length) and when there are more labels than
    images (the index runs past the last image). *)
Theorem loader_raises_on_empty_or_short_batch (x y : ndarray) (n h w m : nat) :
  shape x = [n; h; w] -> shape y = [m] -> n = 0%nat \/ (n < m)%nat ->
  Loader.data x y = None.
Proof.
  intros Hx Hy Hcase. unfold data.
  destruct (Nat.eq_dec n 0%nat) as [->|Hn].
  { unfold flatten_images, shape0, reshape_rows. rewrite Hx. reflexivity. }
  destruct Hcase as [?|Hlt]; [contradiction|].
  rewrite (flatten_images_batch x n h w) by (lia || exact Hx). cbn [mbind option_bind].
  unfold len, shape0. rewrite Hy. cbn [head mbind option_bind].
  apply mapM_None_2, Exists_exists. exists n. split.
  - apply elem_of_seq. lia.
  - unfold record_at, row. cbn [shape].
    rewrite Nat.ltb_irrefl. reflexivity.
Qed.

Lemma loader_raises_on_empty_or_short_batch_witness :
  Loader.data MoreInputs.two_images MoreInputs.three_labels = None.
Proof.
  apply (loader_raises_on_empty_or_short_batch MoreInputs.two_images MoreInputs.three_labels
           2 2 3 3); [reflexivity|reflexivity|right; lia].
Defined.

End LoaderMore.
(** ** More on the validation column *)
Section SplitMore.
Import Notebook.

Lemma df_with_val_rows (recs : list (Value * Value)) (df : Spark.Table) (draws : nat -> Q) :
  Spark.createDataFrame recs Notebook.schema = Some df ->
  exists dfv,
    df_with_val draws df = Some dfv
    /\ Spark.schema dfv = Notebook.schema ++ [("isVal", Spark.BooleanType)]
    /\ length (Spark.rows dfv) = length (Spark.rows df)
    /\ forall i r, Spark.rows df !! i = Some r ->
         Spark.rows dfv !! i = Some (r ++ [VBool (is_val (draws i))]).
Proof.
  intros Hdf. apply createDataFrame_rows in Hdf as [Hsch Hrows].
  unfold df_with_val.
  pose proof (eval_isVal_column) as Hev.
  destruct isVal_column as [c|] eqn:Hc; [|discriminate (Hev 0%Q)].
  cbn [mbind option_bind] in Hev |- *.
  assert (Hty : Spark.type_of c = Some Spark.BooleanType).
  { unfold isVal_column in Hc. simpl in Hc. injection Hc as <-. reflexivity. }
  destruct (append_column_lookup (fun d => VBool (is_val d)) draws c (Spark.rows df) Hev 0)
    as (rs' & Hrs' & Hlen & Hlook).
  unfold Spark.withColumn. rewrite Hsch, Hty, Hrs'. cbn.
  eexists. split; [reflexivity|]. split; [reflexivity|]. split; [exact Hlen|].
  exact Hlook.
Qed.

(** X4: adding the validation column changes nothing else: the new table
    has the columns of the old one followed by the boolean column isVal,
    as many rows, and in every row the same image and the same label. *)
Theorem df_with_val_keeps_images_and_labels
    (recs : list (Value * Value)) (df : Spark.Table) (draws : nat -> Q) :
  Spark.createDataFrame recs Notebook.schema = Some df ->
  exists dfv,
    df_with_val draws df = Some dfv
    /\ Spark.schema dfv = Spark.schema df ++ [("isVal", Spark.BooleanType)]
    /\ length (Spark.rows dfv) = length (Spark.rows df)
    /\ Spark.col_index "isVal" (Spark.schema df) = None
    /\ forall i,
         Spark.cell dfv i "image" = Spark.cell df i "image"
         /\ Spark.cell dfv i "label_col" = Spark.cell df i "label_col".
Proof.
  intros Hdf.
  destruct (df_with_val_rows recs df draws Hdf) as (dfv & Hdfv & Hsch & Hlen & Hrows).
  apply createDataFrame_rows in Hdf as [Hsdf Hrdf].
  exists dfv. split; [exact Hdfv|]. rewrite Hsdf. split; [exact Hsch|].
  split; [exact Hlen|]. split; [reflexivity|].
  intros i. unfold Spark.cell. rewrite Hsch, Hsdf.
  destruct (Spark.rows df !! i) as [r|] eqn:Hr.
  - rewrite (Hrows i r Hr). cbn.
    rewrite Hrdf in Hr. change (map ?f ?l) with (f <$> l) in Hr.
    rewrite list_lookup_fmap in Hr.
    destruct (recs !! i) as [p|]; [|discriminate]. injection Hr as <-.
    split; reflexivity.
  - assert (Hnone : Spark.rows dfv !! i = None).
    { apply lookup_ge_None. rewrite Hlen. apply lookup_ge_None, Hr. }
    rewrite Hnone. split; reflexivity.
Qed.

Lemma df_with_val_keeps_images_and_labels_witness :
  exists dfv,
    df_with_val Inputs.two_draws Inputs.two_rows = Some dfv
    /\ Spark.schema dfv = Spark.schema Inputs.two_rows ++ [("isVal", Spark.BooleanType)]
    /\ length (Spark.rows dfv) = length (Spark.rows Inputs.two_rows)
    /\ Spark.col_index "isVal" (Spark.schema Inputs.two_rows) = None
    /\ forall i,
         Spark.cell dfv i "image" = Spark.cell Inputs.two_rows i "image"
         /\ Spark.cell dfv i "label_col" = Spark.cell Inputs.two_rows i "label_col".
Proof.
  apply (df_with_val_keeps_images_and_labels Inputs.two_records Inputs.two_rows Inputs.two_draws).
  reflexivity.
Defined.

(** X5: the columns the estimator is configured with exist in the table it
    is fitted on, with the types it needs: the validation column isVal is
    boolean, the label column is a long, every mapped feature column is an
    array of floats; and the one feature name it feeds is the key
    [model_fn] reads, so the call does not fail on the features. *)
Theorem estimator_columns_resolve_in_fitted_table
    (recs : list (Value * Value)) (df : Spark.Table) (draws : nat -> Q) :
  Spark.createDataFrame recs Notebook.schema = Some df ->
  exists dfv,
    df_with_val draws df = Some dfv
    /\ Columns.col_type (Sparkdl.isValidationCol est0) (Spark.schema dfv)
       = Some Spark.BooleanType
    /\ Columns.col_type (Sparkdl.labelCol est0) (Spark.schema dfv) = Some Spark.LongType
    /\ (forall feature column,
          Sparkdl.featureMapping est0 !! feature = Some column ->
          feature = "image"
          /\ Columns.col_type column (Spark.schema dfv)
             = Some (Spark.ArrayType Spark.FloatType))
    /\ Columns.col_type (Sparkdl.isValidationCol est0) (Spark.schema df) = None
    /\ (forall hvd_size (features : gmap string TF.Tensor) labels mode g,
          dom features = dom (Sparkdl.featureMapping est0) ->
          Sparkdl.call_model_fn est0 hvd_size features labels mode g
          <> inl (TF.KeyError "image")).
Proof.
  intros Hdf.
  destruct (df_with_val_rows recs df draws Hdf) as (dfv & Hdfv & Hsch & _).
  apply createDataFrame_rows in Hdf as [Hsdf _].
  exists dfv. split; [exact Hdfv|]. rewrite Hsch, Hsdf.
  split; [reflexivity|]. split; [reflexivity|].
  split.
  { intros feature column H. unfold est0 in H. cbn [Sparkdl.featureMapping] in H.
    apply lookup_singleton_Some in H as [<- <-]. split; reflexivity. }
  split; [reflexivity|].
  intros hvd_size features labels mode g Hdom.
  assert (Himg : is_Some (features !! "image")).
  { apply elem_of_dom. rewrite Hdom. unfold est0. cbn [Sparkdl.featureMapping].
    rewrite dom_singleton_L. set_solver. }
  destruct Himg as [image Himg].
  change (Sparkdl.call_model_fn est0 hvd_size features labels mode g)
    with (Model.model_fn hvd_size features labels mode (Sparkdl.params_passed est0) g).
  pose proof (eq_refl : Sparkdl.params_passed est0 !! "hidden1_units" = Some (VInt 100)) as H1.
  pose proof (eq_refl : Sparkdl.params_passed est0 !! "hidden2_units" = Some (VInt 50)) as H2.
  unfold Model.model_fn, TF.getitem. rewrite Himg, H1, H2.
  destruct labels; run_build; discriminate.
Qed.

Lemma estimator_columns_resolve_in_fitted_table_witness :
  exists dfv,
    df_with_val Inputs.two_draws Inputs.two_rows = Some dfv
    /\ Columns.col_type (Sparkdl.isValidationCol est0) (Spark.schema dfv)
       = Some Spark.BooleanType
    /\ Columns.col_type (Sparkdl.labelCol est0) (Spark.schema dfv) = Some Spark.LongType
    /\ (forall feature column,
          Sparkdl.featureMapping est0 !! feature = Some column ->
          feature = "image"
          /\ Columns.col_type column (Spark.schema dfv)
             = Some (Spark.ArrayType Spark.FloatType))
    /\ Columns.col_type (Sparkdl.isValidationCol est0) (Spark.schema Inputs.two_rows) = None
    /\ (forall hvd_size (features : gmap string TF.Tensor) labels mode g,
          dom features = dom (Sparkdl.featureMapping est0) ->
          Sparkdl.call_model_fn est0 hvd_size features labels mode g
          <> inl (TF.KeyError "image")).
Proof.
  apply (estimator_columns_resolve_in_fitted_table Inputs.two_records Inputs.two_rows
           Inputs.two_draws).
  reflexivity.
Defined.

End SplitMore.
(** ** More on the model function *)
Section ModelMore.
Import TF Model.

(** X7: which exception is raised for a missing key: the image feature
    is looked up first, then hidden1_units, then hidden2_units, each
    missing key giving a [KeyError] of that key whatever the mode; and
    outside PREDICT no specification is returned when the labels are
    missing. *)
Theorem model_fn_raises_first_missing_input
    (hvd_size : Z) (features : gmap string Tensor) (labels : option Tensor)
    (mode : Mode) (params : gmap string Value) (g : list Node) :
  (features !! "image" = None ->
   model_fn hvd_size features labels mode params g = inl (KeyError "image"))
  /\ (is_Some (features !! "image") -> params !! "hidden1_units" = None ->
      model_fn hvd_size features labels mode params g = inl (KeyError "hidden1_units"))
  /\ (is_Some (features !! "image") -> is_Some (params !! "hidden1_units") ->
      params !! "hidden2_units" = None ->
      model_fn hvd_size features labels mode params g = inl (KeyError "hidden2_units"))
  /\ (labels = None -> mode <> PREDICT ->
      forall spec g', model_fn hvd_size features labels mode params g <> inr (spec, g')).
Proof.
  split; [|split; [|split]].
  - intros Hi. unfold model_fn, getitem. rewrite Hi. reflexivity.
  - intros [image Hi] H1. unfold model_fn, getitem. rewrite Hi, H1. reflexivity.
  - intros [image Hi] [h1 H1] H2. unfold model_fn, getitem. rewrite Hi, H1, H2. reflexivity.
  - intros -> Hm spec g'.
    destruct (features !! "image") as [image|] eqn:Hi;
      [|unfold model_fn, getitem; rewrite Hi; discriminate].
    destruct (params !! "hidden1_units") as [h1|] eqn:H1;
      [|unfold model_fn, getitem; rewrite Hi, H1; discriminate].
    destruct (params !! "hidden2_units") as [h2|] eqn:H2;
      [|unfold model_fn, getitem; rewrite Hi, H1, H2; discriminate].
    rewrite (model_fn_no_labels hvd_size features params image h1 h2 Hi H1 H2 mode g Hm).
    discriminate.
Qed.

(** X8: prediction does not look at the labels or at the number of
    workers, and evaluation does not look at the number of workers. *)
Theorem predict_and_eval_ignore_worker_count
    (hvd_size hvd_size' : Z) (features : gmap string Tensor) (labels labels' : option Tensor)
    (params : gmap string Value) (g : list Node) :
  model_fn hvd_size features labels PREDICT params g
  = model_fn hvd_size' features labels' PREDICT params g
  /\ model_fn hvd_size features labels EVAL params g
     = model_fn hvd_size' features labels EVAL params g.
Proof.
  unfold model_fn, getitem.
  destruct (features !! "image") as [image|]; [|split; reflexivity].
  destruct (params !! "hidden1_units") as [h1|]; [|split; reflexivity].
  destruct (params !! "hidden2_units") as [h2|]; [|split; reflexivity].
  split.
  - run_build; reflexivity.
  - destruct labels; run_build; reflexivity.
Qed.

(** X9: in every mode the specification carries the same export mapping,
    from the default serving key to the two predictions, also in TRAIN and
    EVAL where the predictions field itself is left out; each
    specification records the mode it was built for; and the graphs built
    for training and for evaluation both begin with the graph built for
    prediction, continue with a common part that holds the loss both
    specifications carry, and end with the training operation and with
    the accuracy metric. *)
Theorem export_mapping_same_in_every_mode
    (hvd_size : Z) (features : gmap string Tensor) (labels : Tensor)
    (params : gmap string Value) (image : Tensor) (h1 h2 : Value) (g : list Node) :
  features !! "image" = Some image ->
  params !! "hidden1_units" = Some h1 ->
  params !! "hidden2_units" = Some h2 ->
  exists sp st se gp shared train_only eval_only outputs loss_t top metric,
    model_fn hvd_size features (Some labels) PREDICT params g = inr (sp, gp)
    /\ model_fn hvd_size features (Some labels) TRAIN params g
       = inr (st, gp ++ shared ++ train_only)
    /\ model_fn hvd_size features (Some labels) EVAL params g
       = inr (se, gp ++ shared ++ eval_only)
    /\ g `prefix_of` gp
    /\ export_outputs sp = Some {[ serving_key := PredictOutput outputs ]}
    /\ export_outputs st = export_outputs sp
    /\ export_outputs se = export_outputs sp
    /\ predictions sp = Some outputs
    /\ predictions st = None /\ predictions se = None
    /\ mode sp = PREDICT /\ mode st = TRAIN /\ mode se = EVAL
    /\ loss st = Some loss_t /\ loss se = Some loss_t /\ NTensor loss_t ∈ shared
    /\ train_op st = Some top /\ NOperation top ∈ train_only
    /\ eval_metric_ops se = Some {[ "accuracy" := metric ]} /\ NMetric metric ∈ eval_only.
Proof.
  intros Hi H1 H2.
  exists (predict_spec image h1 h2), (train_spec hvd_size image h1 h2 labels),
    (eval_spec image h1 h2 labels), (g ++ inference_nodes image h1 h2).
  exists (loss_nodes image h1 h2 labels), (training_nodes hvd_size image h1 h2 labels).
  exists [NMetric (Accuracy labels (classes_of image h1 h2))].
  exists (predictions_of image h1 h2), (loss_of image h1 h2 labels).
  eexists. eexists.
  split; [apply model_fn_PREDICT; assumption|].
  split; [rewrite <- app_assoc; apply model_fn_TRAIN; assumption|].
  split; [rewrite <- app_assoc; apply model_fn_EVAL; assumption|].
  split; [apply prefix_app_r; reflexivity|].
  repeat (split; [reflexivity|]).
  split; [unfold loss_nodes; set_solver|].
  split; [reflexivity|].
  split; [unfold training_nodes; set_solver|].
  split; [reflexivity|]. set_solver.
Qed.

Lemma export_mapping_same_in_every_mode_witness :
  exists sp st se gp shared train_only eval_only outputs loss_t top metric,
    model_fn 4 Inputs.fed_features (Some Inputs.fed_labels) PREDICT
      (Sparkdl.modelFnParams Notebook.est0) [] = inr (sp, gp)
    /\ model_fn 4 Inputs.fed_features (Some Inputs.fed_labels) TRAIN
         (Sparkdl.modelFnParams Notebook.est0) [] = inr (st, gp ++ shared ++ train_only)
    /\ model_fn 4 Inputs.fed_features (Some Inputs.fed_labels) EVAL
         (Sparkdl.modelFnParams Notebook.est0) [] = inr (se, gp ++ shared ++ eval_only)
    /\ [] `prefix_of` gp
    /\ export_outputs sp = Some {[ serving_key := PredictOutput outputs ]}
    /\ export_outputs st = export_outputs sp
    /\ export_outputs se = export_outputs sp
    /\ predictions sp = Some outputs
    /\ predictions st = None /\ predictions se = None
    /\ mode sp = PREDICT /\ mode st = TRAIN /\ mode se = EVAL
    /\ loss st = Some loss_t /\ loss se = Some loss_t /\ NTensor loss_t ∈ shared
    /\ train_op st = Some top /\ NOperation top ∈ train_only
    /\ eval_metric_ops se = Some {[ "accuracy" := metric ]} /\ NMetric metric ∈ eval_only.
Proof.
  apply (export_mapping_same_in_every_mode 4 Inputs.fed_features Inputs.fed_labels
           (Sparkdl.modelFnParams Notebook.est0) (Placeholder "image") (VInt 100) (VInt 50) []);
    reflexivity.
Defined.

Lemma nodes_named_app (name : string) (g1 g2 : list Node) :
  Graph.nodes_named name (g1 ++ g2) = Graph.nodes_named name g1 ++ Graph.nodes_named name g2.
Proof. unfold Graph.nodes_named. apply filter_app. Qed.

(** X10: the logging hook of TRAIN mode asks, every 5000 steps, for the
    tensor named classes_tensor; when the graph held no node of that name
    before the call, the graph built holds exactly one, the arg-max that
    is also exported as the prediction "classes". *)
Theorem logging_hook_names_the_classes_node
    (hvd_size : Z) (features : gmap string Tensor) (labels : Tensor)
    (params : gmap string Value) (image : Tensor) (h1 h2 : Value) (g : list Node) :
  features !! "image" = Some image ->
  params !! "hidden1_units" = Some h1 ->
  params !! "hidden2_units" = Some h2 ->
  Graph.nodes_named "classes_tensor" g = [] ->
  exists spec g' hook outputs classes,
    model_fn hvd_size features (Some labels) TRAIN params g = inr (spec, g')
    /\ training_hooks spec = Some [hook]
    /\ Graph.hook_every_n_iter hook = 5000
    /\ dom (Graph.hook_tensors hook) = {[ "predictions" ]}
    /\ (forall label name,
          Graph.hook_tensors hook !! label = Some name ->
          Graph.nodes_named name g' = [NTensor classes])
    /\ export_outputs spec = Some {[ serving_key := PredictOutput outputs ]}
    /\ outputs !! "classes" = Some classes
    /\ classes = ArgMax (Inference image h1 h2) 1 "classes_tensor".
Proof.
  intros Hi H1 H2 Hg.
  exists (train_spec hvd_size image h1 h2 labels). eexists. eexists.
  exists (predictions_of image h1 h2), (classes_of image h1 h2).
  split; [apply model_fn_TRAIN; assumption|].
  split; [reflexivity|]. split; [reflexivity|].
  split; [cbn [Graph.hook_tensors]; apply dom_singleton_L|].
  split.
  { intros label name H. cbn [Graph.hook_tensors] in H.
    apply lookup_singleton_Some in H as [_ <-].
    rewrite nodes_named_app, Hg. reflexivity. }
  split; [reflexivity|]. split; reflexivity.
Qed.

Lemma logging_hook_names_the_classes_node_witness :
  exists spec g' hook outputs classes,
    model_fn 4 Inputs.fed_features (Some Inputs.fed_labels) TRAIN
      (Sparkdl.modelFnParams Notebook.est0) [] = inr (spec, g')
    /\ training_hooks spec = Some [hook]
    /\ Graph.hook_every_n_iter hook = 5000
    /\ dom (Graph.hook_tensors hook) = {[ "predictions" ]}
    /\ (forall label name,
          Graph.hook_tensors hook !! label = Some name ->
          Graph.nodes_named name g' = [NTensor classes])
    /\ export_outputs spec = Some {[ serving_key := PredictOutput outputs ]}
    /\ outputs !! "classes" = Some classes
    /\ classes = ArgMax (Inference (Placeholder "image") (VInt 100) (VInt 50)) 1 "classes_tensor".
Proof.
  apply (logging_hook_names_the_classes_node 4 Inputs.fed_features Inputs.fed_labels
           (Sparkdl.modelFnParams Notebook.est0) (Placeholder "image") (VInt 100) (VInt 50) []);
    reflexivity.
Defined.

End ModelMore.
(** ** More on the loss *)
Section LossMore.
Import TFSem.

(** X11: the one-hot encoding of the loss fits the labels of the data set:
    for a label from 0 to 9 the cast to 32 bits changes nothing and the
    row of depth 10 has 1 at the position of the label, 0 elsewhere, so it
    sums to 1; for an index outside 0..9 the row is all zeros. *)
Theorem one_hot_depth_covers_labels (l : Z) :
  0 <= l <= 9 ->
  wrap32 l = l
  /\ length (one_hot_row 10 (wrap32 l)) = 10%nat
  /\ (forall k, (k < 10)%nat ->
        one_hot_row 10 (wrap32 l) !! k = Some (if (Z.of_nat k =? l)%Z then 1%Q else 0%Q))
  /\ (Qsum (one_hot_row 10 (wrap32 l)) == 1)%Q
  /\ (forall z, (z < 0)%Z \/ (10 <= z)%Z -> one_hot_row 10 z = repeat 0%Q 10).
Proof.
  intros Hl.
  assert (Hw : wrap32 l = l).
  { unfold wrap32. rewrite Z.mod_small by lia. lia. }
  rewrite Hw. split; [reflexivity|]. split; [reflexivity|].
  split.
  { intros k Hk. unfold one_hot_row. change (map ?f ?s) with (f <$> s).
    rewrite list_lookup_fmap, lookup_seq_lt by exact Hk. reflexivity. }
  split.
  { assert (Hcases : l = 0 \/ l = 1 \/ l = 2 \/ l = 3 \/ l = 4 \/ l = 5 \/ l = 6
                     \/ l = 7 \/ l = 8 \/ l = 9) by lia.
    repeat (destruct Hcases as [->|Hcases]; [reflexivity|]). subst l. reflexivity. }
  intros z Hz. unfold one_hot_row. change (Z.to_nat 10) with 10%nat.
  apply list_eq. intros k. change (map ?f ?s) with (f <$> s). rewrite list_lookup_fmap.
  destruct (decide (k < 10)%nat) as [Hk|Hk].
  - rewrite lookup_seq_lt by exact Hk. cbn [fmap option_fmap option_map].
    destruct (Z.eqb_spec (Z.of_nat (0 + k)) z); [lia|].
    do 10 (destruct k as [|k]; [reflexivity|]). lia.
  - rewrite lookup_seq_ge by lia.
    do 10 (destruct k as [|k]; [lia|]). reflexivity.
Qed.

Lemma one_hot_depth_covers_labels_witness :
  wrap32 3 = 3
  /\ length (one_hot_row 10 (wrap32 3)) = 10%nat
  /\ (forall k, (k < 10)%nat ->
        one_hot_row 10 (wrap32 3) !! k = Some (if (Z.of_nat k =? 3)%Z then 1%Q else 0%Q))
  /\ (Qsum (one_hot_row 10 (wrap32 3)) == 1)%Q
  /\ (forall z, (z < 0)%Z \/ (10 <= z)%Z -> one_hot_row 10 z = repeat 0%Q 10).
Proof. apply (one_hot_depth_covers_labels 3). lia. Defined.

End LossMore.
(** ** More on the copy and the final cleanup *)
Section FilesMore.
Import Notebook Runs.

Context {Transformer : Type}.
Variable fit_oracle :
  nat -> Sparkdl.Estimator -> Spark.Table -> Dbutils.Storage -> option (Transformer * Dbutils.Storage).
Variable transform_oracle : Transformer -> Spark.Table -> option Spark.Table.
Variable draws : nat -> Q.
Variables x_train y_train : Py.ndarray.

Lemma cell_cleanup_run (w : World Transformer) :
  cell_cleanup w
  = (mk_world (Dbutils.mk_storage (Dbutils.outside local_dir (Dbutils.local (files w)))
                 (Dbutils.dbfs (files w)))
       (fits w)
       (log w ++ [Shell "ls -ltr /tmp/horovod_estimator"; Listed "dbfs:/horovod_estimator/";
                  Shell "rm -rf /tmp/horovod_estimator"; Shell "ls -ltr /tmp/horovod_estimator"]),
     Some tt).
Proof.
  unfold cell_cleanup, emit, update_files, mbind, NB_bind. cbn [files fits log].
  rewrite <- !app_assoc. reflexivity.
Qed.

(** When the copy of line 127 does not raise, a checkpoint existed and
    the result is the copied tree. *)
Lemma cp_checkpoints_inv (st st' : Dbutils.Storage) :
  Dbutils.cp "file:/tmp/horovod_estimator/" "dbfs:/horovod_estimator/" true st = Some st' ->
  st' = Dbutils.mk_storage (Dbutils.local st)
          (Dbutils.copy_tree local_dir dbfs_dir (Dbutils.local st) (Dbutils.dbfs st))
  /\ exists rel c, Dbutils.local st !! (local_dir ++ rel) = Some c.
Proof.
  unfold Dbutils.cp.
  change (Dbutils.resolve "file:/tmp/horovod_estimator/") with (Dbutils.Local, local_dir).
  change (Dbutils.resolve "dbfs:/horovod_estimator/") with (Dbutils.Dbfs, dbfs_dir).
  cbn [Dbutils.store Dbutils.set_store].
  destruct (decide (Dbutils.under local_dir (Dbutils.local st) = ∅)) as [He|Hne];
    [discriminate|].
  intros [= <-]. split; [reflexivity|].
  apply map_choose in Hne as (p & c & Hp).
  apply map_lookup_filter_Some in Hp as [Hp [rel Hrel]]. cbn [fst] in Hrel.
  exists rel, c. rewrite <- Hrel. exact Hp.
Qed.

Lemma notebook_success_files (w0 w2 : World Transformer) (vars : Vars Transformer) :
  notebook fit_oracle transform_oracle draws x_train y_train w0 = (w2, Some vars) ->
  exists w1,
    training fit_oracle transform_oracle draws x_train y_train w0 = (w1, Some vars)
    /\ (exists rel c, Dbutils.local (files w1) !! (local_dir ++ rel) = Some c)
    /\ files w2
       = Dbutils.mk_storage (Dbutils.outside local_dir (Dbutils.local (files w1)))
           (Dbutils.copy_tree local_dir dbfs_dir (Dbutils.local (files w1))
              (Dbutils.dbfs (files w1))).
Proof.
  intros H. unfold notebook in H.
  apply bind_success in H as (w1 & vars' & Ht & H).
  apply bind_success in H as (wc & u & Hc & H).
  apply bind_success in H as (wl & u' & Hl & H).
  unfold mret, NB_ret in H. injection H as <- <-.
  exists w1. split; [exact Ht|].
  apply fs_cp_success in Hc as (st & Hcp & ->).
  apply cp_checkpoints_inv in Hcp as [-> Hex]. split; [exact Hex|].
  rewrite cell_cleanup_run in Hl. injection Hl as <-. reflexivity.
Qed.

(** X12: when the whole notebook has run without raising, every
    checkpoint file training left under /tmp/horovod_estimator (there is at
    least one) is on DBFS under /horovod_estimator at the same relative
    path with the same contents, nothing is left under the local
    directory, and the other local files are as training left them. *)
Theorem notebook_leaves_checkpoints_on_dbfs_only
    (w0 w2 : World Transformer) (vars : Vars Transformer) :
  notebook fit_oracle transform_oracle draws x_train y_train w0 = (w2, Some vars) ->
  exists w1,
    training fit_oracle transform_oracle draws x_train y_train w0 = (w1, Some vars)
    /\ (exists rel c, Dbutils.local (files w1) !! (local_dir ++ rel) = Some c)
    /\ (forall rel c,
          Dbutils.local (files w1) !! (local_dir ++ rel) = Some c ->
          Dbutils.dbfs (files w2) !! (dbfs_dir ++ rel) = Some c)
    /\ (forall p, local_dir `prefix_of` p -> Dbutils.local (files w2) !! p = None)
    /\ (forall p, ~ local_dir `prefix_of` p ->
                  Dbutils.local (files w2) !! p = Dbutils.local (files w1) !! p).
Proof.
  intros H. apply notebook_success_files in H as (w1 & Ht & Hex & Hfiles).
  exists w1. split; [exact Ht|]. split; [exact Hex|]. rewrite Hfiles.
  cbn [Dbutils.local Dbutils.dbfs].
  split; [intros rel c; apply copy_tree_copied|].
  split; [intros p; apply outside_lookup_under|intros p; apply outside_lookup_other].
Qed.

(** X13: when fitting does not write to DBFS, the notebook ends with
    dbfs:/horovod_estimator an exact mirror of the local checkpoint
    directory as training left it: what an earlier run had stored there is
    gone (removed before training), and the rest of DBFS is as it was
    before the notebook ran. *)
Theorem notebook_replaces_stale_dbfs_copy
    (w0 w2 : World Transformer) (vars : Vars Transformer) :
  fit_keeps_dbfs fit_oracle ->
  notebook fit_oracle transform_oracle draws x_train y_train w0 = (w2, Some vars) ->
  exists w1,
    training fit_oracle transform_oracle draws x_train y_train w0 = (w1, Some vars)
    /\ (forall rel,
          Dbutils.dbfs (files w2) !! (dbfs_dir ++ rel)
          = Dbutils.local (files w1) !! (local_dir ++ rel))
    /\ (forall q, ~ dbfs_dir `prefix_of` q ->
                  Dbutils.dbfs (files w2) !! q = Dbutils.dbfs (files w0) !! q).
Proof.
  intros Hkeep H. apply notebook_success_files in H as (w1 & Ht & _ & Hfiles).
  exists w1. split; [exact Ht|]. rewrite Hfiles. cbn [Dbutils.dbfs].
  assert (Hdbfs : Dbutils.dbfs (files w1) = Dbutils.outside dbfs_dir (Dbutils.dbfs (files w0))).
  { apply training_success in Ht
      as (data & df & dfv & tr1 & st1 & res & tr2 & st2 & _ & _ & _ & Hf1 & _ & Hf2 & _ & ->).
    cbn [files]. rewrite (Hkeep _ _ _ _ _ _ Hf2), (Hkeep _ _ _ _ _ _ Hf1). reflexivity. }
  split.
  - intros rel.
    destruct (Dbutils.local (files w1) !! (local_dir ++ rel)) as [c|] eqn:Hl.
    + apply copy_tree_copied, Hl.
    + destruct (Dbutils.copy_tree _ _ _ _ !! (dbfs_dir ++ rel)) as [c|] eqn:Hc; [|reflexivity].
      apply copy_tree_origin in Hc as [Hc|Hc]; [congruence|].
      rewrite Hdbfs, outside_lookup_under in Hc; [discriminate|].
      apply prefix_app_r. reflexivity.
  - intros q Hq. rewrite copy_tree_other by exact Hq.
    rewrite Hdbfs. apply outside_lookup_other, Hq.
Qed.

End FilesMore.
Section FilesWitnesses.
Import Notebook Runs.

Lemma demo_notebook_returns :
  exists w2 vars,
    notebook Demo.fit_oracle Demo.transform_oracle Demo.draws Demo.x_train Demo.y_train
      Demo.world = (w2, Some vars).
Proof.
  assert (Hs : exists vars,
            snd (notebook Demo.fit_oracle Demo.transform_oracle Demo.draws Demo.x_train
                   Demo.y_train Demo.world) = Some vars) by (vm_compute; eauto).
  destruct Hs as [vars Hs].
  exists (fst (notebook Demo.fit_oracle Demo.transform_oracle Demo.draws Demo.x_train
                 Demo.y_train Demo.world)), vars.
  rewrite <- Hs. apply surjective_pairing.
Qed.

Lemma demo_fit_keeps_dbfs : fit_keeps_dbfs Demo.fit_oracle.
Proof.
  intros k e t st tr st' H. unfold Demo.fit_oracle in H.
  injection H as _ <-. reflexivity.
Qed.

Lemma notebook_leaves_checkpoints_on_dbfs_only_witness :
  exists w2 vars w1,
    notebook Demo.fit_oracle Demo.transform_oracle Demo.draws Demo.x_train Demo.y_train
      Demo.world = (w2, Some vars)
    /\ training Demo.fit_oracle Demo.transform_oracle Demo.draws Demo.x_train Demo.y_train
         Demo.world = (w1, Some vars)
    /\ (exists rel c, Dbutils.local (files w1) !! (local_dir ++ rel) = Some c)
    /\ (forall rel c,
          Dbutils.local (files w1) !! (local_dir ++ rel) = Some c ->
          Dbutils.dbfs (files w2) !! (dbfs_dir ++ rel) = Some c)
    /\ (forall p, local_dir `prefix_of` p -> Dbutils.local (files w2) !! p = None)
    /\ (forall p, ~ local_dir `prefix_of` p ->
                  Dbutils.local (files w2) !! p = Dbutils.local (files w1) !! p).
Proof.
  destruct demo_notebook_returns as (w2 & vars & Hrun).
  destruct (notebook_leaves_checkpoints_on_dbfs_only Demo.fit_oracle Demo.transform_oracle
              Demo.draws Demo.x_train Demo.y_train Demo.world w2 vars Hrun)
    as (w1 & H).
  exists w2, vars, w1. split; [exact Hrun|]. exact H.
Defined.

Lemma notebook_replaces_stale_dbfs_copy_witness :
  exists w2 vars w1,
    fit_keeps_dbfs Demo.fit_oracle
    /\ notebook Demo.fit_oracle Demo.transform_oracle Demo.draws Demo.x_train Demo.y_train
         Demo.world = (w2, Some vars)
    /\ training Demo.fit_oracle Demo.transform_oracle Demo.draws Demo.x_train Demo.y_train
         Demo.world = (w1, Some vars)
    /\ (forall rel,
          Dbutils.dbfs (files w2) !! (dbfs_dir ++ rel)
          = Dbutils.local (files w1) !! (local_dir ++ rel))
    /\ (forall q, ~ dbfs_dir `prefix_of` q ->
                  Dbutils.dbfs (files w2) !! q = Dbutils.dbfs (files Demo.world) !! q).
Proof.
  destruct demo_notebook_returns as (w2 & vars & Hrun).
  destruct (notebook_replaces_stale_dbfs_copy Demo.fit_oracle Demo.transform_oracle
              Demo.draws Demo.x_train Demo.y_train Demo.world w2 vars
              demo_fit_keeps_dbfs Hrun)
    as (w1 & H).
  exists w2, vars, w1. split; [exact demo_fit_keeps_dbfs|]. split; [exact Hrun|]. exact H.
Defined.

(** In the concrete run the stale file of the earlier copy is gone. *)
Example demo_stale_copy_removed :
  (Dbutils.dbfs (files Demo.world) !! ["horovod_estimator"; "old.ckpt"],
   Dbutils.dbfs (files (fst Demo.finished)) !! ["horovod_estimator"; "old.ckpt"])
  = (Some "stale", None).
Proof. vm_compute. reflexivity. Qed.

End FilesWitnesses.

(** ** When the copy happens *)
Section CopyOrder.
Import Notebook Runs.

Context {Transformer : Type}.

Lemma count_copies_app (l1 l2 : list (Event Transformer)) :
  count_copies (l1 ++ l2) = (count_copies l1 + count_copies l2)%nat.
Proof. unfold count_copies. rewrite filter_app. apply length_app. Qed.

Lemma never_copies_ret {A} (a : A) : never_copies (mret a : NB Transformer A).
Proof. intros w. exists []. rewrite app_nil_r. split; reflexivity. Qed.

Lemma never_copies_lift {A} (o : option A) : never_copies (lift o : NB Transformer A).
Proof. intros w. exists []. rewrite app_nil_r. split; reflexivity. Qed.

Lemma never_copies_update_files (f : Dbutils.Storage -> option Dbutils.Storage) :
  never_copies (update_files f : NB Transformer ()).
Proof.
  intros w. exists []. unfold update_files.
  destruct (f (files w)); simpl; rewrite app_nil_r; split; reflexivity.
Qed.

Lemma never_copies_emit (e : Event Transformer) : is_copy e = false -> never_copies (emit e).
Proof.
  intros He w. exists [e]. split; [reflexivity|].
  unfold count_copies. rewrite filter_cons_False; [reflexivity|]. congruence.
Qed.

Lemma never_copies_bind {A B} (m : NB Transformer A) (k : A -> NB Transformer B) :
  never_copies m -> (forall a, never_copies (k a)) -> never_copies (m ≫= k).
Proof.
  intros Hm Hk w. destruct (Hm w) as (new1 & Hlog1 & Hc1).
  unfold mbind, NB_bind. destruct (m w) as [w1 [a|]]; simpl in *.
  - destruct (Hk a w1) as (new2 & Hlog2 & Hc2).
    exists (new1 ++ new2). rewrite Hlog2, Hlog1, <- app_assoc. split; [reflexivity|].
    rewrite count_copies_app. lia.
  - exists new1. split; assumption.
Qed.

Variable fit_oracle :
  nat -> Sparkdl.Estimator -> Spark.Table -> Dbutils.Storage -> option (Transformer * Dbutils.Storage).
Variable transform_oracle : Transformer -> Spark.Table -> option Spark.Table.
Variable draws : nat -> Q.
Variables x_train y_train : Py.ndarray.

Lemma never_copies_fit (e : Sparkdl.Estimator) (t : Spark.Table) :
  never_copies (fit fit_oracle e t).
Proof.
  intros w. exists [Fit e t]. unfold fit.
  destruct (fit_oracle _ _ _ _) as [[tr st]|]; split; reflexivity.
Qed.

Lemma never_copies_transform (tr : Transformer) (t : Spark.Table) :
  never_copies (transform transform_oracle tr t).
Proof.
  unfold transform. apply never_copies_bind; [apply never_copies_emit; reflexivity|].
  intros _. apply never_copies_lift.
Qed.

Lemma never_copies_training :
  never_copies (training fit_oracle transform_oracle draws x_train y_train).
Proof.
  unfold training, cell_load, cell_estimator, cell_fit, cell_refit, fs_rm, display.
  repeat first
    [ apply never_copies_ret | apply never_copies_lift | apply never_copies_update_files
    | apply never_copies_fit | apply never_copies_transform
    | apply never_copies_emit; reflexivity
    | apply never_copies_bind; [|intros ?]
    | match goal with |- never_copies (let '(_, _) := ?p in _) => destruct p as [[? ?] ?] end ].
Qed.

Lemma fs_cp_raises (from to : string) (recurse : bool) (w : World Transformer) :
  Dbutils.cp from to recurse (files w) = None ->
  fs_cp from to recurse w = (mk_world (files w) (fits w) (log w ++ [Copied from to]), None).
Proof.
  intros H. unfold fs_cp, emit, update_files, mbind, NB_bind. cbn [files fits log].
  rewrite H. reflexivity.
Qed.

Lemma copy_and_cleanup_log (w1 : World Transformer) (vars : Vars Transformer) :
  exists tail,
    log (fst ((cell_copy ≫= fun _ => cell_cleanup ≫= fun _ => mret vars) w1)) = log w1 ++ tail
    /\ count_copies tail = 1%nat /\ stages tail = [].
Proof.
  unfold mbind at 1. unfold NB_bind at 1. unfold cell_copy.
  destruct (Dbutils.cp "file:/tmp/horovod_estimator/" "dbfs:/horovod_estimator/" true (files w1))
    as [st|] eqn:Hcp.
  - rewrite (fs_cp_run _ _ _ w1 st Hcp).
    unfold mbind, NB_bind. rewrite cell_cleanup_run. cbn [fst log files fits mret NB_ret].
    rewrite <- app_assoc. eexists. split; [reflexivity|]. split; reflexivity.
  - rewrite (fs_cp_raises _ _ _ w1 Hcp). cbn [fst log].
    eexists. split; [reflexivity|]. split; reflexivity.
Qed.

(** X14: the copy is asked for at most once in a run, and only when the
    training cells have all run: when one of them raises the notebook
    stops there and no copy is asked for; otherwise the copy is asked for
    exactly once, after the two fits and the two transforms, and no fit or
    transform follows it. *)
Theorem copy_asked_once_and_only_after_training (w : World Transformer) :
  exists new,
    log (fst (notebook fit_oracle transform_oracle draws x_train y_train w)) = log w ++ new
    /\ (count_copies new <= 1)%nat
    /\ (snd (training fit_oracle transform_oracle draws x_train y_train w) = None ->
        count_copies new = 0%nat
        /\ notebook fit_oracle transform_oracle draws x_train y_train w
           = (fst (training fit_oracle transform_oracle draws x_train y_train w), None))
    /\ (is_Some (snd (training fit_oracle transform_oracle draws x_train y_train w)) ->
        exists trained tail,
          new = trained ++ tail
          /\ count_copies trained = 0%nat /\ stages trained = linear_order
          /\ count_copies tail = 1%nat /\ stages tail = []).
Proof.
  destruct (never_copies_training w) as (new1 & Hlog1 & Hc1).
  destruct (traces_training fit_oracle transform_oracle draws x_train y_train w)
    as (new1' & Hlog1' & _ & Hfull).
  rewrite Hlog1 in Hlog1'. apply app_inv_head in Hlog1'. subst new1'.
  destruct (training fit_oracle transform_oracle draws x_train y_train w)
    as [w1 [vars|]] eqn:Ht; cbn [fst snd] in *.
  - rewrite (notebook_after_training _ _ _ _ _ w w1 vars Ht).
    destruct (copy_and_cleanup_log w1 vars) as (tail & Hlog2 & Hc2 & Hs2).
    exists (new1 ++ tail). rewrite Hlog2, Hlog1, <- app_assoc.
    split; [reflexivity|]. rewrite count_copies_app.
    split; [lia|]. split; [discriminate|].
    intros _. exists new1, tail. split; [reflexivity|].
    split; [exact Hc1|]. split; [apply Hfull; eauto|]. split; assumption.
  - rewrite (notebook_not_trained _ _ _ _ _ w w1 Ht). cbn [fst].
    exists new1. split; [exact Hlog1|]. split; [lia|].
    split; [intros _; split; [exact Hc1|reflexivity]|].
    intros [? [=]].
Qed.

End CopyOrder.
